(** * DICOMweb plugin: STOW-RS client batching and STOW-RS server accounting

    A shallow embedding of [Plugin/DicomWebClient.cpp] (the STOW-RS client:
    [AddInstance], [GetSequenceSize], [ParseStowRequest], [SendStowChunks],
    [StowClient]; the GET and WADO-RS retrieve clients: [GetStringValue],
    [GetFromServer], [RetrieveFromServerInternal], [RetrieveFromServer]),
    of [Plugin/StowRs.cpp] (the STOW-RS server: [SetTag],
    [SetSequenceTag], [IsXmlExpected], [StowCallback]) and of
    [Plugin/Wado.cpp] (the WADO server: [LocateInstance], the three
    answering functions, [WadoCallback]).

    The C++ code throws [Orthanc::OrthancException]; here a computation
    returns a [Result] and threads the part of the outside world it talks
    to (the remote DICOMweb server for the clients, the Orthanc store for
    the servers).  Collaborators whose code is not part of the three
    files (the Orthanc REST API, the HTTP transport, jsoncpp, GDCM, the
    plugin configuration) are fields of an environment record. *)

From Stdlib Require Import ZArith NArith List String Ascii Bool Lia.
From Stdlib Require Import DecimalString.
From Stdlib Require OrderedTypeEx Sorted.
Import ListNotations.

Set Warnings "-register-all".

Open Scope string_scope.
Open Scope Z_scope.

(* ================================================================= *)
(** ** Exceptions as results *)

(** The members of [Orthanc::ErrorCode] thrown by the two files, and
    [ErrorCode_Other] for whatever a collaborator throws on its own. *)
Inductive ErrorCode : Type :=
| ErrorCode_InternalError
| ErrorCode_NetworkProtocol
| ErrorCode_BadFileFormat
| ErrorCode_UnknownResource
| ErrorCode_BadRequest
| ErrorCode_NotEnoughMemory
| ErrorCode_Other (code : Z).

Inductive Result (A : Type) : Type :=
| Ok (a : A)
| Throw (e : ErrorCode).

Arguments Ok {A} a.
Arguments Throw {A} e.

(** A computation over a world [W]: the world is threaded even when the
    computation throws, since what was sent before the exception stays
    sent. *)
Definition M (W A : Type) : Type := W -> Result A * W.

Definition ret {W A : Type} (a : A) : M W A := fun w => (Ok a, w).

Definition throw {W A : Type} (e : ErrorCode) : M W A := fun w => (Throw e, w).

Definition bind {W A B : Type} (m : M W A) (k : A -> M W B) : M W B :=
  fun w =>
    match m w with
    | (Ok a, w') => k a w'
    | (Throw e, w') => (Throw e, w')
    end.

Definition lift {W A : Type} (r : Result A) : M W A := fun w => (r, w).

(** Sequencing of computations that touch no world. *)
Definition and_then {A B : Type} (r : Result A) (k : A -> Result B) : Result B :=
  match r with
  | Ok a => k a
  | Throw e => Throw e
  end.

Declare Scope monad_scope.
Delimit Scope monad_scope with monad.
Notation "x <- m ;; k" := (bind m (fun x => k))
  (at level 61, m at next level, right associativity) : monad_scope.
Notation "' pat <- m ;; k" := (bind m (fun x => match x with pat => k end))
  (at level 61, pat pattern, m at next level, right associativity) : monad_scope.
Notation "x <-? r ;; k" := (and_then r (fun x => k))
  (at level 61, r at next level, right associativity) : monad_scope.
Open Scope monad_scope.

(* ================================================================= *)
(** ** Machine integers *)

(** [size_t] is 64 bits wide on the supported platforms and
    [unsigned int] is 32 bits wide; arithmetic wraps around. *)
Definition size_t (z : Z) : Z := z mod 2 ^ 64.

Definition unsigned_int (z : Z) : Z := z mod 2 ^ 32.

(* ================================================================= *)
(** ** Strings *)

Module Toolbox.

(** [Orthanc::Toolbox::ToLowerCase] and [ToUpperCase]: the C [tolower]
    and [toupper] on every character. *)
Definition tolower (c : ascii) : ascii :=
  let n := nat_of_ascii c in
  if (Nat.leb 65 n && Nat.leb n 90)%bool then ascii_of_nat (n + 32) else c.

Definition toupper (c : ascii) : ascii :=
  let n := nat_of_ascii c in
  if (Nat.leb 97 n && Nat.leb n 122)%bool then ascii_of_nat (n - 32) else c.

Fixpoint ToLowerCase (s : string) : string :=
  match s with
  | EmptyString => EmptyString
  | String c r => String (tolower c) (ToLowerCase r)
  end.

Fixpoint ToUpperCase (s : string) : string :=
  match s with
  | EmptyString => EmptyString
  | String c r => String (toupper c) (ToUpperCase r)
  end.

End Toolbox.

Definition CRLF : string := String (ascii_of_nat 13) (String (ascii_of_nat 10) EmptyString).

(** [std::string::size] as a [size_t]. *)
Definition size (s : string) : Z := Z.of_nat (String.length s).

(** [boost::lexical_cast<std::string>] of a [size_t]. *)
Definition lexical_cast (z : Z) : string :=
  NilZero.string_of_uint (N.to_uint (Z.to_N z)).

Fixpoint replicate (n : nat) (c : ascii) : string :=
  match n with
  | O => EmptyString
  | S k => String c (replicate k c)
  end.

(** [std::map<std::string, std::string>] as the list of its bindings,
    which the map keeps in the increasing order of their keys. *)
Definition StringMap : Type := list (string * string).

Fixpoint find (m : StringMap) (key : string) : option string :=
  match m with
  | [] => None
  | (k, v) :: rest => if String.eqb k key then Some v else find rest key
  end.

(** [m[key]] read access: the default-constructed string when absent. *)
Definition at_ (m : StringMap) (key : string) : string :=
  match find m key with
  | Some v => v
  | None => EmptyString
  end.

(** [m[key] = value]: the value of a key the map has is replaced, and
    a new key goes to its place in the order of the keys, which is the
    order of their bytes. *)
Fixpoint assign (m : StringMap) (key value : string) : StringMap :=
  match m with
  | [] => [(key, value)]
  | (k, v) :: rest =>
      match String.compare key k with
      | Lt => (key, value) :: (k, v) :: rest
      | Eq => (k, value) :: rest
      | Gt => (k, v) :: assign rest key value
      end
  end.

(* ================================================================= *)
(** ** JSON values (jsoncpp) *)

Module Json.

Inductive ValueType : Type :=
| nullValue | intValue | uintValue | realValue
| stringValue | booleanValue | arrayValue | objectValue.

(** A [Json::Value].  A real number is kept as its text: no function
    below reads it. *)
Inductive Value : Type :=
| Null
| Int (z : Z)
| UInt (z : Z)
| Real (text : string)
| Str (s : string)
| Boolean (b : bool)
| Array (items : list Value)
| Object (members : list (string * Value)).

Definition type (v : Value) : ValueType :=
  match v with
  | Null => nullValue
  | Int _ => intValue
  | UInt _ => uintValue
  | Real _ => realValue
  | Str _ => stringValue
  | Boolean _ => booleanValue
  | Array _ => arrayValue
  | Object _ => objectValue
  end.

Definition is_type (v : Value) (t : ValueType) : bool :=
  match type v, t with
  | nullValue, nullValue | intValue, intValue | uintValue, uintValue
  | realValue, realValue | stringValue, stringValue
  | booleanValue, booleanValue | arrayValue, arrayValue
  | objectValue, objectValue => true
  | _, _ => false
  end.

Fixpoint lookup (members : list (string * Value)) (key : string) : option Value :=
  match members with
  | [] => None
  | (k, v) :: rest => if String.eqb k key then Some v else lookup rest key
  end.

(** [v.isMember(key)] *)
Definition isMember (v : Value) (key : string) : bool :=
  match v with
  | Object members =>
      match lookup members key with Some _ => true | None => false end
  | _ => false
  end.

(** [v[key]] on a const value: null when the member is absent. *)
Definition get (v : Value) (key : string) : Value :=
  match v with
  | Object members =>
      match lookup members key with Some x => x | None => Null end
  | _ => Null
  end.

(** [v.size()]: the number of items of an array or members of an
    object, 0 otherwise. *)
Definition size (v : Value) : Z :=
  match v with
  | Array items => Z.of_nat (List.length items)
  | Object members => Z.of_nat (List.length members)
  | _ => 0
  end.

(** The items [v[0]], ..., [v[v.size() - 1]] of an array. *)
Definition items (v : Value) : list Value :=
  match v with
  | Array l => l
  | _ => []
  end.

(** [v.asString()] where [v] is known to be a string. *)
Definition asString (v : Value) : string :=
  match v with
  | Str s => s
  | _ => EmptyString
  end.

End Json.

(* ================================================================= *)
(** ** The plugin's answers to its caller *)

Inductive OrthancPluginHttpMethod : Type :=
| OrthancPluginHttpMethod_Get
| OrthancPluginHttpMethod_Post
| OrthancPluginHttpMethod_Put
| OrthancPluginHttpMethod_Delete.

Definition is_Post (m : OrthancPluginHttpMethod) : bool :=
  match m with
  | OrthancPluginHttpMethod_Post => true
  | _ => false
  end.

(** The fields of [OrthancPluginHttpRequest] the two callbacks read;
    [groupsCount] is the length of [groups]. *)
Record OrthancPluginHttpRequest : Type := {
  method : OrthancPluginHttpMethod;
  groups : list string;
  headers : StringMap;
  body : string
}.

Definition groupsCount (request : OrthancPluginHttpRequest) : Z :=
  Z.of_nat (List.length (groups request)).

(** [request->groups[0]] *)
Definition groups0 (request : OrthancPluginHttpRequest) : string :=
  match groups request with
  | g :: _ => g
  | [] => EmptyString
  end.

(* ================================================================= *)
(** ** [Orthanc::ChunkedBuffer] *)

Module ChunkedBuffer.

(** Modelled from the spec: [Orthanc::ChunkedBuffer] belongs to the
    Orthanc framework ([Core/ChunkedBuffer.h]), which is not under
    [src/].  It is the append-only byte sequence of the spec's
    BatchAccumulator: [AddChunk] appends, [GetNumBytes] is the number
    of bytes appended since the buffer was last emptied, and
    [Flatten] hands out the concatenation and leaves the buffer
    empty. *)
Record t : Type := { chunks_ : list string }.

Definition empty : t := {| chunks_ := [] |}.

Definition AddChunk (b : t) (chunk : string) : t :=
  {| chunks_ := chunks_ b ++ [chunk] |}.

Definition GetNumBytes (b : t) : Z :=
  fold_right (fun c acc => size c + acc) 0 (chunks_ b).

Definition Flatten (b : t) : string * t :=
  (String.concat EmptyString (chunks_ b), empty).

End ChunkedBuffer.

(* ================================================================= *)
(** ** [Plugin/DicomWebClient.cpp]: the STOW-RS client *)

Module DicomWebClient.

(** One POST received by a remote DICOMweb server.  [post_instances]
    is a ghost field: the value of [countInstances] when the body was
    sent, that is, the number of parts the body carries. *)
Record Post : Type := {
  post_server : string;
  post_headers : StringMap;
  post_uri : string;
  post_body : string;
  post_instances : Z
}.

(** What [OrthancPlugins::CallServer] does: it throws, or it fills
    [answerBody]. *)
Inductive Answer : Type :=
| CallThrows (e : ErrorCode)
| CallAnswers (answerBody : string).

(** The collaborators of the client.  None of them is under [src/]:
    the Orthanc REST API ([RestApiGet] answering JSON,
    [MemoryBuffer::RestApiGet] answering bytes), the plugin
    configuration, the table of remote servers, the UUID generator,
    jsoncpp's reader, the helpers [ParseAssociativeArray] and
    [UriEncode], and the HTTP transport, which sees the POSTs made so
    far. *)
Record Env : Type := {
  RestApiGet : string -> option Json.Value;
  RestApiGetBuffer : string -> option string;
  GetUnsignedIntegerValue : string -> Z -> Z;
  GetServer : string -> Result string;
  OrthancPluginGenerateUuid : string;
  Reader_parse : string -> option Json.Value;
  ParseAssociativeArray : StringMap -> Json.Value -> string -> Result StringMap;
  UriEncode : string -> StringMap -> string;
  CallServer : list Post -> string -> StringMap -> string -> string -> Answer
}.

(** The transport: the POSTs handed to it so far, oldest first. *)
Definition World : Type := list Post.

Definition AddInstance (target : list string) (instance : Json.Value)
  : Result (list string) :=
  if negb (Json.is_type instance Json.objectValue)
     || negb (Json.isMember instance "ID")
     || negb (Json.is_type (Json.get instance "ID") Json.stringValue)
  then Throw ErrorCode_InternalError
  else Ok (target ++ [Json.asString (Json.get instance "ID")])%list.

(** [GetSequenceSize]: [Ok None] is the C++ [return false], and
    [Ok (Some n)] is [return true] with [result] set to [n]. *)
Definition GetSequenceSize (answer : Json.Value) (tag : string)
           (isMandatory : bool) : Result (option Z) :=
  let upper := Toolbox.ToUpperCase tag in
  let lower := Toolbox.ToLowerCase tag in
  let found :=
    if Json.isMember answer upper then Ok (Some (Json.get answer upper))
    else if Json.isMember answer lower then Ok (Some (Json.get answer lower))
    else if isMandatory then Throw ErrorCode_NetworkProtocol
    else Ok None in
  value <-? found ;;
  match value with
  | None => Ok None
  | Some value =>
      if negb (Json.is_type value Json.objectValue)
         || negb (Json.isMember value "Value")
         || negb (Json.is_type (Json.get value "Value") Json.arrayValue)
      then Throw ErrorCode_NetworkProtocol
      else Ok (Some (Json.size (Json.get value "Value")))
  end.

(** The descendants of a non-instance resource: the level is accepted
    when both the resource and its list of instances can be read; the
    list is what is left in [tmp]. *)
Definition LookupInstances (env : Env) (level resource : string)
  : option Json.Value :=
  match RestApiGet env (level ++ resource) with
  | Some _ => RestApiGet env (level ++ resource ++ "/instances")
  | None => None
  end.

Fixpoint AddInstances (target : list string) (entries : list Json.Value)
  : Result (list string) :=
  match entries with
  | [] => Ok target
  | e :: rest =>
      target' <-? AddInstance target e ;;
      AddInstances target' rest
  end.

(** One turn of the loop of [ParseStowRequest] over [Resources]. *)
Definition ParseStowRequest_resource (env : Env) (instances : list string)
           (r : Json.Value) : Result (list string) :=
  if negb (Json.is_type r Json.stringValue) then Throw ErrorCode_BadFileFormat
  else
    let resource := Json.asString r in
    if String.eqb resource EmptyString then Throw ErrorCode_UnknownResource
    else
      match RestApiGet env ("/instances/" ++ resource) with
      | Some tmp => AddInstance instances tmp
      | None =>
          let listed :=
            match LookupInstances env "/series/" resource with
            | Some tmp => Some tmp
            | None =>
                match LookupInstances env "/studies/" resource with
                | Some tmp => Some tmp
                | None => LookupInstances env "/patients/" resource
                end
            end in
          match listed with
          | Some tmp =>
              if negb (Json.is_type tmp Json.arrayValue)
              then Throw ErrorCode_InternalError
              else AddInstances instances (Json.items tmp)
          | None => Throw ErrorCode_UnknownResource
          end
      end.

Fixpoint ParseStowRequest_resources (env : Env) (instances : list string)
         (resources : list Json.Value) : Result (list string) :=
  match resources with
  | [] => Ok instances
  | r :: rest =>
      instances' <-? ParseStowRequest_resource env instances r ;;
      ParseStowRequest_resources env instances' rest
  end.

(** [ParseStowRequest]: the out parameters are returned as a triple
    (instances, httpHeaders, queryArguments). *)
Definition ParseStowRequest (env : Env) (instances : list string)
           (httpHeaders queryArguments : StringMap)
           (request : OrthancPluginHttpRequest)
  : Result (list string * StringMap * StringMap) :=
  match Reader_parse env (body request) with
  | None => Throw ErrorCode_BadFileFormat
  | Some body =>
      if negb (Json.is_type body Json.objectValue)
         || negb (Json.isMember body "Resources")
         || negb (Json.is_type (Json.get body "Resources") Json.arrayValue)
      then Throw ErrorCode_BadFileFormat
      else
        queryArguments' <-? ParseAssociativeArray env queryArguments body "Arguments" ;;
        httpHeaders' <-? ParseAssociativeArray env httpHeaders body "HttpHeaders" ;;
        instances' <-? ParseStowRequest_resources env instances
                         (Json.items (Json.get body "Resources")) ;;
        Ok (instances', httpHeaders', queryArguments')
  end.

(** The three triggers of [SendStowChunks]. *)
Definition maxInstances (env : Env) : Z :=
  unsigned_int (GetUnsignedIntegerValue env "StowMaxInstances" 10).

Definition maxSize (env : Env) : Z :=
  size_t (size_t (size_t (unsigned_int (GetUnsignedIntegerValue env "StowMaxSize" 10))
                  * 1024) * 1024).

Definition must_flush (env : Env) (chunks : ChunkedBuffer.t)
           (countInstances : Z) (force : bool) : bool :=
  (force && (0 <? countInstances))
  || (negb (maxInstances env =? 0) && (maxInstances env <=? countInstances))
  || (negb (maxSize env =? 0) && (maxSize env <=? ChunkedBuffer.GetNumBytes chunks)).

(** [if (GetSequenceSize(size, response, tag, false, url) && size != 0) throw] *)
Definition RefuseItems (response : Json.Value) (tag : string) : Result unit :=
  s <-? GetSequenceSize response tag false ;;
  match s with
  | Some size => if negb (size =? 0) then Throw ErrorCode_NetworkProtocol else Ok tt
  | None => Ok tt
  end.

(** The checks of [SendStowChunks] on the answer of the remote server,
    as jsoncpp parsed it ([None]: [reader.parse] returned false). *)
Definition CheckStowAnswer (parsed : option Json.Value) (countInstances : Z)
  : Result unit :=
  match parsed with
  | None => Throw ErrorCode_NetworkProtocol
  | Some response =>
      if negb (Json.is_type response Json.objectValue)
         || negb (Json.isMember response "00081199")
      then Throw ErrorCode_NetworkProtocol
      else
        s <-? GetSequenceSize response "00081199" true ;;
        match s with
        | None => Throw ErrorCode_NetworkProtocol
        | Some size =>
            if negb (size =? countInstances) then Throw ErrorCode_NetworkProtocol
            else
              _ <-? RefuseItems response "00081198" ;;
              _ <-? RefuseItems response "0008119A" ;;
              Ok tt
        end
  end.

(** The terminator [SendStowChunks] puts after the last part. *)
Definition Close (boundary : string) : string :=
  CRLF ++ "--" ++ boundary ++ "--" ++ CRLF.

(** [SendStowChunks]: the two reference parameters [chunks] and
    [countInstances] are returned. *)
Definition SendStowChunks (env : Env) (server : string)
           (httpHeaders queryArguments : StringMap) (boundary : string)
           (chunks : ChunkedBuffer.t) (countInstances : Z) (force : bool)
  : M World (ChunkedBuffer.t * Z) :=
  if must_flush env chunks countInstances force
  then
    let chunks := ChunkedBuffer.AddChunk chunks (Close boundary) in
    let '(body, chunks) := ChunkedBuffer.Flatten chunks in
    let uri := UriEncode env "studies" queryArguments in
    fun sent =>
      let post := {| post_server := server; post_headers := httpHeaders;
                     post_uri := uri; post_body := body;
                     post_instances := countInstances |} in
      match CallServer env sent server httpHeaders uri body with
      | CallThrows e => (Throw e, sent ++ [post])%list
      | CallAnswers answerBody =>
          match CheckStowAnswer (Reader_parse env answerBody) countInstances with
          | Throw e => (Throw e, sent ++ [post])%list
          | Ok _ => (Ok (chunks, 0), sent ++ [post])%list
          end
      end
  else ret (chunks, countInstances).

(** The framing [StowClient] puts before the bytes of one instance. *)
Definition PartHeader (boundary : string) (dicom : string) : string :=
  CRLF ++ "--" ++ boundary ++ CRLF
  ++ "Content-Type: application/dicom" ++ CRLF
  ++ "Content-Length: " ++ lexical_cast (size dicom)
  ++ CRLF ++ CRLF.

(** The loop of [StowClient] over [instances]. *)
Fixpoint StowClient_instances (env : Env) (server : string)
         (httpHeaders queryArguments : StringMap) (boundary : string)
         (instances : list string)
         (chunks : ChunkedBuffer.t) (countInstances : Z)
  : M World (ChunkedBuffer.t * Z) :=
  match instances with
  | [] => ret (chunks, countInstances)
  | it :: rest =>
      match RestApiGetBuffer env ("/instances/" ++ it ++ "/file") with
      | Some dicom =>
          let chunks := ChunkedBuffer.AddChunk chunks (PartHeader boundary dicom) in
          let chunks := ChunkedBuffer.AddChunk chunks dicom in
          let countInstances := size_t (countInstances + 1) in
          '(chunks, countInstances) <-
             SendStowChunks env server httpHeaders queryArguments boundary
                            chunks countInstances false ;;
          StowClient_instances env server httpHeaders queryArguments boundary
                               rest chunks countInstances
      | None =>
          StowClient_instances env server httpHeaders queryArguments boundary
                               rest chunks countInstances
      end
  end.

(** What a callback gives back to Orthanc. *)
Inductive Output : Type :=
| OrthancPluginSendMethodNotAllowed (allowed : string)
| OrthancPluginAnswerBuffer (answer : string) (mimeType : string).

Definition LF : string := String (ascii_of_nat 10) EmptyString.

(** The sending part of [StowClient], once the request is parsed. *)
Definition StowClient_send (env : Env) (server : string)
           (httpHeaders queryArguments : StringMap) (boundary : string)
           (instances : list string) : M World Output :=
  '(chunks, countInstances) <-
     StowClient_instances env server httpHeaders queryArguments boundary
                          instances ChunkedBuffer.empty 0 ;;
  _ <- SendStowChunks env server httpHeaders queryArguments boundary
                      chunks countInstances true ;;
  ret (OrthancPluginAnswerBuffer ("{}" ++ LF) "application/json").

Definition StowClient (env : Env) (request : OrthancPluginHttpRequest)
  : M World Output :=
  if negb (groupsCount request =? 1) then throw ErrorCode_BadRequest
  else if negb (is_Post (method request))
  then ret (OrthancPluginSendMethodNotAllowed "POST")
  else
    server <- lift (GetServer env (groups0 request)) ;;
    let boundary := OrthancPluginGenerateUuid env in
    let mime := "multipart/related; type=application/dicom; boundary=" ++ boundary in
    let queryArguments : StringMap := [] in
    let httpHeaders : StringMap := [] in
    let httpHeaders := assign httpHeaders "Accept" "application/dicom+json" in
    let httpHeaders := assign httpHeaders "Expect" EmptyString in
    let httpHeaders := assign httpHeaders "Content-Type" mime in
    '(instances, httpHeaders, queryArguments) <-
       lift (ParseStowRequest env [] httpHeaders queryArguments request) ;;
    StowClient_send env server httpHeaders queryArguments boundary instances.

End DicomWebClient.

(* ================================================================= *)
(** ** GDCM data sets *)

Module gdcm.

(** The [OrthancPlugins::DICOM_TAG_...] constants the server uses
    (their group and element numbers are declared in [Dicom.h]). *)
Inductive Tag : Type :=
| DICOM_TAG_STUDY_INSTANCE_UID
| DICOM_TAG_SERIES_INSTANCE_UID
| DICOM_TAG_SOP_CLASS_UID
| DICOM_TAG_SOP_INSTANCE_UID
| DICOM_TAG_REFERENCED_SOP_CLASS_UID
| DICOM_TAG_REFERENCED_SOP_INSTANCE_UID
| DICOM_TAG_WARNING_REASON
| DICOM_TAG_FAILURE_REASON
| DICOM_TAG_RETRIEVE_URL
| DICOM_TAG_FAILED_SOP_SEQUENCE
| DICOM_TAG_REFERENCED_SOP_SEQUENCE.

Scheme Equality for Tag.

Inductive VR : Type := UI | US | UT | SQ.

(** A data element holds bytes or a sequence of items; an item is a
    nested data set. *)
Inductive DataElement : Type :=
| ByteValue (tag : Tag) (vr : VR) (value : string)
| SequenceValue (tag : Tag) (vr : VR) (items : list (list DataElement)).

Definition DataSet : Type := list DataElement.

Definition Item : Type := DataSet.

Definition SequenceOfItems : Type := list Item.

Definition GetTag (e : DataElement) : Tag :=
  match e with
  | ByteValue tag _ _ => tag
  | SequenceValue tag _ _ => tag
  end.

Definition FindDataElement (dataset : DataSet) (tag : Tag) : bool :=
  existsb (fun e => Tag_beq (GetTag e) tag) dataset.

(** [DataSet::Insert]: a data set holds at most one element per tag,
    and inserting a tag that is already there changes nothing. *)
Definition Insert (dataset : DataSet) (e : DataElement) : DataSet :=
  if FindDataElement dataset (GetTag e) then dataset else (dataset ++ [e])%list.

(** [sequence->AddItem(item)] *)
Definition AddItem (sequence : SequenceOfItems) (item : Item) : SequenceOfItems :=
  (sequence ++ [item])%list.

(** The bytes stored under [tag], if any. *)
Fixpoint GetByteValue (dataset : DataSet) (tag : Tag) : option string :=
  match dataset with
  | [] => None
  | ByteValue t _ v :: rest =>
      if Tag_beq t tag then Some v else GetByteValue rest tag
  | SequenceValue t _ _ :: rest =>
      if Tag_beq t tag then None else GetByteValue rest tag
  end.

End gdcm.

(* ================================================================= *)
(** ** [Plugin/StowRs.cpp]: the STOW-RS server *)

Module StowRs.

Import gdcm.

(** [OrthancPlugins::MultipartItem]; [size_] is the size of [data_]. *)
Record MultipartItem : Type := {
  data_ : string;
  contentType_ : string
}.

(** [OrthancPlugins::ParsedDicomFile], seen through
    [GetRawTagWithDefault]: the raw value of each tag that is there. *)
Definition ParsedDicomFile : Type := Tag -> option string.

Definition GetRawTagWithDefault (dicom : ParsedDicomFile) (tag : Tag)
           (defaultValue : string) : string :=
  match dicom tag with
  | Some v => v
  | None => defaultValue
  end.

(** One call of [MemoryBuffer::RestApiPost] on the Orthanc store. *)
Record StoreCall : Type := {
  call_uri : string;
  call_data : string;
  call_ok : bool
}.

(** The Orthanc store: the POSTs made to it so far, oldest first. *)
Definition World : Type := list StoreCall.

(** The collaborators of the server, none of them under [src/]:
    [GetBaseUrl], [LookupHttpHeader], [ParseContentType],
    [ParseMultipartBody], the constructor of [ParsedDicomFile] (it
    throws on bytes that are not DICOM) and the Orthanc store, which
    decides on each POST knowing the earlier ones. *)
Record Env : Type := {
  GetBaseUrl : OrthancPluginHttpRequest -> string;
  LookupHttpHeader : OrthancPluginHttpRequest -> string -> option string;
  ParseContentType : string -> string * StringMap;
  ParseMultipartBody : string -> string -> Result (list MultipartItem);
  ParseDicom : MultipartItem -> Result ParsedDicomFile;
  RestApiPost : World -> string -> string -> bool
}.

Inductive Output : Type :=
| OrthancPluginSendMethodNotAllowed (allowed : string)
| OrthancPluginSendHttpStatusCode (status : Z)
| AnswerDicom (wadoBase : string) (result : DataSet) (isXml : bool).

Definition SetTag (dataset : DataSet) (tag : Tag) (vr : VR) (value : string)
  : DataSet :=
  Insert dataset (ByteValue tag vr value).

Definition SetSequenceTag (dataset : DataSet) (tag : Tag)
           (sequence : SequenceOfItems) : DataSet :=
  Insert dataset (SequenceValue tag SQ sequence).

Definition IsXmlExpected (env : Env) (request : OrthancPluginHttpRequest) : bool :=
  match LookupHttpHeader env request "accept" with
  | None => false
  | Some accept =>
      let accept := Toolbox.ToLowerCase accept in
      if String.eqb accept "application/dicom+json"
         || String.eqb accept "application/json"
         || String.eqb accept "*/*"
      then false
      else if String.eqb accept "application/dicom+xml"
              || String.eqb accept "application/xml"
              || String.eqb accept "text/xml"
      then true
      else false
  end.

(** The locals of [StowCallback] that live across the loop over the
    parts. *)
Record Locals : Type := {
  isFirst : bool;
  result : DataSet;
  success : SequenceOfItems;
  failed : SequenceOfItems
}.

(** A turn of the loop goes on to the next part, or leaves the
    callback after sending a status code. *)
Inductive Turn : Type :=
| Next (locals : Locals)
| Return (status : Z).

Definition post (env : Env) (uri data : string) : M World bool :=
  fun store =>
    let ok := RestApiPost env store uri data in
    (Ok ok, store ++ [{| call_uri := uri; call_data := data; call_ok := ok |}])%list.

(** One turn of the second loop of [StowCallback]. *)
Definition StowCallback_item (env : Env) (wadoBase expectedStudy : string)
           (locals : Locals) (item : MultipartItem) : M World Turn :=
  if negb (String.eqb (contentType_ item) EmptyString)
     && negb (String.eqb (contentType_ item) "application/dicom")
  then ret (Return 415)
  else
    dicom <- lift (ParseDicom env item) ;;
    let studyInstanceUid :=
      GetRawTagWithDefault dicom DICOM_TAG_STUDY_INSTANCE_UID EmptyString in
    let sopClassUid :=
      GetRawTagWithDefault dicom DICOM_TAG_SOP_CLASS_UID EmptyString in
    let sopInstanceUid :=
      GetRawTagWithDefault dicom DICOM_TAG_SOP_INSTANCE_UID EmptyString in
    let status : DataSet := [] in
    let status := SetTag status DICOM_TAG_REFERENCED_SOP_CLASS_UID UI sopClassUid in
    let status := SetTag status DICOM_TAG_REFERENCED_SOP_INSTANCE_UID UI sopInstanceUid in
    if negb (String.eqb expectedStudy EmptyString)
       && negb (String.eqb studyInstanceUid expectedStudy)
    then
      let status := SetTag status DICOM_TAG_WARNING_REASON US "B006" in
      ret (Next {| isFirst := isFirst locals;
                   result := result locals;
                   success := AddItem (success locals) status;
                   failed := failed locals |})
    else
      let result' :=
        if isFirst locals
        then SetTag (result locals) DICOM_TAG_RETRIEVE_URL UT
                    (wadoBase ++ "studies/" ++ studyInstanceUid)
        else result locals in
      ok <- post env "/instances" (data_ item) ;;
      if ok : bool
      then
        let url :=
          wadoBase ++ "studies/" ++ studyInstanceUid
          ++ "/series/"
          ++ GetRawTagWithDefault dicom DICOM_TAG_SERIES_INSTANCE_UID EmptyString
          ++ "/instances/" ++ sopInstanceUid in
        let status := SetTag status DICOM_TAG_RETRIEVE_URL UT url in
        ret (Next {| isFirst := false;
                     result := result';
                     success := AddItem (success locals) status;
                     failed := failed locals |})
      else
        let status := SetTag status DICOM_TAG_FAILURE_REASON US "0110" in
        ret (Next {| isFirst := false;
                     result := result';
                     success := success locals;
                     failed := AddItem (failed locals) status |}).

Fixpoint StowCallback_items (env : Env) (wadoBase expectedStudy : string)
         (locals : Locals) (items : list MultipartItem) : M World Turn :=
  match items with
  | [] => ret (Next locals)
  | item :: rest =>
      turn <- StowCallback_item env wadoBase expectedStudy locals item ;;
      match turn with
      | Next locals' => StowCallback_items env wadoBase expectedStudy locals' rest
      | Return status => ret (Return status)
      end
  end.

(** The checks of [StowCallback] on the Content-Type header of the
    request: the boundary to split the body with, or the status code
    sent back. *)
Definition CheckContentType (env : Env) (request : OrthancPluginHttpRequest)
  : Z + string :=
  match LookupHttpHeader env request "content-type" with
  | None => inl 400
  | Some header =>
      let '(application, attributes) := ParseContentType env header in
      if negb (String.eqb application "multipart/related")
         || match find attributes "type" with Some _ => false | None => true end
         || match find attributes "boundary" with Some _ => false | None => true end
      then inl 400
      else
        let boundary := at_ attributes "boundary" in
        if negb (String.eqb (at_ attributes "type") "application/dicom")
        then inl 415
        else inr boundary
  end.

(** The locals as [StowCallback] declares them before the loop. *)
Definition initial : Locals :=
  {| isFirst := true; result := []; success := []; failed := [] |}.

Definition StowCallback (env : Env) (request : OrthancPluginHttpRequest)
  : M World Output :=
  let wadoBase := GetBaseUrl env request in
  if negb (is_Post (method request))
  then ret (OrthancPluginSendMethodNotAllowed "POST")
  else
    let expectedStudy :=
      if groupsCount request =? 1 then groups0 request else EmptyString in
    let isXml := IsXmlExpected env request in
    match CheckContentType env request with
    | inl status => ret (OrthancPluginSendHttpStatusCode status)
    | inr boundary =>
        let locals := initial in
        items <- lift (ParseMultipartBody env (body request) boundary) ;;
        turn <- StowCallback_items env wadoBase expectedStudy locals items ;;
        match turn with
        | Return status => ret (OrthancPluginSendHttpStatusCode status)
        | Next locals =>
            let result := result locals in
            let result := SetSequenceTag result DICOM_TAG_FAILED_SOP_SEQUENCE
                                         (failed locals) in
            let result := SetSequenceTag result DICOM_TAG_REFERENCED_SOP_SEQUENCE
                                         (success locals) in
            ret (AnswerDicom wadoBase result isXml)
        end
    end.

End StowRs.

(* ================================================================= *)
(** ** The specification's own words *)

Module Spec.

(** The flush condition as the specification writes it. *)
Definition flush_wanted (maxInstances maxBytes instanceCount bufferSize : Z)
           (force : bool) : Prop :=
  (force = true /\ instanceCount > 0)
  \/ (maxInstances <> 0 /\ instanceCount >= maxInstances)
  \/ (maxBytes <> 0 /\ bufferSize >= maxBytes).

(** [ceil (n / m)] for [m > 0]. *)
Definition ceil_div (n m : Z) : Z := (n + m - 1) / m.

(** The number of items of the sequence [tag] of a STOW-RS answer: the
    member [tag] is an object whose member Value is an array. *)
Definition sequence_items (response : Json.Value) (tag : string) : option Z :=
  match response with
  | Json.Object members =>
      match Json.lookup members tag with
      | Some (Json.Object fields) =>
          match Json.lookup fields "Value" with
          | Some (Json.Array items) => Some (Z.of_nat (List.length items))
          | _ => None
          end
      | _ => None
      end
  | _ => None
  end.

(** The member [tag] is there at all, in either spelling. *)
Definition sequence_present (response : Json.Value) (tag : string) : bool :=
  Json.isMember response (Toolbox.ToUpperCase tag)
  || Json.isMember response (Toolbox.ToLowerCase tag).

(** The four levels of the resource hierarchy and the ordered fallback
    of the resolver over a list of levels: the first level is accepted
    at which the store knows the identifier and, below the instance
    level, lists its instances. *)
Inductive Level : Type := Patient | Study | Series | Instance.

Definition uri (l : Level) : string :=
  match l with
  | Patient => "/patients/"
  | Study => "/studies/"
  | Series => "/series/"
  | Instance => "/instances/"
  end.

Definition matches (env : DicomWebClient.Env) (l : Level) (id : string)
  : option Json.Value :=
  match l with
  | Instance => DicomWebClient.RestApiGet env (uri l ++ id)
  | _ =>
      match DicomWebClient.RestApiGet env (uri l ++ id) with
      | Some _ => DicomWebClient.RestApiGet env (uri l ++ id ++ "/instances")
      | None => None
      end
  end.

Definition descendants (l : Level) (target : list string) (found : Json.Value)
  : Result (list string) :=
  match l with
  | Instance => DicomWebClient.AddInstance target found
  | _ =>
      match found with
      | Json.Array entries => DicomWebClient.AddInstances target entries
      | _ => Throw ErrorCode_InternalError
      end
  end.

Fixpoint Expand (env : DicomWebClient.Env) (levels : list Level)
         (target : list string) (id : string) : Result (list string) :=
  match levels with
  | [] => Throw ErrorCode_UnknownResource
  | l :: rest =>
      match matches env l id with
      | Some found => descendants l target found
      | None => Expand env rest target id
      end
  end.

(** An instance whose file the store hands out. *)
Definition fetchable (env : DicomWebClient.Env) (it : string) : bool :=
  match DicomWebClient.RestApiGetBuffer env ("/instances/" ++ it ++ "/file") with
  | Some _ => true
  | None => false
  end.

(** The bytes one instance adds to the buffer: its framing and its
    file. *)
Definition part_bytes (env : DicomWebClient.Env) (boundary it : string) : Z :=
  match DicomWebClient.RestApiGetBuffer env ("/instances/" ++ it ++ "/file") with
  | Some dicom => size (DicomWebClient.PartHeader boundary dicom) + size dicom
  | None => 0
  end.

Definition total_bytes (env : DicomWebClient.Env) (boundary : string)
           (instances : list string) : Z :=
  fold_right (fun it acc => part_bytes env boundary it + acc) 0 instances.

(** The byte limit cannot trigger: it is disabled, or all the parts
    together stay below it. *)
Definition byte_trigger_idle (env : DicomWebClient.Env) (boundary : string)
           (instances : list string) : Prop :=
  DicomWebClient.maxSize env = 0
  \/ total_bytes env boundary instances < DicomWebClient.maxSize env.

(** The instances carried by a list of POSTs. *)
Definition sum_instances (posts : list DicomWebClient.Post) : Z :=
  fold_right (fun p acc => DicomWebClient.post_instances p + acc) 0 posts.


(** What every status record says of its part: the SOP class and the
    SOP instance it refers to. *)
Definition references (dicom : StowRs.ParsedDicomFile) : gdcm.DataSet :=
  [gdcm.ByteValue gdcm.DICOM_TAG_REFERENCED_SOP_CLASS_UID gdcm.UI
     (StowRs.GetRawTagWithDefault dicom gdcm.DICOM_TAG_SOP_CLASS_UID EmptyString);
   gdcm.ByteValue gdcm.DICOM_TAG_REFERENCED_SOP_INSTANCE_UID gdcm.UI
     (StowRs.GetRawTagWithDefault dicom gdcm.DICOM_TAG_SOP_INSTANCE_UID EmptyString)].

(** A part the study restriction lets through. *)
Definition kept (env : StowRs.Env) (expectedStudy : string)
           (item : StowRs.MultipartItem) : bool :=
  match StowRs.ParseDicom env item with
  | Ok dicom =>
      negb (negb (String.eqb expectedStudy EmptyString)
            && negb (String.eqb
                       (StowRs.GetRawTagWithDefault
                          dicom gdcm.DICOM_TAG_STUDY_INSTANCE_UID EmptyString)
                       expectedStudy))
  | Throw _ => false
  end.

(** The batch-level retrieve URL: the study of the first part that is
    let through, if there is one. *)
Definition batch_url (env : StowRs.Env) (wadoBase expectedStudy : string)
           (items : list StowRs.MultipartItem) : gdcm.DataSet :=
  match List.find (kept env expectedStudy) items with
  | Some item =>
      match StowRs.ParseDicom env item with
      | Ok dicom =>
          [gdcm.ByteValue gdcm.DICOM_TAG_RETRIEVE_URL gdcm.UT
             (wadoBase ++ "studies/"
              ++ StowRs.GetRawTagWithDefault
                   dicom gdcm.DICOM_TAG_STUDY_INSTANCE_UID EmptyString)]
      | Throw _ => []
      end
  | None => []
  end.


End Spec.

(* ================================================================= *)
(** ** Concrete stores, remote servers and requests *)

Module Scenario.

Import Json.

Fixpoint table {A : Type} (rows : list (string * A)) (key : string) : option A :=
  match rows with
  | [] => None
  | (k, v) :: rest => if String.eqb k key then Some v else table rest key
  end.

(** A STOW-RS answer whose sequence 00081199 has [n] items. *)
Definition accepted (n : nat) : Value :=
  Object [("00081199", Object [("Value", Array (List.repeat (Object []) n))])].

(** The same with one item in the failed sequence 00081198. *)
Definition accepted_with_failure (n : nat) : Value :=
  Object [("00081199", Object [("Value", Array (List.repeat (Object []) n))]);
          ("00081198", Object [("Value", Array [Object []])])].

(** jsoncpp's reader on the few texts the scenarios exchange: each text
    stands for the JSON document beside it. *)
Definition documents : list (string * Value) :=
  [ ("accepted 1", accepted 1);
    ("accepted 2", accepted 2);
    ("accepted 1, failed 1", accepted_with_failure 1);
    ("Resources: [x]", Object [("Resources", Array [Str "x"])]);
    ("Resources: [s]", Object [("Resources", Array [Str "s"])]);
    ("Resources: [empty string]", Object [("Resources", Array [Str EmptyString])]);
    ("Resources: [a, gone, b]",
     Object [("Resources", Array [Str "a"; Str "gone"; Str "b"])]) ].

(** An Orthanc with the given JSON resources, instance files and
    limits, talking to a remote server that gives the listed answers
    one POST after the other and then stops answering. *)
Definition client (StowMaxInstances StowMaxSize : Z)
           (resources : list (string * Value)) (files : list (string * string))
           (answers : list string) : DicomWebClient.Env :=
  {| DicomWebClient.RestApiGet := table resources;
     DicomWebClient.RestApiGetBuffer := table files;
     DicomWebClient.GetUnsignedIntegerValue :=
       fun key defaultValue =>
         if String.eqb key "StowMaxInstances" then StowMaxInstances
         else if String.eqb key "StowMaxSize" then StowMaxSize
         else defaultValue;
     DicomWebClient.GetServer := fun name => Ok ("http://" ++ name ++ "/dicom-web/");
     DicomWebClient.OrthancPluginGenerateUuid := "6f1c2a9e-boundary";
     DicomWebClient.Reader_parse := table documents;
     DicomWebClient.ParseAssociativeArray := fun target _ _ => Ok target;
     DicomWebClient.UriEncode := fun uri _ => uri;
     DicomWebClient.CallServer :=
       fun sent _ _ _ _ =>
         match nth_error answers (List.length sent) with
         | Some answer => DicomWebClient.CallAnswers answer
         | None => DicomWebClient.CallThrows (ErrorCode_Other 0)
         end |}.

Definition instance (id : string) : string * Value :=
  ("/instances/" ++ id, Object [("ID", Str id)]).

(** Three small instances, sent two at a time. *)
Definition small : DicomWebClient.Env :=
  client 2 0 []
         [("/instances/a/file", "AAAA"); ("/instances/b/file", "BB");
          ("/instances/c/file", "C")]
         ["accepted 2"; "accepted 1"].

(** Two instances of one mebibyte each, with the default instance limit
    and a byte limit of one mebibyte. *)
Definition mebibyte : string := replicate (N.to_nat 1048576) "x"%char.

Definition large : DicomWebClient.Env :=
  client 10 1 []
         [("/instances/a/file", mebibyte); ("/instances/b/file", mebibyte)]
         ["accepted 1"; "accepted 1"].

(** A remote server that reports a failed instance. *)
Definition failing : DicomWebClient.Env :=
  client 2 0 [] [("/instances/a/file", "AAAA")] ["accepted 1, failed 1"].

(** A store in which the identifier x names an instance and also a
    patient with two instances. *)
Definition two_levels : DicomWebClient.Env :=
  client 10 10
         [ instance "x";
           ("/patients/x", Object [("ID", Str "x")]);
           ("/patients/x/instances",
            Array [Object [("ID", Str "i1")]; Object [("ID", Str "i2")]]) ]
         [] [].

(** A store with one study of two instances. *)
Definition one_study : DicomWebClient.Env :=
  client 10 10
         [ ("/studies/s", Object [("ID", Str "s")]);
           ("/studies/s/instances",
            Array [Object [("ID", Str "i1")]; Object [("ID", Str "i2")]]) ]
         [] [].

(** A store whose list of the instances of a study holds bare
    identifiers instead of objects. *)
Definition bare_listing : DicomWebClient.Env :=
  client 10 10
         [ ("/studies/s", Object [("ID", Str "s")]);
           ("/studies/s/instances", Array [Str "i1"; Str "i2"]) ]
         [] [].

(** A store where the file of the instance gone cannot be read. *)
Definition with_gap : DicomWebClient.Env :=
  client 10 10
         [ instance "a"; instance "gone"; instance "b" ]
         [("/instances/a/file", "AAAA"); ("/instances/b/file", "BB")]
         ["accepted 2"].

Definition stow_request (text : string) : OrthancPluginHttpRequest :=
  {| method := OrthancPluginHttpMethod_Post;
     groups := ["remote"];
     headers := [];
     body := text |}.

(** *** The server side *)

Fixpoint split_on (sep : ascii) (s : string) : list string :=
  match s with
  | EmptyString => [EmptyString]
  | String c r =>
      if Ascii.eqb c sep then EmptyString :: split_on sep r
      else
        match split_on sep r with
        | t :: ts => String c t :: ts
        | [] => [String c EmptyString]
        end
  end.

Fixpoint strip_left (s : string) : string :=
  match s with
  | String " " r => strip_left r
  | _ => s
  end.

Fixpoint strip_right (s : string) : string :=
  match s with
  | EmptyString => EmptyString
  | String c r =>
      match strip_right r with
      | EmptyString => if Ascii.eqb c " " then EmptyString else String c EmptyString
      | r' => String c r'
      end
  end.

Definition strip (s : string) : string := strip_right (strip_left s).

Definition quote : ascii := ascii_of_nat 34.

Fixpoint drop_last_quote (s : string) : option string :=
  match s with
  | EmptyString => None
  | String c EmptyString => if Ascii.eqb c quote then Some EmptyString else None
  | String c r =>
      match drop_last_quote r with
      | Some r' => Some (String c r')
      | None => None
      end
  end.

Definition unquote (s : string) : string :=
  match s with
  | String c r =>
      if Ascii.eqb c quote
      then match drop_last_quote r with Some inner => inner | None => s end
      else s
  | EmptyString => s
  end.

(** Modelled from the spec: [OrthancPlugins::ParseContentType] is
    defined in a part of the plugin that is not under [src/].  The
    header is cut at the semicolons; the first piece, without its
    surrounding spaces and in lower case, is the base media type; each
    other piece of the form key=value gives a parameter, the key in
    lower case and one layer of surrounding quotes taken off the
    value. *)
Definition ParseContentType (header : string) : string * StringMap :=
  match split_on ";" header with
  | [] => (EmptyString, [])
  | application :: parameters =>
      (Toolbox.ToLowerCase (strip application),
       fold_left
         (fun attributes parameter =>
            match split_on "=" parameter with
            | [key; value] =>
                assign attributes (Toolbox.ToLowerCase (strip key)) (unquote (strip value))
            | _ => attributes
            end)
         parameters [])
  end.

Definition dicom (study series sopClass sopInstance : string)
  : StowRs.ParsedDicomFile :=
  fun tag =>
    match tag with
    | gdcm.DICOM_TAG_STUDY_INSTANCE_UID => Some study
    | gdcm.DICOM_TAG_SERIES_INSTANCE_UID => Some series
    | gdcm.DICOM_TAG_SOP_CLASS_UID => Some sopClass
    | gdcm.DICOM_TAG_SOP_INSTANCE_UID => Some sopInstance
    | _ => None
    end.

Definition part (data : string) : StowRs.MultipartItem :=
  {| StowRs.data_ := data; StowRs.contentType_ := "application/dicom" |}.

(** An Orthanc whose multipart parser finds the given parts in any
    body, whose DICOM parser knows the listed files, and whose store
    refuses the listed files. *)
Definition server (parts : list StowRs.MultipartItem)
           (files : list (string * StowRs.ParsedDicomFile))
           (refused : list string) : StowRs.Env :=
  {| StowRs.GetBaseUrl := fun _ => "http://localhost:8042/dicom-web/";
     StowRs.LookupHttpHeader := fun request name => find (headers request) name;
     StowRs.ParseContentType := ParseContentType;
     StowRs.ParseMultipartBody := fun _ _ => Ok parts;
     StowRs.ParseDicom :=
       fun item =>
         match table files (StowRs.data_ item) with
         | Some d => Ok d
         | None => Throw ErrorCode_BadFileFormat
         end;
     StowRs.RestApiPost :=
       fun _ _ data => negb (existsb (String.eqb data) refused) |}.

Definition files : list (string * StowRs.ParsedDicomFile) :=
  [ ("file 1", dicom "1.2.1" "1.2.1.1" "1.2.840.10008.5.1.4.1.1.2" "1.2.1.1.1");
    ("file 2", dicom "1.2.2" "1.2.2.1" "1.2.840.10008.5.1.4.1.1.2" "1.2.2.1.1");
    ("file 3", dicom "1.2.1" "1.2.1.1" "1.2.840.10008.5.1.4.1.1.2" "1.2.1.1.2") ].

(** The store refuses the first file, of study 1.2.1, and takes the
    second, of study 1.2.2. *)
Definition first_refused : StowRs.Env :=
  server [part "file 1"; part "file 2"] files ["file 1"].

(** Three parts, the second of another study than the other two, and
    a store that refuses the third. *)
Definition mixed : StowRs.Env :=
  server [part "file 1"; part "file 2"; part "file 3"] files ["file 3"].

Definition post_request (study : list string) (contentType : string)
  : OrthancPluginHttpRequest :=
  {| method := OrthancPluginHttpMethod_Post;
     groups := study;
     headers := [("content-type", contentType)];
     body := "(multipart body)" |}.


End Scenario.


(* ================================================================= *)
(** ** [Plugin/DicomWebClient.cpp]: the GET and WADO-RS retrieve clients *)

Module DicomWebRetrieve.

(** One GET handed to the transport. *)
Record Get : Type := {
  get_server : string;
  get_headers : StringMap;
  get_uri : string
}.

(** One POST made to the Orthanc store. *)
Record StorePost : Type := {
  store_uri : string;
  store_data : string
}.

(** The transport and the Orthanc store, as the retrieve client has
    used them so far. *)
Record World : Type := {
  gets : list Get;
  posts : list StorePost
}.

(** What [OrthancPlugins::CallServer] does with a GET: it throws, or it
    fills [answerBody] and [answerHeaders] (a [std::map], listed in the
    order of its keys). *)
Inductive Answer : Type :=
| CallThrows (e : ErrorCode)
| CallAnswers (answerBody : string) (answerHeaders : StringMap).

(** The collaborators, none of them under [src/]: the table of remote
    servers, jsoncpp's reader and writer, [ParseAssociativeArray],
    [UriEncode], the HTTP transport, [Toolbox::TokenizeString] and
    [Toolbox::StripSpaces] of the Orthanc framework, the multipart
    parser, and [MemoryBuffer::RestApiPost] with [MemoryBuffer::ToJson]
    ([None] is the buffer left by a POST that failed). *)
Record Env : Type := {
  GetServer : string -> Result string;
  Reader_parse : string -> option Json.Value;
  toStyledString : Json.Value -> string;
  ParseAssociativeArray : StringMap -> Json.Value -> string -> Result StringMap;
  UriEncode : string -> StringMap -> string;
  CallServer : list Get -> string -> StringMap -> string -> Answer;
  TokenizeString : string -> ascii -> list string;
  StripSpaces : string -> string;
  ParseMultipartBody : string -> string -> Result (list StowRs.MultipartItem);
  RestApiPost : list StorePost -> string -> string -> option string;
  ToJson : option string -> Result Json.Value
}.

(** [GetStringValue]: the C++ [bool] and the new value of [target]. *)
Definition GetStringValue (json : Json.Value) (key : string)
  : Result (bool * string) :=
  if negb (Json.is_type json Json.objectValue) then Throw ErrorCode_BadFileFormat
  else if negb (Json.isMember json key) then Ok (false, EmptyString)
  else if negb (Json.is_type (Json.get json key) Json.stringValue)
  then Throw ErrorCode_BadFileFormat
  else Ok (true, Json.asString (Json.get json key)).

(** What a callback gives back to Orthanc: the headers it set with
    [OrthancPluginSetHttpHeader], in order, and its answer. *)
Inductive Output : Type :=
| OrthancPluginSendMethodNotAllowed (allowed : string)
| OrthancPluginAnswerBuffer (headers : StringMap) (answer : string) (mimeType : string).

(** The loop of [GetFromServer] over the headers of the answer: the
    content type found so far and the headers forwarded so far. *)
Fixpoint GetFromServer_headers (answerHeaders : StringMap)
         (contentType : string) (forwarded : StringMap) : string * StringMap :=
  match answerHeaders with
  | [] => (contentType, forwarded)
  | (first, second) :: rest =>
      let key := Toolbox.ToLowerCase first in
      if String.eqb key "content-type"
      then GetFromServer_headers rest second forwarded
      else if String.eqb key "transfer-encoding"
      then GetFromServer_headers rest contentType forwarded
      else GetFromServer_headers rest contentType (forwarded ++ [(first, second)])%list
  end.

Definition call (env : Env) (server : string) (httpHeaders : StringMap)
           (uri : string) : M World (string * StringMap) :=
  fun w =>
    let w' := {| gets := (gets w
                          ++ [{| get_server := server;
                                 get_headers := httpHeaders;
                                 get_uri := uri |}])%list;
                 posts := posts w |} in
    match CallServer env (gets w) server httpHeaders uri with
    | CallThrows e => (Throw e, w')
    | CallAnswers answerBody answerHeaders => (Ok (answerBody, answerHeaders), w')
    end.

Definition GetFromServer (env : Env) (request : OrthancPluginHttpRequest)
  : M World Output :=
  if negb (is_Post (method request))
  then ret (OrthancPluginSendMethodNotAllowed "POST")
  else
    server <- lift (GetServer env (groups0 request)) ;;
    match Reader_parse env (body request) with
    | None => throw ErrorCode_BadFileFormat
    | Some body =>
        if negb (Json.is_type body Json.objectValue) then throw ErrorCode_BadFileFormat
        else
          '(found, tmp) <- lift (GetStringValue body "Uri") ;;
          if negb found then throw ErrorCode_BadFileFormat
          else
            getArguments <- lift (ParseAssociativeArray env [] body "Arguments") ;;
            let uri := UriEncode env tmp getArguments in
            httpHeaders <- lift (ParseAssociativeArray env [] body "HttpHeaders") ;;
            '(answerBody, answerHeaders) <- call env server httpHeaders uri ;;
            let '(contentType, forwarded) :=
              GetFromServer_headers answerHeaders "application/octet-stream" [] in
            ret (OrthancPluginAnswerBuffer forwarded answerBody contentType)
    end.

Definition quote : ascii := ascii_of_nat 34.

(** The removal of the quotes around the type parameter in
    [RetrieveFromServerInternal]. *)
Definition Unquote (type : string) : string :=
  let len := String.length type in
  if Nat.leb 2 len
     && match String.get 0 type with
        | Some c => Ascii.eqb c quote
        | None => false
        end
     && match String.get (len - 1) type with
        | Some c => Ascii.eqb c quote
        | None => false
        end
  then String.substring 1 (len - 2) type
  else type.

(** The first loop of [RetrieveFromServerInternal] over the headers of
    the answer: the pieces of the first Content-Type header. *)
Fixpoint FindContentType (env : Env) (answerHeaders : StringMap) : list string :=
  match answerHeaders with
  | [] => []
  | (first, second) :: rest =>
      if String.eqb (Toolbox.ToLowerCase (StripSpaces env first)) "content-type"
      then TokenizeString env second ";"
      else FindContentType env rest
  end.

(** The loop over the parameters of the content type: the type and the
    boundary found so far. *)
Fixpoint ContentTypeParameters (env : Env) (parameters : list string)
         (type boundary : string) : string * string :=
  match parameters with
  | [] => (type, boundary)
  | parameter :: rest =>
      match TokenizeString env parameter "=" with
      | [token0; token1] =>
          let s := Toolbox.ToLowerCase (StripSpaces env token0) in
          if String.eqb s "type"
          then ContentTypeParameters env rest
                 (Toolbox.ToLowerCase (Unquote (StripSpaces env token1))) boundary
          else if String.eqb s "boundary"
          then ContentTypeParameters env rest type (StripSpaces env token1)
          else ContentTypeParameters env rest type boundary
      | _ => ContentTypeParameters env rest type boundary
      end
  end.

(** [std::set<std::string>] as the list of its elements in increasing
    order, and [insert]. *)
Fixpoint insert (x : string) (s : list string) : list string :=
  match s with
  | [] => [x]
  | y :: rest =>
      match String.compare x y with
      | Lt => x :: y :: rest
      | Eq => y :: rest
      | Gt => y :: insert x rest
      end
  end.

Definition store (env : Env) (uri data : string) : M World (option string) :=
  fun w =>
    (Ok (RestApiPost env (posts w) uri data),
     {| gets := gets w;
        posts := (posts w ++ [{| store_uri := uri; store_data := data |}])%list |}).

(** The loop of [RetrieveFromServerInternal] over the parts of the
    answer. *)
Fixpoint RetrieveFromServerInternal_parts (env : Env)
         (parts : list StowRs.MultipartItem) (instances : list string)
  : M World (list string) :=
  match parts with
  | [] => ret instances
  | part :: rest =>
      if negb (String.eqb (StowRs.contentType_ part) "application/dicom")
      then throw ErrorCode_NetworkProtocol
      else
        tmp <- store env "/instances" (StowRs.data_ part) ;;
        result <- lift (ToJson env tmp) ;;
        if negb (Json.is_type result Json.objectValue)
           || negb (Json.isMember result "ID")
           || negb (Json.is_type (Json.get result "ID") Json.stringValue)
        then throw ErrorCode_InternalError
        else
          RetrieveFromServerInternal_parts env rest
            (insert (Json.asString (Json.get result "ID")) instances)
  end.

(** The path [RetrieveFromServerInternal] asks the remote server for. *)
Definition RetrievePath (study series instance : string) : string :=
  let tmpUri := "studies/" ++ study in
  if negb (String.eqb series EmptyString)
  then
    let tmpUri := tmpUri ++ "/series/" ++ series in
    if negb (String.eqb instance EmptyString)
    then tmpUri ++ "/instances/" ++ instance
    else tmpUri
  else tmpUri.

Definition RetrieveFromServerInternal (env : Env) (instances : list string)
           (server : string) (httpHeaders getArguments : StringMap)
           (resource : Json.Value) : M World (list string) :=
  if negb (Json.is_type resource Json.objectValue) then throw ErrorCode_BadFileFormat
  else
    '(found, study) <- lift (GetStringValue resource "Study") ;;
    if negb found || String.eqb study EmptyString then throw ErrorCode_BadFileFormat
    else
      '(_, series) <- lift (GetStringValue resource "Series") ;;
      '(_, instance) <- lift (GetStringValue resource "Instance") ;;
      if String.eqb series EmptyString && negb (String.eqb instance EmptyString)
      then throw ErrorCode_BadFileFormat
      else
        let uri := UriEncode env (RetrievePath study series instance) getArguments in
        '(answerBody, answerHeaders) <- call env server httpHeaders uri ;;
        match FindContentType env answerHeaders with
        | [] => throw ErrorCode_NetworkProtocol
        | contentType0 :: parameters =>
            if negb (String.eqb (StripSpaces env (Toolbox.ToLowerCase contentType0))
                                "multipart/related")
            then throw ErrorCode_NetworkProtocol
            else
              let '(type, boundary) :=
                ContentTypeParameters env parameters EmptyString EmptyString in
              if negb (String.eqb type "application/dicom")
              then throw ErrorCode_NetworkProtocol
              else if String.eqb boundary EmptyString
              then throw ErrorCode_NetworkProtocol
              else
                parts <- lift (ParseMultipartBody env answerBody boundary) ;;
                RetrieveFromServerInternal_parts env parts instances
        end.

(** The loop of [RetrieveFromServer] over the resources. *)
Fixpoint RetrieveFromServer_resources (env : Env) (server : string)
         (httpHeaders getArguments : StringMap) (resources : list Json.Value)
         (instances : list string) : M World (list string) :=
  match resources with
  | [] => ret instances
  | resource :: rest =>
      instances' <- RetrieveFromServerInternal env instances server httpHeaders
                                               getArguments resource ;;
      RetrieveFromServer_resources env server httpHeaders getArguments rest instances'
  end.

(** The JSON answer of [RetrieveFromServer]. *)
Definition Status (instances : list string) : Json.Value :=
  Json.Object [("Instances", Json.Array (map Json.Str instances))].

Definition RetrieveFromServer (env : Env) (request : OrthancPluginHttpRequest)
  : M World Output :=
  if negb (is_Post (method request))
  then ret (OrthancPluginSendMethodNotAllowed "POST")
  else
    server <- lift (GetServer env (groups0 request)) ;;
    match Reader_parse env (body request) with
    | None => throw ErrorCode_BadFileFormat
    | Some body =>
        if negb (Json.is_type body Json.objectValue)
           || negb (Json.isMember body "Resources")
           || negb (Json.is_type (Json.get body "Resources") Json.arrayValue)
        then throw ErrorCode_BadFileFormat
        else
          httpHeaders <- lift (ParseAssociativeArray env [] body "HttpHeaders") ;;
          getArguments <- lift (ParseAssociativeArray env [] body "Arguments") ;;
          instances <- RetrieveFromServer_resources env server httpHeaders getArguments
                         (Json.items (Json.get body "Resources")) [] ;;
          ret (OrthancPluginAnswerBuffer [] (toStyledString env (Status instances))
                                         "application/json")
    end.

End DicomWebRetrieve.


(* ================================================================= *)
(** ** [Plugin/Wado.cpp]: the WADO server *)

Module Wado.

(** The fields of [OrthancPluginHttpRequest] that [WadoCallback] reads:
    the method and the GET arguments, [getKeys[i]] with
    [getValues[i]]. *)
Record HttpRequest : Type := {
  request_method : OrthancPluginHttpMethod;
  getArguments : list (string * string)
}.

(** The collaborators, none of them under [src/]: the three lookups of
    the Orthanc SDK ([None] is the null pointer), [RestApiGetJson] and
    [RestApiGetString] of the plugin, and the decoding of a PNG image
    followed by its encoding as JPEG, which may throw. *)
Record Env : Type := {
  OrthancPluginLookupInstance : string -> option string;
  OrthancPluginLookupSeries : string -> option string;
  OrthancPluginLookupStudy : string -> option string;
  RestApiGetJson : string -> option Json.Value;
  RestApiGetString : string -> option string;
  PngToJpeg : string -> Result string
}.

Definition MapWadoToOrthancIdentifier (func : string -> option string)
           (dicom : string) : option string :=
  func dicom.

(** The five variables the first loop of [LocateInstance] fills. *)
Record Arguments : Type := {
  requestType : string;
  studyUid : string;
  seriesUid : string;
  objectUid : string;
  contentType : string
}.

Definition LocateInstance_argument (a : Arguments) (argument : string * string)
  : Arguments :=
  let '(key, value) := argument in
  if String.eqb key "studyUID"
  then {| requestType := requestType a; studyUid := value; seriesUid := seriesUid a;
          objectUid := objectUid a; contentType := contentType a |}
  else if String.eqb key "seriesUID"
  then {| requestType := requestType a; studyUid := studyUid a; seriesUid := value;
          objectUid := objectUid a; contentType := contentType a |}
  else if String.eqb key "objectUID"
  then {| requestType := requestType a; studyUid := studyUid a; seriesUid := seriesUid a;
          objectUid := value; contentType := contentType a |}
  else if String.eqb key "requestType"
  then {| requestType := value; studyUid := studyUid a; seriesUid := seriesUid a;
          objectUid := objectUid a; contentType := contentType a |}
  else if String.eqb key "contentType"
  then {| requestType := requestType a; studyUid := studyUid a; seriesUid := seriesUid a;
          objectUid := objectUid a; contentType := value |}
  else a.

Definition LocateInstance_arguments (contentType0 : string)
           (request : HttpRequest) : Arguments :=
  fold_left LocateInstance_argument (getArguments request)
            {| requestType := EmptyString; studyUid := EmptyString;
               seriesUid := EmptyString; objectUid := EmptyString;
               contentType := contentType0 |}.

(** [info[key]] on a value that is not const: jsoncpp takes a null
    value for an empty object and asserts that any other value is an
    object; [None] is the failed assertion. *)
Definition member (info : Json.Value) (key : string) : option Json.Value :=
  match info with
  | Json.Null => Some Json.Null
  | Json.Object _ => Some (Json.get info key)
  | _ => None
  end.

(** What [LocateInstance] does: it returns true with [instance] and
    [contentType] set, it returns false, or jsoncpp's assertion
    fails. *)
Inductive Located : Type :=
| Found (instance contentType : string)
| NotFound
| AssertionFailed.

(** The sanity check of [LocateInstance] on the series or the study of
    the instance: [info[tag]["MainDicomTags"][uidTag] != uid]. *)
Definition Belongs (env : Env) (uri uidTag uid : string) : option bool :=
  match RestApiGetJson env uri with
  | None => Some false
  | Some info =>
      match member info "MainDicomTags" with
      | None => None
      | Some tags =>
          match member tags uidTag with
          | None => None
          | Some value =>
              Some (match value with
                    | Json.Str s => String.eqb s uid
                    | _ => false
                    end)
          end
      end
  end.

Definition LocateInstance (env : Env) (contentType0 : string)
           (request : HttpRequest) : Located :=
  let a := LocateInstance_arguments contentType0 request in
  if negb (String.eqb (requestType a) "WADO") then NotFound
  else if String.eqb (objectUid a) EmptyString then NotFound
  else
    match MapWadoToOrthancIdentifier (OrthancPluginLookupInstance env) (objectUid a) with
    | None => NotFound
    | Some instance =>
        let series_ok :=
          if negb (String.eqb (seriesUid a) EmptyString)
          then
            match MapWadoToOrthancIdentifier (OrthancPluginLookupSeries env)
                                             (seriesUid a) with
            | None => Some false
            | Some _ =>
                Belongs env ("/instances/" ++ instance ++ "/series")
                        "SeriesInstanceUID" (seriesUid a)
            end
          else Some true in
        match series_ok with
        | None => AssertionFailed
        | Some false => NotFound
        | Some true =>
            let study_ok :=
              if negb (String.eqb (studyUid a) EmptyString)
              then
                match MapWadoToOrthancIdentifier (OrthancPluginLookupStudy env)
                                                 (studyUid a) with
                | None => Some false
                | Some _ =>
                    Belongs env ("/instances/" ++ instance ++ "/study")
                            "StudyInstanceUID" (studyUid a)
                end
              else Some true in
            match study_ok with
            | None => AssertionFailed
            | Some false => NotFound
            | Some true => Found instance (contentType a)
            end
        end
    end.

(** What the callback gave to Orthanc. *)
Inductive Output : Type :=
| OrthancPluginSendMethodNotAllowed (allowed : string)
| OrthancPluginAnswerBuffer (answer : string) (mimeType : string).

(** An answering function: its return code and what it gave to
    Orthanc, or the exception it throws. *)
Definition Answered : Type := Result (Z * option Output).

Definition AnswerDicom (env : Env) (instance : string) : Answered :=
  let uri := "/instances/" ++ instance ++ "/file" in
  match RestApiGetString env uri with
  | Some dicom => Ok (0, Some (OrthancPluginAnswerBuffer dicom "application/dicom"))
  | None => Ok (-1, None)
  end.

Definition RetrievePngPreview (env : Env) (instance : string) : option string :=
  RestApiGetString env ("/instances/" ++ instance ++ "/preview").

Definition AnswerPngPreview (env : Env) (instance : string) : Answered :=
  match RetrievePngPreview env instance with
  | None => Ok (-1, None)
  | Some png => Ok (0, Some (OrthancPluginAnswerBuffer png "image/png"))
  end.

Definition AnswerJpegPreview (env : Env) (instance : string) : Answered :=
  match RetrievePngPreview env instance with
  | None => Ok (-1, None)
  | Some png =>
      jpeg <-? PngToJpeg env png ;;
      Ok (0, Some (OrthancPluginAnswerBuffer jpeg "image/jpeg"))
  end.

(** What [WadoCallback] does: it returns a code, having given
    something to Orthanc or not, or jsoncpp's assertion fails. *)
Inductive Outcome : Type :=
| Returned (code : Z) (output : option Output)
| Asserted.

Definition WadoCallback (env : Env) (request : HttpRequest) : Outcome :=
  if negb (match request_method request with
           | OrthancPluginHttpMethod_Get => true
           | _ => false
           end)
  then Returned (-1) (Some (OrthancPluginSendMethodNotAllowed "GET"))
  else
    match LocateInstance env "image/jpg" request with
    | AssertionFailed => Asserted
    | NotFound => Returned (-1) None
    | Found instance contentType =>
        let answered :=
          if String.eqb contentType "application/dicom" then AnswerDicom env instance
          else if String.eqb contentType "image/png" then AnswerPngPreview env instance
          else if String.eqb contentType "image/jpeg"
                  || String.eqb contentType "image/jpg"
          then AnswerJpegPreview env instance
          else Ok (-1, None) in
        match answered with
        | Ok (code, output) => Returned code output
        | Throw _ => Returned (-1) None
        end
    end.

End Wado.


(* ================================================================= *)
(** ** Concrete remote servers and stores for the retrieve and WADO sides *)

Module RetrieveScenario.

Import Json.

Definition documents : list (string * Value) :=
  [ ("Uri: studies", Object [("Uri", Str "studies")]);
    ("Resources: [study 1.2.1, study 1.2.2]",
     Object [("Resources",
              Array [Object [("Study", Str "1.2.1")];
                     Object [("Study", Str "1.2.2")]])]);
    ("Resources: [study 1.2.1, series without study]",
     Object [("Resources",
              Array [Object [("Study", Str "1.2.1")];
                     Object [("Series", Str "1.2.2.1")]])]) ].

Definition part (declared data : string) : StowRs.MultipartItem :=
  {| StowRs.data_ := data; StowRs.contentType_ := declared |}.

(** The multipart bodies the remote server sends, each with the parts
    the multipart parser finds in it. *)
Definition bodies : list (string * list StowRs.MultipartItem) :=
  [ ("(body of study 1.2.1)",
     [part "application/dicom" "b"; part "application/dicom" "a"]);
    ("(body of study 1.2.2)",
     [part "application/dicom" "b"; part "application/dicom" "c"]);
    ("(body with a part that declares nothing)",
     [part "application/dicom" "a"; part EmptyString "b"]) ].

Definition multipart : StringMap :=
  [("Content-Type", "multipart/related; type=application/dicom; boundary=abc123")].

(** What the remote server answers to each URI. *)
Definition answers : list (string * DicomWebRetrieve.Answer) :=
  [ ("studies",
     DicomWebRetrieve.CallAnswers "[]"
       [("Content-Length", "2");
        ("Content-Type", "application/dicom+json");
        ("Transfer-Encoding", "chunked");
        ("X-Remote", "yes")]);
    ("studies/1.2.1", DicomWebRetrieve.CallAnswers "(body of study 1.2.1)" multipart);
    ("studies/1.2.2", DicomWebRetrieve.CallAnswers "(body of study 1.2.2)" multipart) ].

(** An Orthanc whose store names each instance after its data, talking
    to the remote server above. *)
Definition client : DicomWebRetrieve.Env :=
  {| DicomWebRetrieve.GetServer := fun name => Ok ("http://" ++ name ++ "/dicom-web/");
     DicomWebRetrieve.Reader_parse := Scenario.table documents;
     DicomWebRetrieve.toStyledString :=
       fun v => String.concat ", " (map asString (items (get v "Instances")));
     DicomWebRetrieve.ParseAssociativeArray := fun target _ _ => Ok target;
     DicomWebRetrieve.UriEncode := fun uri _ => uri;
     DicomWebRetrieve.CallServer :=
       fun _ _ _ uri =>
         match Scenario.table answers uri with
         | Some answer => answer
         | None => DicomWebRetrieve.CallThrows ErrorCode_UnknownResource
         end;
     DicomWebRetrieve.TokenizeString := fun s separator => Scenario.split_on separator s;
     DicomWebRetrieve.StripSpaces := Scenario.strip;
     DicomWebRetrieve.ParseMultipartBody :=
       fun answerBody _ =>
         match Scenario.table bodies answerBody with
         | Some parts => Ok parts
         | None => Throw ErrorCode_NetworkProtocol
         end;
     DicomWebRetrieve.RestApiPost := fun _ _ data => Some data;
     DicomWebRetrieve.ToJson :=
       fun buffer =>
         match buffer with
         | Some id => Ok (Object [("ID", Str id)])
         | None => Throw ErrorCode_InternalError
         end |}.

Definition request (text : string) : OrthancPluginHttpRequest :=
  {| method := OrthancPluginHttpMethod_Post;
     groups := ["remote"];
     headers := [];
     body := text |}.

Definition nothing : DicomWebRetrieve.World :=
  {| DicomWebRetrieve.gets := []; DicomWebRetrieve.posts := [] |}.

End RetrieveScenario.

Module WadoScenario.

Import Json.

(** An Orthanc with one instance, of series 1.2.1.1 and study 1.2.1. *)
Definition orthanc : Wado.Env :=
  {| Wado.OrthancPluginLookupInstance := Scenario.table [("1.2.1.1.1", "instance-1")];
     Wado.OrthancPluginLookupSeries := Scenario.table [("1.2.1.1", "series-1")];
     Wado.OrthancPluginLookupStudy := Scenario.table [("1.2.1", "study-1")];
     Wado.RestApiGetJson :=
       Scenario.table
         [ ("/instances/instance-1/series",
            Object [("MainDicomTags", Object [("SeriesInstanceUID", Str "1.2.1.1")])]);
           ("/instances/instance-1/study",
            Object [("MainDicomTags", Object [("StudyInstanceUID", Str "1.2.1")])]) ];
     Wado.RestApiGetString :=
       Scenario.table
         [ ("/instances/instance-1/file", "(DICOM file)");
           ("/instances/instance-1/preview", "(PNG image)") ];
     Wado.PngToJpeg := fun png => Ok ("JPEG of " ++ png) |}.

Definition get (arguments : list (string * string)) : Wado.HttpRequest :=
  {| Wado.request_method := OrthancPluginHttpMethod_Get;
     Wado.getArguments := arguments |}.

(** A request for the preview of the instance, with both checks. *)
Definition preview : Wado.HttpRequest :=
  get [("requestType", "WADO"); ("studyUID", "1.2.1"); ("seriesUID", "1.2.1.1");
       ("objectUID", "1.2.1.1.1")].

End WadoScenario.


(* ================================================================= *)
(** * Properties of the STOW-RS client *)

Section Client.

Import DicomWebClient.

Variable env : Env.

Lemma must_flush_spec (chunks : ChunkedBuffer.t) (count : Z) (force : bool) :
  must_flush env chunks count force = true
  <-> Spec.flush_wanted (maxInstances env) (maxSize env) count
                        (ChunkedBuffer.GetNumBytes chunks) force.
Proof.
  unfold must_flush, Spec.flush_wanted.
  rewrite !orb_true_iff, !andb_true_iff, !negb_true_iff.
  rewrite !Z.eqb_neq, !Z.leb_le, Z.ltb_lt.
  intuition lia.
Qed.

Lemma app_one_neq {A : Type} (l : list A) (x : A) : (l ++ [x])%list <> l.
Proof.
  intro H. apply (f_equal (@List.length A)) in H.
  rewrite length_app in H. simpl in H. lia.
Qed.

Lemma append_empty_r s : s ++ EmptyString = s.
Proof. induction s as [|c s IH]; cbn; [reflexivity|rewrite IH; reflexivity]. Qed.

Lemma append_assoc s1 s2 s3 : (s1 ++ s2) ++ s3 = s1 ++ (s2 ++ s3).
Proof. induction s1 as [|c s IH]; cbn; [reflexivity|rewrite IH; reflexivity]. Qed.

Lemma concat_empty_cons x l :
  String.concat EmptyString (x :: l) = x ++ String.concat EmptyString l.
Proof.
  destruct l as [|y l]; cbn; [rewrite append_empty_r; reflexivity|reflexivity].
Qed.

Lemma concat_empty_snoc l x :
  String.concat EmptyString (l ++ [x])%list = String.concat EmptyString l ++ x.
Proof.
  induction l as [|y l IH].
  - reflexivity.
  - cbn [app]. rewrite !concat_empty_cons, IH, append_assoc. reflexivity.
Qed.

Lemma Flatten_AddChunk b c :
  fst (ChunkedBuffer.Flatten (ChunkedBuffer.AddChunk b c))
  = fst (ChunkedBuffer.Flatten b) ++ c.
Proof. cbn. apply concat_empty_snoc. Qed.

Lemma SendStowChunks_idle server hh qa boundary chunks count force sent :
  must_flush env chunks count force = false ->
  SendStowChunks env server hh qa boundary chunks count force sent
  = (Ok (chunks, count), sent).
Proof.
  intro H. unfold SendStowChunks. rewrite H. reflexivity.
Qed.

Lemma SendStowChunks_posts server hh qa boundary chunks count force sent :
  must_flush env chunks count force = true ->
  exists post,
    snd (SendStowChunks env server hh qa boundary chunks count force sent)
    = (sent ++ [post])%list
    /\ post_instances post = count
    /\ post_body post
       = fst (ChunkedBuffer.Flatten (ChunkedBuffer.AddChunk chunks (Close boundary))).
Proof.
  intro H. unfold SendStowChunks. rewrite H.
  exists {| post_server := server; post_headers := hh;
            post_uri := UriEncode env "studies" qa;
            post_body :=
              fst (ChunkedBuffer.Flatten
                     (ChunkedBuffer.AddChunk chunks (Close boundary)));
            post_instances := count |}.
  split; [|split; reflexivity].
  cbn -[CheckStowAnswer String.concat Close].
  destruct (CallServer env sent server hh (UriEncode env "studies" qa) _);
    [reflexivity|].
  destruct (CheckStowAnswer _ _); reflexivity.
Qed.

(** C1.  [SendStowChunks] flushes exactly when the condition of the
    specification holds: the call is forced and at least one instance is
    pending, or the instance limit is not 0 and is reached, or the byte
    limit is not 0 and is reached.  A flush hands the transport one
    POST, to the given server with the given headers and the URI of
    studies, whose body is the bytes gathered in the buffer followed by
    the terminator, for the instances counted; the transport is called
    with that body, and when the remote server answers and its answer
    passes the checks, the buffer comes back empty and the counter at
    0; otherwise the exception of the transport or of the checks is
    thrown.  When the condition fails the buffer and the counter come
    back unchanged and nothing is sent.  A limit configured as 0 takes
    its trigger out of the condition. *)
Theorem SendStowChunks_flushes_iff_wanted :
  forall server hh qa boundary chunks count force sent,
    (Spec.flush_wanted (maxInstances env) (maxSize env) count
                       (ChunkedBuffer.GetNumBytes chunks) force
     <-> snd (SendStowChunks env server hh qa boundary chunks count force sent)
         = (sent
            ++ [{| post_server := server;
                   post_headers := hh;
                   post_uri := UriEncode env "studies" qa;
                   post_body := fst (ChunkedBuffer.Flatten chunks) ++ Close boundary;
                   post_instances := count |}])%list)
    /\ (Spec.flush_wanted (maxInstances env) (maxSize env) count
                          (ChunkedBuffer.GetNumBytes chunks) force ->
        fst (SendStowChunks env server hh qa boundary chunks count force sent)
        = match CallServer env sent server hh (UriEncode env "studies" qa)
                           (fst (ChunkedBuffer.Flatten chunks) ++ Close boundary) with
          | CallThrows e => Throw e
          | CallAnswers answerBody =>
              match CheckStowAnswer (Reader_parse env answerBody) count with
              | Throw e => Throw e
              | Ok _ => Ok (ChunkedBuffer.empty, 0)
              end
          end)
    /\ (~ Spec.flush_wanted (maxInstances env) (maxSize env) count
                            (ChunkedBuffer.GetNumBytes chunks) force ->
        SendStowChunks env server hh qa boundary chunks count force sent
        = (Ok (chunks, count), sent))
    /\ (GetUnsignedIntegerValue env "StowMaxInstances" 10 = 0 ->
        (Spec.flush_wanted (maxInstances env) (maxSize env) count
                           (ChunkedBuffer.GetNumBytes chunks) force
         <-> (force = true /\ count > 0)
             \/ (maxSize env <> 0
                 /\ ChunkedBuffer.GetNumBytes chunks >= maxSize env)))
    /\ (GetUnsignedIntegerValue env "StowMaxSize" 10 = 0 ->
        (Spec.flush_wanted (maxInstances env) (maxSize env) count
                           (ChunkedBuffer.GetNumBytes chunks) force
         <-> (force = true /\ count > 0)
             \/ (maxInstances env <> 0 /\ count >= maxInstances env))).
Proof.
  intros server hh qa boundary chunks count force sent.
  assert (RUN : must_flush env chunks count force = true ->
                SendStowChunks env server hh qa boundary chunks count force sent
                = (match CallServer env sent server hh (UriEncode env "studies" qa)
                                    (fst (ChunkedBuffer.Flatten chunks)
                                     ++ Close boundary) with
                   | CallThrows e => Throw e
                   | CallAnswers answerBody =>
                       match CheckStowAnswer (Reader_parse env answerBody) count with
                       | Throw e => Throw e
                       | Ok _ => Ok (ChunkedBuffer.empty, 0)
                       end
                   end,
                   (sent
                    ++ [{| post_server := server;
                           post_headers := hh;
                           post_uri := UriEncode env "studies" qa;
                           post_body :=
                             fst (ChunkedBuffer.Flatten chunks) ++ Close boundary;
                           post_instances := count |}])%list)).
  { intro F. rewrite <- Flatten_AddChunk. unfold SendStowChunks. rewrite F.
    cbn -[CheckStowAnswer String.concat Close].
    destruct (CallServer env sent server hh (UriEncode env "studies" qa) _);
      [reflexivity|].
    destruct (CheckStowAnswer _ _); reflexivity. }
  split; [split|split; [|split; [|split]]].
  - intro W. apply must_flush_spec in W. rewrite (RUN W). reflexivity.
  - intro E. apply must_flush_spec.
    destruct (must_flush env chunks count force) eqn:F; [reflexivity|].
    rewrite (SendStowChunks_idle _ _ _ _ _ _ _ _ F) in E. cbn [snd] in E.
    symmetry in E. apply app_one_neq in E. contradiction.
  - intro W. apply must_flush_spec in W. rewrite (RUN W). reflexivity.
  - intro N. apply SendStowChunks_idle.
    destruct (must_flush env chunks count force) eqn:F; [|reflexivity].
    apply must_flush_spec in F. contradiction.
  - intro H. unfold Spec.flush_wanted, maxInstances. rewrite H.
    change (unsigned_int 0) with 0. intuition lia.
  - intro H. unfold Spec.flush_wanted, maxSize. rewrite H.
    change (size_t (size_t (size_t (unsigned_int 0) * 1024) * 1024)) with 0.
    intuition lia.
Qed.

(** *** The checks on the answer of the remote server *)

Lemma sequence_items_inv response tag k :
  Spec.sequence_items response tag = Some k ->
  exists members fields items,
    response = Json.Object members
    /\ Json.lookup members tag = Some (Json.Object fields)
    /\ Json.lookup fields "Value" = Some (Json.Array items)
    /\ k = Z.of_nat (List.length items).
Proof.
  unfold Spec.sequence_items. intro H.
  destruct response as [| | | | | |?|members]; try discriminate.
  destruct (Json.lookup members tag) as [[| | | | | |?|fields]|] eqn:E1; try discriminate.
  destruct (Json.lookup fields "Value") as [[| | | | | |items|?]|] eqn:E2; try discriminate.
  injection H as <-. exists members, fields, items. auto.
Qed.

(** A tag spelled in upper case is looked up under that spelling
    first. *)
Lemma GetSequenceSize_items response tag isMandatory k :
  Toolbox.ToUpperCase tag = tag ->
  Spec.sequence_items response tag = Some k ->
  GetSequenceSize response tag isMandatory = Ok (Some k).
Proof.
  intros U H. apply sequence_items_inv in H.
  destruct H as (members & fields & items & -> & E1 & E2 & ->).
  unfold GetSequenceSize. rewrite U. cbn. rewrite E1. cbn. rewrite E2. reflexivity.
Qed.

Lemma GetSequenceSize_sound response tag isMandatory k :
  Toolbox.ToUpperCase tag = tag ->
  Toolbox.ToLowerCase tag = tag ->
  GetSequenceSize response tag isMandatory = Ok (Some k) ->
  Spec.sequence_items response tag = Some k.
Proof.
  intros U L. unfold GetSequenceSize, Spec.sequence_items. rewrite U, L.
  destruct response as [| | | | | |?|members]; cbn;
    try (destruct isMandatory; discriminate).
  destruct (Json.lookup members tag) as [v|] eqn:E1; cbn.
  - destruct v as [| | | | | |?|fields]; cbn; try discriminate.
    destruct (Json.lookup fields "Value") as [[| | | | | |items|?]|] eqn:E2;
      cbn; try discriminate.
    intro H. injection H as <-. reflexivity.
  - destruct isMandatory; discriminate.
Qed.

Lemma GetSequenceSize_absent response tag :
  Spec.sequence_present response tag = false ->
  GetSequenceSize response tag false = Ok None.
Proof.
  unfold Spec.sequence_present, GetSequenceSize. intro H.
  apply orb_false_iff in H. destruct H as [-> ->]. reflexivity.
Qed.

Lemma GetSequenceSize_throws response tag isMandatory e :
  GetSequenceSize response tag isMandatory = Throw e ->
  e = ErrorCode_NetworkProtocol.
Proof.
  unfold GetSequenceSize.
  destruct (Json.isMember response (Toolbox.ToUpperCase tag)); cbn.
  - destruct (_ || _)%bool; congruence.
  - destruct (Json.isMember response (Toolbox.ToLowerCase tag)); cbn.
    + destruct (_ || _)%bool; congruence.
    + destruct isMandatory; cbn; congruence.
Qed.

Lemma RefuseItems_throws response tag e :
  RefuseItems response tag = Throw e -> e = ErrorCode_NetworkProtocol.
Proof.
  unfold RefuseItems.
  destruct (GetSequenceSize response tag false) as [[n|]|e'] eqn:G; cbn.
  - destruct (negb (n =? 0)); congruence.
  - congruence.
  - intro H. injection H as <-. eapply GetSequenceSize_throws; eassumption.
Qed.

Lemma RefuseItems_items response tag k :
  Toolbox.ToUpperCase tag = tag ->
  Spec.sequence_items response tag = Some k ->
  k <> 0 ->
  RefuseItems response tag = Throw ErrorCode_NetworkProtocol.
Proof.
  intros U H N. unfold RefuseItems.
  rewrite (GetSequenceSize_items _ _ false _ U H). cbn.
  destruct (k =? 0) eqn:E; [apply Z.eqb_eq in E; contradiction | reflexivity].
Qed.

Lemma CheckStowAnswer_throws parsed count e :
  CheckStowAnswer parsed count = Throw e -> e = ErrorCode_NetworkProtocol.
Proof.
  unfold CheckStowAnswer. destruct parsed as [response|]; [|congruence].
  destruct (_ || _)%bool; [congruence|].
  destruct (GetSequenceSize response "00081199" true) as [[n|]|e'] eqn:G; cbn;
    [| congruence | intro H; injection H as <-; eapply GetSequenceSize_throws; eassumption].
  destruct (negb (n =? count)); [congruence|].
  destruct (RefuseItems response "00081198") as [[]|e1] eqn:R1; cbn;
    [| intro H; injection H as <-; eapply RefuseItems_throws; eassumption].
  destruct (RefuseItems response "0008119A") as [[]|e2] eqn:R2; cbn;
    [congruence | intro H; injection H as <-; eapply RefuseItems_throws; eassumption].
Qed.

Lemma CheckStowAnswer_ok parsed count u :
  CheckStowAnswer parsed count = Ok u
  <-> exists response,
      parsed = Some response
      /\ Json.is_type response Json.objectValue = true
      /\ Spec.sequence_items response "00081199" = Some count
      /\ RefuseItems response "00081198" = Ok tt
      /\ RefuseItems response "0008119A" = Ok tt.
Proof.
  destruct u. unfold CheckStowAnswer. split.
  - destruct parsed as [response|]; [|discriminate].
    destruct (Json.is_type response Json.objectValue) eqn:T; cbn; [|discriminate].
    destruct (Json.isMember response "00081199"); cbn; [|discriminate].
    destruct (GetSequenceSize response "00081199" true) as [[n|]|e'] eqn:G; cbn;
      try discriminate.
    destruct (n =? count) eqn:E; cbn; [|discriminate].
    apply Z.eqb_eq in E. subst n.
    destruct (RefuseItems response "00081198") as [[]|e1] eqn:R1; cbn; [|discriminate].
    destruct (RefuseItems response "0008119A") as [[]|e2] eqn:R2; cbn; [|discriminate].
    intros _. exists response. repeat split; auto.
    apply (GetSequenceSize_sound _ _ true); auto.
  - intros (response & -> & T & S & R1 & R2).
    rewrite T. cbn.
    pose proof (sequence_items_inv _ _ _ S) as (members & fields & items & -> & E1 & _).
    cbn. rewrite E1. cbn.
    rewrite (GetSequenceSize_items _ _ true _ eq_refl S). cbn.
    rewrite Z.eqb_refl. cbn. rewrite R1, R2. reflexivity.
Qed.

Lemma SendStowChunks_flush server hh qa boundary chunks count force sent :
  must_flush env chunks count force = true ->
  fst (SendStowChunks env server hh qa boundary chunks count force sent)
  = match CallServer env sent server hh (UriEncode env "studies" qa)
            (fst (ChunkedBuffer.Flatten (ChunkedBuffer.AddChunk chunks (Close boundary))))
    with
    | CallThrows e => Throw e
    | CallAnswers answerBody =>
        match CheckStowAnswer (Reader_parse env answerBody) count with
        | Throw e => Throw e
        | Ok _ => Ok (ChunkedBuffer.empty, 0)
        end
    end.
Proof.
  intro H. unfold SendStowChunks. rewrite H.
  cbn -[CheckStowAnswer String.concat Close].
  destruct (CallServer env sent server hh (UriEncode env "studies" qa) _);
    [reflexivity|].
  destruct (CheckStowAnswer _ _); reflexivity.
Qed.

(** C3.  A flush of [N] instances succeeds only if the transport
    answered, the answer parses as a JSON object, and its sequence
    00081199 has exactly [N] items.  Once the transport has answered
    with a body that parses: a different number of items in 00081199,
    or a sequence 00081198 or 0008119A with at least one item, makes the
    flush throw [ErrorCode_NetworkProtocol]; and [N] items in 00081199
    with both optional sequences absent make it succeed, with the buffer
    emptied and the counter back to 0. *)
Theorem SendStowChunks_reconciles_answer :
  forall server hh qa boundary chunks N force sent,
    must_flush env chunks N force = true ->
    (forall state,
        fst (SendStowChunks env server hh qa boundary chunks N force sent) = Ok state ->
        exists answerBody response,
          CallServer env sent server hh (UriEncode env "studies" qa)
            (fst (ChunkedBuffer.Flatten (ChunkedBuffer.AddChunk chunks (Close boundary))))
          = CallAnswers answerBody
          /\ Reader_parse env answerBody = Some response
          /\ Json.is_type response Json.objectValue = true
          /\ Spec.sequence_items response "00081199" = Some N)
    /\ (forall answerBody response,
          CallServer env sent server hh (UriEncode env "studies" qa)
            (fst (ChunkedBuffer.Flatten (ChunkedBuffer.AddChunk chunks (Close boundary))))
          = CallAnswers answerBody ->
          Reader_parse env answerBody = Some response ->
          (forall k, Spec.sequence_items response "00081199" = Some k -> k <> N ->
                fst (SendStowChunks env server hh qa boundary chunks N force sent)
                = Throw ErrorCode_NetworkProtocol)
          /\ (forall k, Spec.sequence_items response "00081198" = Some k -> k <> 0 ->
                fst (SendStowChunks env server hh qa boundary chunks N force sent)
                = Throw ErrorCode_NetworkProtocol)
          /\ (forall k, Spec.sequence_items response "0008119A" = Some k -> k <> 0 ->
                fst (SendStowChunks env server hh qa boundary chunks N force sent)
                = Throw ErrorCode_NetworkProtocol)
          /\ (Spec.sequence_items response "00081199" = Some N ->
              Spec.sequence_present response "00081198" = false ->
              Spec.sequence_present response "0008119A" = false ->
              fst (SendStowChunks env server hh qa boundary chunks N force sent)
              = Ok (ChunkedBuffer.empty, 0))).
Proof.
  intros server hh qa boundary chunks N force sent F.
  rewrite (SendStowChunks_flush _ _ _ _ _ _ _ _ F).
  split.
  - intros state H.
    destruct (CallServer env sent server hh _ _) as [e|answerBody]; [discriminate|].
    destruct (CheckStowAnswer (Reader_parse env answerBody) N) as [u|e] eqn:C;
      [|discriminate].
    apply CheckStowAnswer_ok in C. destruct C as (response & P & T & S & _).
    exists answerBody, response. auto.
  - intros answerBody response -> P. rewrite P.
    assert (failing :
              forall u, CheckStowAnswer (Some response) N <> Ok u ->
                   match CheckStowAnswer (Some response) N with
                   | Ok _ => Ok (ChunkedBuffer.empty, 0)
                   | Throw e => Throw e
                   end = Throw ErrorCode_NetworkProtocol).
    { intros u NO. destruct (CheckStowAnswer (Some response) N) as [[]|e] eqn:C.
      - destruct u. contradiction.
      - apply CheckStowAnswer_throws in C. subst e. reflexivity. }
    repeat split.
    + intros k S NE. apply (failing tt). intro C.
      apply CheckStowAnswer_ok in C. destruct C as (r & R & _ & S' & _).
      injection R as <-. congruence.
    + intros k S NE. apply (failing tt). intro C.
      apply CheckStowAnswer_ok in C. destruct C as (r & R & _ & _ & R1 & _).
      injection R as <-.
      rewrite (RefuseItems_items _ _ _ eq_refl S NE) in R1. discriminate.
    + intros k S NE. apply (failing tt). intro C.
      apply CheckStowAnswer_ok in C. destruct C as (r & R & _ & _ & _ & R2).
      injection R as <-.
      rewrite (RefuseItems_items _ _ _ eq_refl S NE) in R2. discriminate.
    + intros S A1 A2.
      assert (C : CheckStowAnswer (Some response) N = Ok tt).
      { apply CheckStowAnswer_ok. exists response.
        pose proof (sequence_items_inv _ _ _ S) as (members & ? & ? & -> & _).
        unfold RefuseItems.
        rewrite (GetSequenceSize_absent _ _ A1), (GetSequenceSize_absent _ _ A2).
        repeat split; auto. }
      rewrite C. reflexivity.
Qed.


(** *** The loop of [StowClient] *)

Lemma size_nonneg s : 0 <= size s.
Proof. unfold size. lia. Qed.

Lemma GetNumBytes_AddChunk b c :
  ChunkedBuffer.GetNumBytes (ChunkedBuffer.AddChunk b c)
  = ChunkedBuffer.GetNumBytes b + size c.
Proof.
  unfold ChunkedBuffer.GetNumBytes, ChunkedBuffer.AddChunk. cbn.
  induction (ChunkedBuffer.chunks_ b) as [|x l IH]; cbn; [lia|].
  rewrite IH. lia.
Qed.

Lemma GetNumBytes_nonneg b : 0 <= ChunkedBuffer.GetNumBytes b.
Proof.
  unfold ChunkedBuffer.GetNumBytes.
  induction (ChunkedBuffer.chunks_ b) as [|x l IH]; cbn; [lia|].
  pose proof (size_nonneg x). lia.
Qed.

Lemma maxInstances_range : 0 <= maxInstances env < 2 ^ 32.
Proof. unfold maxInstances, unsigned_int. apply Z.mod_pos_bound. lia. Qed.

Lemma maxSize_range : 0 <= maxSize env < 2 ^ 64.
Proof. unfold maxSize. unfold size_t at 1. apply Z.mod_pos_bound. lia. Qed.

(** The configured size limit counts mebibytes. *)
Lemma maxSize_MiB :
  maxSize env = unsigned_int (GetUnsignedIntegerValue env "StowMaxSize" 10) * 1048576.
Proof.
  unfold maxSize, size_t.
  pose proof (Z.mod_pos_bound (GetUnsignedIntegerValue env "StowMaxSize" 10) (2 ^ 32) ltac:(lia)) as B.
  unfold unsigned_int in *.
  set (v := GetUnsignedIntegerValue env "StowMaxSize" 10 mod 2 ^ 32) in *.
  rewrite (Z.mod_small v) by lia.
  rewrite (Z.mod_small (v * 1024)) by lia.
  rewrite Z.mod_small by lia. lia.
Qed.

Lemma total_bytes_nonneg boundary instances :
  0 <= Spec.total_bytes env boundary instances.
Proof.
  induction instances as [|it rest IH]; [cbn; lia|].
  change (0 <= Spec.part_bytes env boundary it + Spec.total_bytes env boundary rest).
  unfold Spec.part_bytes.
  destruct (RestApiGetBuffer env _) as [d|]; [|lia].
  pose proof (size_nonneg (PartHeader boundary d)). pose proof (size_nonneg d). lia.
Qed.

Lemma SendStowChunks_ok_inv server hh qa boundary chunks count force sent
      chunks' count' final :
  SendStowChunks env server hh qa boundary chunks count force sent
  = (Ok (chunks', count'), final) ->
  (must_flush env chunks count force = false
   /\ chunks' = chunks /\ count' = count /\ final = sent)
  \/ (must_flush env chunks count force = true
      /\ chunks' = ChunkedBuffer.empty /\ count' = 0
      /\ exists post, final = (sent ++ [post])%list /\ post_instances post = count).
Proof.
  intro H. destruct (must_flush env chunks count force) eqn:F.
  - right.
    pose proof (SendStowChunks_flush server hh qa boundary chunks count force sent F) as E1.
    destruct (SendStowChunks_posts server hh qa boundary chunks count force sent F)
      as (post & E2 & E3 & _).
    rewrite H in E1, E2. cbn in E1, E2.
    destruct (CallServer env sent server hh _ _) as [e|answerBody]; [discriminate|].
    destruct (CheckStowAnswer _ _); [|discriminate].
    injection E1 as -> ->. repeat split; auto. exists post. auto.
  - left. rewrite (SendStowChunks_idle _ _ _ _ _ _ _ _ F) in H.
    injection H as <- <- <-. auto.
Qed.

(** What holds of the buffer and the counter between two turns of the
    loop: the counter is not negative, an empty batch has an empty
    buffer, and the instance limit, when there is one, is not reached. *)
Definition steady (chunks : ChunkedBuffer.t) (count : Z) : Prop :=
  0 <= count
  /\ (count = 0 -> ChunkedBuffer.GetNumBytes chunks = 0)
  /\ (maxInstances env <> 0 -> count < maxInstances env).

Definition well_sized (p : Post) : Prop :=
  1 <= post_instances p
  /\ (maxInstances env <> 0 -> post_instances p <= maxInstances env).

Lemma sum_instances_app l1 l2 :
  Spec.sum_instances (l1 ++ l2) = Spec.sum_instances l1 + Spec.sum_instances l2.
Proof.
  unfold Spec.sum_instances. induction l1 as [|p l IH]; cbn; [lia|]. rewrite IH. lia.
Qed.

Lemma StowClient_instances_accounts server hh qa boundary :
  forall instances chunks count sent chunks' count' final,
    steady chunks count ->
    count + Z.of_nat (List.length instances) < 2 ^ 64 ->
    StowClient_instances env server hh qa boundary instances chunks count sent
    = (Ok (chunks', count'), final) ->
    exists flushes,
      final = (sent ++ flushes)%list
      /\ steady chunks' count'
      /\ Spec.sum_instances flushes + count'
         = count + Z.of_nat (List.length (filter (Spec.fetchable env) instances))
      /\ Forall well_sized flushes.
Proof.
  induction instances as [|it rest IH];
    intros chunks count sent chunks' count' final ST B H.
  - cbn in H. injection H as <- <- <-.
    exists []. rewrite app_nil_r. cbn.
    split; [reflexivity|]. split; [assumption|]. split; [lia|constructor].
  - cbn [StowClient_instances] in H. cbn [filter]. unfold Spec.fetchable at 1.
    cbn [List.length] in B.
    destruct (RestApiGetBuffer env ("/instances/" ++ it ++ "/file")) as [dicom|] eqn:G.
    + unfold bind in H.
      destruct (SendStowChunks env server hh qa boundary _ _ false sent)
        as [[[c1 n1]|e] w1] eqn:S; [|discriminate].
      destruct ST as (P0 & Z0 & M0).
      assert (N1 : size_t (count + 1) = count + 1)
        by (unfold size_t; apply Z.mod_small; lia).
      rewrite N1 in S.
      apply SendStowChunks_ok_inv in S.
      destruct S as [(F & -> & -> & ->) | (F & -> & -> & post & -> & PI)].
      * assert (ST1 : steady (ChunkedBuffer.AddChunk
                                (ChunkedBuffer.AddChunk chunks (PartHeader boundary dicom))
                                dicom) (count + 1)).
        { unfold steady. repeat split; try lia.
          intro NZ. destruct (Z_lt_ge_dec (count + 1) (maxInstances env)); [assumption|].
          exfalso. assert (W : must_flush env
                     (ChunkedBuffer.AddChunk
                        (ChunkedBuffer.AddChunk chunks (PartHeader boundary dicom)) dicom)
                     (count + 1) false = true).
          { apply must_flush_spec. right. left. split; [assumption|lia]. }
          congruence. }
        destruct (IH _ _ _ _ _ _ ST1 ltac:(lia) H) as (fl & -> & ST' & SUM & WS).
        exists fl. cbn [List.length].
        split; [reflexivity|]. split; [assumption|]. split; [lia|assumption].
      * pose proof maxInstances_range as R.
        assert (ST1 : steady ChunkedBuffer.empty 0)
          by (unfold steady; cbn; repeat split; lia).
        destruct (IH _ _ _ _ _ _ ST1 ltac:(lia) H) as (fl & -> & ST' & SUM & WS).
        exists (post :: fl). rewrite <- app_assoc. cbn [app List.length].
        split; [reflexivity|]. split; [assumption|]. split.
        -- change (Spec.sum_instances (post :: fl))
             with (post_instances post + Spec.sum_instances fl).
           rewrite PI. lia.
        -- constructor; [|assumption]. unfold well_sized. rewrite PI.
           split; [lia|]. intro NZ. specialize (M0 NZ). lia.
    + destruct (IH _ _ _ _ _ _ ST ltac:(lia) H) as (fl & -> & ST' & SUM & WS).
      exists fl. auto.
Qed.

Lemma ceil_div_split n m :
  0 <= n -> 0 < m ->
  Spec.ceil_div n m = n / m + (if n mod m =? 0 then 0 else 1).
Proof.
  intros Hn Hm. unfold Spec.ceil_div.
  pose proof (Z.div_mod n m ltac:(lia)) as D.
  pose proof (Z.mod_pos_bound n m Hm) as R.
  destruct (n mod m =? 0) eqn:E.
  - apply Z.eqb_eq in E. symmetry.
    apply (Z.div_unique _ _ _ (m - 1)); lia.
  - apply Z.eqb_neq in E. symmetry.
    apply (Z.div_unique _ _ _ (n mod m - 1)); lia.
Qed.

Lemma StowClient_instances_exact server hh qa boundary :
  forall instances chunks count sent chunks' count' final,
    steady chunks count ->
    count + Z.of_nat (List.length instances) < 2 ^ 64 ->
    (maxSize env = 0
     \/ ChunkedBuffer.GetNumBytes chunks + Spec.total_bytes env boundary instances
        < maxSize env) ->
    StowClient_instances env server hh qa boundary instances chunks count sent
    = (Ok (chunks', count'), final) ->
    exists flushes,
      final = (sent ++ flushes)%list
      /\ (maxInstances env <> 0 ->
          Z.of_nat (List.length flushes)
          = (count + Z.of_nat (List.length (filter (Spec.fetchable env) instances)))
              / maxInstances env
          /\ count'
             = (count + Z.of_nat (List.length (filter (Spec.fetchable env) instances)))
                 mod maxInstances env)
      /\ (maxInstances env = 0 ->
          flushes = []
          /\ count'
             = count + Z.of_nat (List.length (filter (Spec.fetchable env) instances))).
Proof.
  pose proof maxInstances_range as R.
  induction instances as [|it rest IH];
    intros chunks count sent chunks' count' final ST B Q H.
  - cbn in H. injection H as <- <- <-.
    exists []. rewrite app_nil_r. cbn. rewrite Z.add_0_r.
    destruct ST as (P0 & Z0 & M0).
    split; [reflexivity|]. split.
    + intro NZ. specialize (M0 NZ).
      rewrite Z.div_small, Z.mod_small by lia. split; reflexivity.
    + intros _. split; reflexivity.
  - cbn [StowClient_instances] in H. cbn [filter].
    assert (FE : Spec.fetchable env it
                 = match RestApiGetBuffer env ("/instances/" ++ it ++ "/file") with
                   | Some _ => true
                   | None => false
                   end) by reflexivity.
    cbn [List.length] in B.
    change (Spec.total_bytes env boundary (it :: rest))
      with (Spec.part_bytes env boundary it + Spec.total_bytes env boundary rest) in Q.
    unfold Spec.part_bytes in Q.
    pose proof (total_bytes_nonneg boundary rest) as TB.
    destruct (RestApiGetBuffer env ("/instances/" ++ it ++ "/file")) as [dicom|] eqn:G;
      rewrite FE; clear FE.
    + unfold bind in H.
      destruct (SendStowChunks env server hh qa boundary _ _ false sent)
        as [[[c1 n1]|e] w1] eqn:S; [|discriminate].
      pose proof ST as (P0 & Z0 & M0).
      assert (N1 : size_t (count + 1) = count + 1)
        by (unfold size_t; apply Z.mod_small; lia).
      rewrite N1 in S.
      pose proof S as S'.
      apply SendStowChunks_ok_inv in S.
      destruct S as [(F & -> & -> & ->) | (F & -> & -> & post & -> & PI)].
      * destruct (StowClient_instances_accounts server hh qa boundary [it]
                    chunks count sent _ _ _ ST ltac:(cbn; lia)
                    ltac:(cbn [StowClient_instances]; rewrite G; unfold bind;
                          rewrite N1, S'; reflexivity))
          as (fl0 & E0 & ST1 & _).
        assert (Q1 : maxSize env = 0
                     \/ ChunkedBuffer.GetNumBytes
                          (ChunkedBuffer.AddChunk
                             (ChunkedBuffer.AddChunk chunks (PartHeader boundary dicom))
                             dicom)
                        + Spec.total_bytes env boundary rest < maxSize env).
        { destruct Q as [Q|Q]; [left; assumption|right].
          rewrite !GetNumBytes_AddChunk. lia. }
        destruct (IH _ _ _ _ _ _ ST1 ltac:(lia) Q1 H) as (fl & -> & EX & NO).
        exists fl. cbn [List.length]. split; [reflexivity|]. split.
        -- intro NZ. destruct (EX NZ) as [E1 E2].
           replace (count + Z.of_nat (S (List.length (filter (Spec.fetchable env) rest))))
             with (count + 1 + Z.of_nat (List.length (filter (Spec.fetchable env) rest)))
             by lia.
           split; assumption.
        -- intro NZ. destruct (NO NZ) as [E1 E2]. split; [assumption|lia].
      * apply must_flush_spec in F.
        assert (FULL : maxInstances env <> 0 /\ count + 1 = maxInstances env).
        { destruct F as [[F _]|[[NZ F]|[NZ F]]]; [discriminate| |].
          - specialize (M0 NZ). split; [assumption|lia].
          - exfalso. rewrite !GetNumBytes_AddChunk in F.
            destruct Q as [Q|Q]; lia. }
        destruct FULL as [NZ FULL].
        assert (ST1 : steady ChunkedBuffer.empty 0)
          by (unfold steady; cbn; repeat split; lia).
        assert (Q1 : maxSize env = 0
                     \/ ChunkedBuffer.GetNumBytes ChunkedBuffer.empty
                        + Spec.total_bytes env boundary rest < maxSize env).
        { destruct Q as [Q|Q]; [left; assumption|right].
          pose proof (GetNumBytes_nonneg chunks).
          pose proof (size_nonneg (PartHeader boundary dicom)).
          pose proof (size_nonneg dicom). cbn. lia. }
        destruct (IH _ _ _ _ _ _ ST1 ltac:(lia) Q1 H) as (fl & -> & EX & _).
        exists (post :: fl). rewrite <- app_assoc. cbn [app List.length].
        split; [reflexivity|]. split; [|intro; contradiction].
        intros _. destruct (EX NZ) as [E1 E2].
        set (k := Z.of_nat (List.length (filter (Spec.fetchable env) rest))) in *.
        replace (count + Z.of_nat (S (List.length (filter (Spec.fetchable env) rest))))
          with (k + 1 * maxInstances env) by (subst k; lia).
        rewrite Z.div_add, Z.mod_add by lia.
        cbn in E1, E2. rewrite Nat2Z.inj_succ, E1. split; [lia|assumption].
    + assert (Q1 : maxSize env = 0
                   \/ ChunkedBuffer.GetNumBytes chunks
                      + Spec.total_bytes env boundary rest < maxSize env)
        by (destruct Q as [Q|Q]; [left; assumption|right; lia]).
      destruct (IH _ _ _ _ _ _ ST ltac:(lia) Q1 H) as (fl & -> & EX & NO).
      exists fl. auto.
Qed.


Lemma filter_all {A : Type} (f : A -> bool) (l : list A) :
  (forall x, In x l -> f x = true) -> filter f l = l.
Proof.
  induction l as [|x l IH]; intro H; [reflexivity|].
  cbn. rewrite (H x (or_introl eq_refl)). f_equal. apply IH.
  intros y Y. apply H. right. exact Y.
Qed.

Lemma filter_none {A : Type} (f : A -> bool) (l : list A) :
  (forall x, In x l -> f x = false) -> filter f l = [].
Proof.
  induction l as [|x l IH]; intro H; [reflexivity|].
  cbn. rewrite (H x (or_introl eq_refl)). apply IH.
  intros y Y. apply H. right. exact Y.
Qed.

Lemma must_flush_empty force : must_flush env ChunkedBuffer.empty 0 force = false.
Proof.
  pose proof maxInstances_range. pose proof maxSize_range.
  destruct (must_flush env ChunkedBuffer.empty 0 force) eqn:F; [|reflexivity].
  apply must_flush_spec in F. unfold Spec.flush_wanted in F. cbn in F. lia.
Qed.

(** A batch that is flushed between two turns, or at the end, is not
    empty. *)
Lemma must_flush_pending chunks count force :
  steady chunks count ->
  must_flush env chunks count force = true ->
  1 <= count.
Proof.
  intros (P0 & Z0 & M0) F. apply must_flush_spec in F.
  pose proof maxInstances_range. pose proof maxSize_range.
  destruct (Z.eq_dec count 0) as [E|E]; [|lia].
  specialize (Z0 E). unfold Spec.flush_wanted in F. lia.
Qed.

Lemma must_flush_forced chunks count :
  0 < count -> must_flush env chunks count true = true.
Proof.
  intro H. apply must_flush_spec. left. split; [reflexivity|lia].
Qed.

(** C2, as the code has it.  When every instance can be fetched and
    every flush succeeds, the POSTs of [StowClient] carry all the [n]
    instances between them, each POST carries at least one instance and
    no more than the instance limit when there is one.  When the byte
    limit cannot trigger (it is 0, or all the parts together stay below
    it) the number of POSTs is [ceil (n / maxInstances)] with an
    instance limit, and one (none for [n = 0]) without.  The last,
    forced call flushes whatever is pending, whatever the limits. *)
Theorem StowClient_send_flush_count :
  forall server hh qa boundary instances sent output final,
    (forall it, In it instances -> Spec.fetchable env it = true) ->
    Z.of_nat (List.length instances) < 2 ^ 64 ->
    StowClient_send env server hh qa boundary instances sent = (Ok output, final) ->
    exists flushes,
      final = (sent ++ flushes)%list
      /\ Spec.sum_instances flushes = Z.of_nat (List.length instances)
      /\ (forall p, In p flushes ->
            1 <= post_instances p
            /\ (maxInstances env <> 0 -> post_instances p <= maxInstances env))
      /\ (Spec.byte_trigger_idle env boundary instances ->
          (maxInstances env <> 0 ->
           Z.of_nat (List.length flushes)
           = Spec.ceil_div (Z.of_nat (List.length instances)) (maxInstances env))
          /\ (maxInstances env = 0 ->
              Z.of_nat (List.length flushes)
              = if Z.of_nat (List.length instances) =? 0 then 0 else 1))
      /\ (forall chunks count, 0 < count -> must_flush env chunks count true = true).
Proof.
  intros server hh qa boundary instances sent output final FETCH BOUND H.
  pose proof maxInstances_range as R.
  unfold StowClient_send, bind in H.
  destruct (StowClient_instances env server hh qa boundary instances
              ChunkedBuffer.empty 0 sent) as [[[c1 n1]|e] w1] eqn:L; [|discriminate].
  destruct (SendStowChunks env server hh qa boundary c1 n1 true w1)
    as [[[c2 n2]|e] w2] eqn:S; [|discriminate].
  cbn in H. injection H as _ <-.
  assert (ST0 : steady ChunkedBuffer.empty 0)
    by (unfold steady; cbn; repeat split; lia).
  assert (B0 : 0 + Z.of_nat (List.length instances) < 2 ^ 64) by lia.
  destruct (StowClient_instances_accounts _ _ _ _ _ _ _ _ _ _ _ ST0 B0 L)
    as (fl & -> & ST1 & SUM & WS).
  rewrite (filter_all _ _ FETCH) in SUM.
  set (n := Z.of_nat (List.length instances)) in *.
  assert (LAST : exists last,
             w2 = ((sent ++ fl) ++ last)%list
             /\ Spec.sum_instances last = n1
             /\ Forall well_sized last
             /\ Z.of_nat (List.length last) = if n1 =? 0 then 0 else 1).
  { apply SendStowChunks_ok_inv in S.
    destruct S as [(F & _ & _ & ->) | (F & _ & _ & post & -> & PI)].
    - exists []. rewrite app_nil_r.
      assert (n1 = 0).
      { destruct ST1 as (P0 & _).
        destruct (Z.eq_dec n1 0) as [E|E]; [assumption|].
        rewrite must_flush_forced in F by lia. discriminate. }
      subst n1. repeat split. constructor.
    - exists [post]. pose proof (must_flush_pending _ _ _ ST1 F) as P1.
      split; [reflexivity|]. split; [cbn; lia|]. split.
      + constructor; [|constructor]. unfold well_sized. rewrite PI.
        split; [assumption|]. intro NZ. destruct ST1 as (_ & _ & M1).
        specialize (M1 NZ). lia.
      + destruct (n1 =? 0) eqn:E; [apply Z.eqb_eq in E; lia|reflexivity]. }
  destruct LAST as (last & -> & LSUM & LWS & LLEN).
  exists (fl ++ last)%list.
  split; [rewrite app_assoc; reflexivity|].
  split; [rewrite sum_instances_app; lia|].
  split.
  { intros p IN. apply in_app_or in IN.
    assert (W : well_sized p).
    { destruct IN as [IN|IN];
        [exact (proj1 (Forall_forall _ _) WS p IN)
        | exact (proj1 (Forall_forall _ _) LWS p IN)]. }
    exact W. }
  split; [|exact must_flush_forced].
  intro IDLE.
  assert (Q : maxSize env = 0
              \/ ChunkedBuffer.GetNumBytes ChunkedBuffer.empty
                 + Spec.total_bytes env boundary instances < maxSize env).
  { destruct IDLE as [I|I]; [left; assumption|right; cbn; lia]. }
  destruct (StowClient_instances_exact _ _ _ _ _ _ _ _ _ _ _ ST0 B0 Q L)
    as (fl' & E & EX & NO).
  apply app_inv_head in E. subst fl'.
  rewrite (filter_all _ _ FETCH) in EX, NO. fold n in EX, NO.
  rewrite length_app, Nat2Z.inj_add, LLEN.
  split.
  - intro NZ. destruct (EX NZ) as [E1 E2]. rewrite Z.add_0_l in E1, E2.
    rewrite ceil_div_split by lia. rewrite E1, E2. reflexivity.
  - intro NZ. destruct (NO NZ) as [-> E2]. cbn. rewrite E2, Z.add_0_l. reflexivity.
Qed.

(** *** Instances that cannot be fetched *)

Lemma StowClient_instances_filter server hh qa boundary :
  forall instances chunks count sent,
    StowClient_instances env server hh qa boundary instances chunks count sent
    = StowClient_instances env server hh qa boundary
        (filter (Spec.fetchable env) instances) chunks count sent.
Proof.
  induction instances as [|it rest IH]; intros chunks count sent; [reflexivity|].
  cbn [filter]. unfold Spec.fetchable at 1.
  destruct (RestApiGetBuffer env ("/instances/" ++ it ++ "/file")) as [dicom|] eqn:G.
  - cbn [StowClient_instances]. rewrite G. unfold bind.
    destruct (SendStowChunks env server hh qa boundary _ _ false sent)
      as [[[c1 n1]|e] w1]; [apply IH|reflexivity].
  - cbn [StowClient_instances]. rewrite G. apply IH.
Qed.

(** C10.  [StowClient] runs on a list of instances as it runs on the
    list without the instances whose file cannot be fetched: the
    buffers, the POSTs and the outcome are the same, so such an instance
    is in no batch and raises no error.  When no instance can be fetched
    nothing is sent and the answer is the empty JSON object. *)
Theorem StowClient_skips_unfetchable :
  forall server hh qa boundary instances,
    (forall chunks count sent,
        StowClient_instances env server hh qa boundary instances chunks count sent
        = StowClient_instances env server hh qa boundary
            (filter (Spec.fetchable env) instances) chunks count sent)
    /\ (forall sent,
          StowClient_send env server hh qa boundary instances sent
          = StowClient_send env server hh qa boundary
              (filter (Spec.fetchable env) instances) sent)
    /\ ((forall it, In it instances -> Spec.fetchable env it = false) ->
        forall sent,
          StowClient_send env server hh qa boundary instances sent
          = (Ok (OrthancPluginAnswerBuffer ("{}" ++ LF) "application/json"), sent)).
Proof.
  intros server hh qa boundary instances.
  split; [apply StowClient_instances_filter|].
  split.
  - intro sent. unfold StowClient_send, bind.
    rewrite StowClient_instances_filter. reflexivity.
  - intros NONE sent. unfold StowClient_send, bind.
    rewrite StowClient_instances_filter, (filter_none _ _ NONE).
    cbn [StowClient_instances]. unfold ret at 1.
    rewrite SendStowChunks_idle by apply must_flush_empty.
    reflexivity.
Qed.


(** *** Resolving the resources of a request *)

Lemma AddInstance_outcome target entry :
  AddInstance target entry = Throw ErrorCode_InternalError
  \/ exists id, AddInstance target entry = Ok (target ++ [id])%list.
Proof.
  unfold AddInstance. destruct (_ || _)%bool; [left; reflexivity|right].
  eexists. reflexivity.
Qed.

Lemma AddInstances_outcome entries :
  forall target,
    AddInstances target entries = Throw ErrorCode_InternalError
    \/ exists added, AddInstances target entries = Ok (target ++ added)%list.
Proof.
  induction entries as [|e rest IH]; intro target; cbn.
  - right. exists []. rewrite app_nil_r. reflexivity.
  - destruct (AddInstance_outcome target e) as [->|[id ->]]; cbn; [left; reflexivity|].
    destruct (IH (target ++ [id])%list) as [->|[added ->]]; [left; reflexivity|].
    right. exists (id :: added). rewrite <- app_assoc. reflexivity.
Qed.

Lemma descendants_known l target found :
  Spec.descendants l target found <> Throw ErrorCode_UnknownResource.
Proof.
  destruct l; cbn;
    try (destruct found as [| | | | | |entries|?]; try discriminate;
         destruct (AddInstances_outcome entries target) as [->|[? ->]]; discriminate).
  destruct (AddInstance_outcome target found) as [->|[? ->]]; discriminate.
Qed.

Lemma ParseStowRequest_resource_Expand instances resource :
  resource <> EmptyString ->
  ParseStowRequest_resource env instances (Json.Str resource)
  = Spec.Expand env [Spec.Instance; Spec.Series; Spec.Study; Spec.Patient]
                instances resource.
Proof.
  intro NE. apply String.eqb_neq in NE.
  unfold ParseStowRequest_resource. cbn [Json.is_type Json.type negb Json.asString].
  rewrite NE. cbn [Spec.Expand Spec.matches Spec.uri Spec.descendants].
  destruct (RestApiGet env ("/instances/" ++ resource)) as [tmp|]; [reflexivity|].
  unfold LookupInstances.
  assert (listing : forall tmp : Json.Value,
             (if negb (Json.is_type tmp Json.arrayValue)
              then Throw ErrorCode_InternalError
              else AddInstances instances (Json.items tmp))
             = match tmp with
               | Json.Array entries => AddInstances instances entries
               | _ => Throw ErrorCode_InternalError
               end)
    by (intros []; reflexivity).
  destruct (RestApiGet env ("/series/" ++ resource)) as [r1|].
  - destruct (RestApiGet env ("/series/" ++ resource ++ "/instances")) as [tmp|];
      [apply listing|].
    destruct (RestApiGet env ("/studies/" ++ resource)) as [r2|].
    + destruct (RestApiGet env ("/studies/" ++ resource ++ "/instances")) as [tmp|];
        [apply listing|].
      destruct (RestApiGet env ("/patients/" ++ resource)) as [r3|]; [|reflexivity].
      destruct (RestApiGet env ("/patients/" ++ resource ++ "/instances")) as [tmp|];
        [apply listing|reflexivity].
    + destruct (RestApiGet env ("/patients/" ++ resource)) as [r3|]; [|reflexivity].
      destruct (RestApiGet env ("/patients/" ++ resource ++ "/instances")) as [tmp|];
        [apply listing|reflexivity].
  - destruct (RestApiGet env ("/studies/" ++ resource)) as [r2|].
    + destruct (RestApiGet env ("/studies/" ++ resource ++ "/instances")) as [tmp|];
        [apply listing|].
      destruct (RestApiGet env ("/patients/" ++ resource)) as [r3|]; [|reflexivity].
      destruct (RestApiGet env ("/patients/" ++ resource ++ "/instances")) as [tmp|];
        [apply listing|reflexivity].
    + destruct (RestApiGet env ("/patients/" ++ resource)) as [r3|]; [|reflexivity].
      destruct (RestApiGet env ("/patients/" ++ resource ++ "/instances")) as [tmp|];
        [apply listing|reflexivity].
Qed.

Lemma Expand_unknown levels target id :
  Spec.Expand env levels target id = Throw ErrorCode_UnknownResource
  <-> forall l, In l levels -> Spec.matches env l id = None.
Proof.
  induction levels as [|l rest IH]; cbn [Spec.Expand].
  - split; [intros _ l []|reflexivity].
  - destruct (Spec.matches env l id) as [found|] eqn:E.
    + split.
      * intro H. apply descendants_known in H. contradiction.
      * intro H. specialize (H l (or_introl eq_refl)). congruence.
    + rewrite IH. split.
      * intros H l' [<-|IN]; [assumption|apply H; assumption].
      * intros H l' IN. apply H. right. assumption.
Qed.

(** C7, as the code has it.  A non-empty identifier is resolved by the
    ordered fallback over the levels instance, series, study, patient:
    the first level is accepted at which the store knows the identifier
    and, below the instance level, also lists its instances.  The
    resolution throws [ErrorCode_UnknownResource] exactly when no level
    matches. *)
Theorem ParseStowRequest_resource_order :
  forall instances resource,
    resource <> EmptyString ->
    ParseStowRequest_resource env instances (Json.Str resource)
    = Spec.Expand env [Spec.Instance; Spec.Series; Spec.Study; Spec.Patient]
                  instances resource
    /\ (ParseStowRequest_resource env instances (Json.Str resource)
        = Throw ErrorCode_UnknownResource
        <-> forall l, Spec.matches env l resource = None).
Proof.
  intros instances resource NE.
  split; [apply ParseStowRequest_resource_Expand; assumption|].
  rewrite (ParseStowRequest_resource_Expand _ _ NE), Expand_unknown.
  split.
  - intros H l. apply H. destruct l; cbn; auto.
  - intros H l _. apply H.
Qed.

Lemma ParseStowRequest_resources_app before :
  forall instances rest,
    ParseStowRequest_resources env instances (before ++ rest)
    = (resolved <-? ParseStowRequest_resources env instances before ;;
       ParseStowRequest_resources env resolved rest).
Proof.
  induction before as [|r before IH]; intros instances rest; [reflexivity|].
  cbn. destruct (ParseStowRequest_resource env instances r) as [i1|e]; cbn;
    [apply IH|reflexivity].
Qed.

(** An entry that is not an object with a string member ID. *)
Definition unreadable (entry : Json.Value) : bool :=
  negb (Json.is_type entry Json.objectValue)
  || negb (Json.isMember entry "ID")
  || negb (Json.is_type (Json.get entry "ID") Json.stringValue).

(** What the store returned at a level cannot be read as instances:
    at the instance level the entry returned is unreadable; at another
    level the list returned is not an array, or one of its entries is
    unreadable. *)
Definition unusable (l : Spec.Level) (found : Json.Value) : Prop :=
  match l with
  | Spec.Instance => unreadable found = true
  | _ =>
      Json.is_type found Json.arrayValue = false
      \/ exists entry, In entry (Json.items found) /\ unreadable entry = true
  end.

(** The level at which the resolution of an identifier stops, with what
    the store returned there: the first of the levels, in their order,
    that matches. *)
Definition stops_at (levels : list Spec.Level) (id : string)
           (l : Spec.Level) (found : Json.Value) : Prop :=
  exists earlier later,
    levels = (earlier ++ l :: later)%list
    /\ (forall l', In l' earlier -> Spec.matches env l' id = None)
    /\ Spec.matches env l id = Some found.

Lemma AddInstance_unreadable target entry :
  AddInstance target entry
  = if unreadable entry then Throw ErrorCode_InternalError
    else Ok (target ++ [Json.asString (Json.get entry "ID")])%list.
Proof. reflexivity. Qed.

Lemma AddInstances_throws entries :
  forall target,
    AddInstances target entries = Throw ErrorCode_InternalError
    <-> exists entry, In entry entries /\ unreadable entry = true.
Proof.
  induction entries as [|e rest IH]; intro target; cbn [AddInstances].
  - split; [discriminate|intros (? & [] & _)].
  - rewrite AddInstance_unreadable.
    destruct (unreadable e) eqn:U; cbn.
    + split; [intros _; exists e; split; [left; reflexivity|exact U]|reflexivity].
    + rewrite IH. split.
      * intros (entry & IN & UE). exists entry. split; [right; exact IN|exact UE].
      * intros (entry & [<- | IN] & UE); [congruence|]. exists entry. auto.
Qed.

Lemma descendants_throws l target found :
  Spec.descendants l target found = Throw ErrorCode_InternalError
  <-> unusable l found.
Proof.
  assert (LIST : (match found with
                  | Json.Array entries => AddInstances target entries
                  | _ => Throw ErrorCode_InternalError
                  end = Throw ErrorCode_InternalError)
                 <-> (Json.is_type found Json.arrayValue = false
                      \/ exists entry,
                          In entry (Json.items found) /\ unreadable entry = true)).
  { destruct found as [| | | | | |entries|members];
      try (split; [intros _; left; reflexivity|reflexivity]).
    cbn [Json.items]. rewrite AddInstances_throws. split.
    - intro H. right. exact H.
    - intros [H | H]; [discriminate|exact H]. }
  destruct l; cbn [Spec.descendants unusable]; try exact LIST.
  rewrite AddInstance_unreadable.
  destruct (unreadable found); split; congruence.
Qed.

Lemma Expand_throws levels target id :
  Spec.Expand env levels target id = Throw ErrorCode_InternalError
  <-> exists l found, stops_at levels id l found /\ unusable l found.
Proof.
  induction levels as [|l rest IH]; cbn [Spec.Expand].
  - split; [discriminate|].
    intros (l & found & (earlier & later & E & _) & _).
    destruct earlier; discriminate.
  - destruct (Spec.matches env l id) as [found|] eqn:M.
    + rewrite descendants_throws. split.
      * intro U. exists l, found. split; [|exact U].
        exists [], rest. split; [reflexivity|]. split; [intros ? []|exact M].
      * intros (l' & found' & (earlier & later & E & NONE & M') & U).
        destruct earlier as [|l0 earlier]; cbn [app] in E; injection E as E1 E2.
        -- subst l'. rewrite M in M'. injection M' as <-. exact U.
        -- subst l0. rewrite (NONE l (or_introl eq_refl)) in M. discriminate.
    + rewrite IH. split.
      * intros (l' & found' & (earlier & later & E & NONE & M') & U).
        exists l', found'. split; [|exact U].
        exists (l :: earlier), later. split; [rewrite E; reflexivity|].
        split; [|exact M']. intros l0 [<- | IN]; [exact M|apply NONE; exact IN].
      * intros (l' & found' & (earlier & later & E & NONE & M') & U).
        exists l', found'. split; [|exact U].
        destruct earlier as [|l0 earlier]; cbn [app] in E; injection E as E1 E2.
        -- subst l'. rewrite M in M'. discriminate.
        -- exists earlier, later. split; [exact E2|]. split; [|exact M'].
           intros l1 IN. apply NONE. right. exact IN.
Qed.

(** C8, as the code has it.  When the loop over the resources reaches
    an empty identifier the request fails with
    [ErrorCode_UnknownResource].  The resolution of another identifier
    fails with [ErrorCode_InternalError] exactly when, at the level
    where it stops, the store returned something that cannot be read as
    instances: an entry that is not an object with a string member ID,
    alone at the instance level or in the list of another level, or a
    list that is not an array; and then the loop over the resources
    fails with that error, once the resources before it are resolved.
    Neither failure is [ErrorCode_BadFileFormat].  [AddInstance] itself
    throws [ErrorCode_InternalError] for such an entry and appends the
    identifier of any other. *)
Theorem ParseStowRequest_empty_identifier :
  forall instances before after,
    (forall resolved,
        ParseStowRequest_resources env instances before = Ok resolved ->
        ParseStowRequest_resources env instances
          (before ++ Json.Str EmptyString :: after)
        = Throw ErrorCode_UnknownResource)
    /\ (forall target resource,
          resource <> EmptyString ->
          ParseStowRequest_resource env target (Json.Str resource)
          = Throw ErrorCode_InternalError
          <-> exists l found,
              stops_at [Spec.Instance; Spec.Series; Spec.Study; Spec.Patient]
                       resource l found
              /\ unusable l found)
    /\ (forall resolved resource l found,
          ParseStowRequest_resources env instances before = Ok resolved ->
          resource <> EmptyString ->
          stops_at [Spec.Instance; Spec.Series; Spec.Study; Spec.Patient]
                   resource l found ->
          unusable l found ->
          ParseStowRequest_resources env instances
            (before ++ Json.Str resource :: after)
          = Throw ErrorCode_InternalError)
    /\ (forall target entry,
          (Json.is_type entry Json.objectValue = false
           \/ Json.isMember entry "ID" = false
           \/ Json.is_type (Json.get entry "ID") Json.stringValue = false) ->
          unreadable entry = true
          /\ AddInstance target entry = Throw ErrorCode_InternalError)
    /\ (forall target members id,
          Json.lookup members "ID" = Some (Json.Str id) ->
          AddInstance target (Json.Object members) = Ok (target ++ [id])%list).
Proof.
  intros instances before after. split; [|split; [|split; [|split]]].
  - intros resolved H. rewrite ParseStowRequest_resources_app, H. reflexivity.
  - intros target resource NE.
    rewrite (ParseStowRequest_resource_Expand _ _ NE). apply Expand_throws.
  - intros resolved resource l found H NE S U.
    rewrite ParseStowRequest_resources_app, H.
    cbn [ParseStowRequest_resources and_then].
    assert (T : ParseStowRequest_resource env resolved (Json.Str resource)
                = Throw ErrorCode_InternalError).
    { rewrite (ParseStowRequest_resource_Expand _ _ NE). apply Expand_throws.
      exists l, found. split; assumption. }
    rewrite T. reflexivity.
  - intros target entry H.
    assert (U : unreadable entry = true).
    { unfold unreadable.
      destruct H as [-> | [-> | ->]]; cbn; rewrite ?orb_true_r; reflexivity. }
    split; [exact U|]. rewrite AddInstance_unreadable, U. reflexivity.
  - intros target members id H. unfold AddInstance. cbn. rewrite H. reflexivity.
Qed.


End Client.

(* ================================================================= *)
(** * Properties of the STOW-RS server *)

Section Server.

Import gdcm.
Import StowRs.

Variable env : Env.

Variables wadoBase expectedStudy : string.

(** The three ways a turn of the loop ends when it goes on. *)
Inductive Recorded (locals : Locals) (dicom : ParsedDicomFile)
  : Locals -> Prop :=
| Discarded :
    Recorded locals dicom
      {| isFirst := isFirst locals;
         result := result locals;
         success :=
           (success locals
            ++ [(Spec.references dicom
                 ++ [ByteValue DICOM_TAG_WARNING_REASON US "B006"])%list])%list;
         failed := failed locals |}
| Stored result' url :
    Recorded locals dicom
      {| isFirst := false;
         result := result';
         success :=
           (success locals
            ++ [(Spec.references dicom
                 ++ [ByteValue DICOM_TAG_RETRIEVE_URL UT url])%list])%list;
         failed := failed locals |}
| Refused result' :
    Recorded locals dicom
      {| isFirst := false;
         result := result';
         success := success locals;
         failed :=
           (failed locals
            ++ [(Spec.references dicom
                 ++ [ByteValue DICOM_TAG_FAILURE_REASON US "0110"])%list])%list |}.

Lemma StowCallback_item_next locals item store locals' store' :
  StowCallback_item env wadoBase expectedStudy locals item store
  = (Ok (Next locals'), store') ->
  exists dicom, ParseDicom env item = Ok dicom /\ Recorded locals dicom locals'.
Proof.
  unfold StowCallback_item.
  destruct (negb (String.eqb (contentType_ item) EmptyString)
            && negb (String.eqb (contentType_ item) "application/dicom"))%bool;
    [discriminate|].
  unfold bind, lift.
  destruct (ParseDicom env item) as [dicom|e]; [|discriminate].
  intro H. exists dicom. split; [reflexivity|].
  destruct (negb (String.eqb expectedStudy EmptyString) && _)%bool.
  - injection H as <- <-. constructor.
  - unfold post in H.
    destruct (RestApiPost env store "/instances" (data_ item));
      injection H as <- <-; constructor.
Qed.

Lemma StowCallback_items_records :
  forall items locals store locals' store',
    StowCallback_items env wadoBase expectedStudy locals items store
    = (Ok (Next locals'), store') ->
    exists records : list (bool * Item),
      success locals' = (success locals ++ map snd (filter fst records))%list
      /\ failed locals'
         = (failed locals ++ map snd (filter (fun r => negb (fst r)) records))%list
      /\ Forall2
           (fun item record =>
              exists dicom,
                ParseDicom env item = Ok dicom
                /\ GetByteValue (snd record) DICOM_TAG_REFERENCED_SOP_CLASS_UID
                   = Some (GetRawTagWithDefault dicom DICOM_TAG_SOP_CLASS_UID EmptyString)
                /\ GetByteValue (snd record) DICOM_TAG_REFERENCED_SOP_INSTANCE_UID
                   = Some (GetRawTagWithDefault dicom DICOM_TAG_SOP_INSTANCE_UID
                                                EmptyString))
           items records.
Proof.
  induction items as [|item rest IH]; intros locals store locals' store' H.
  - cbn in H. injection H as <- <-. exists []. cbn. rewrite !app_nil_r.
    repeat split. constructor.
  - cbn [StowCallback_items] in H. unfold bind in H.
    destruct (StowCallback_item env wadoBase expectedStudy locals item store)
      as [[[locals1|status]|e] store1] eqn:T; try discriminate.
    apply StowCallback_item_next in T. destruct T as (dicom & P & R).
    destruct (IH _ _ _ _ H) as (records & S & F & ALL).
    destruct R as [|result' url|result'].
    + exists ((true, (Spec.references dicom
                      ++ [ByteValue DICOM_TAG_WARNING_REASON US "B006"])%list) :: records).
      cbn [filter map fst snd negb]. cbn [success failed] in S, F.
      rewrite S, F, <- app_assoc. repeat split.
      constructor; [|assumption]. exists dicom. cbn. auto.
    + exists ((true, (Spec.references dicom
                      ++ [ByteValue DICOM_TAG_RETRIEVE_URL UT url])%list) :: records).
      cbn [filter map fst snd negb]. cbn [success failed] in S, F.
      rewrite S, F, <- app_assoc. repeat split.
      constructor; [|assumption]. exists dicom. cbn. auto.
    + exists ((false, (Spec.references dicom
                       ++ [ByteValue DICOM_TAG_FAILURE_REASON US "0110"])%list) :: records).
      cbn [filter map fst snd negb]. cbn [success failed] in S, F.
      rewrite S, F, <- app_assoc. repeat split.
      constructor; [|assumption]. exists dicom. cbn. auto.
Qed.

Lemma filter_split_length {A : Type} (f : A -> bool) (l : list A) :
  (List.length (filter f l) + List.length (filter (fun x => negb (f x)) l))%nat
  = List.length l.
Proof.
  induction l as [|x l IH]; [reflexivity|].
  cbn. destruct (f x); cbn; lia.
Qed.

(** C4.  When the loop of [StowCallback] goes through all the parts,
    there is one record per part, in the order of the parts, each
    carrying the SOP class and instance UIDs of its part and marked with
    the sequence it went to; the success sequence grew by the records
    marked for it and the failed sequence by the others, so the two
    sequences together grew by the number of parts. *)
Theorem StowCallback_items_one_record_per_part :
  forall items locals store locals' store',
    StowCallback_items env wadoBase expectedStudy locals items store
    = (Ok (Next locals'), store') ->
    (exists records : list (bool * Item),
        success locals' = (success locals ++ map snd (filter fst records))%list
        /\ failed locals'
           = (failed locals ++ map snd (filter (fun r => negb (fst r)) records))%list
        /\ Forall2
             (fun item record =>
                exists dicom,
                  ParseDicom env item = Ok dicom
                  /\ GetByteValue (snd record) DICOM_TAG_REFERENCED_SOP_CLASS_UID
                     = Some (GetRawTagWithDefault dicom DICOM_TAG_SOP_CLASS_UID
                                                  EmptyString)
                  /\ GetByteValue (snd record) DICOM_TAG_REFERENCED_SOP_INSTANCE_UID
                     = Some (GetRawTagWithDefault dicom DICOM_TAG_SOP_INSTANCE_UID
                                                  EmptyString))
             items records)
    /\ (List.length (success locals') + List.length (failed locals')
        = List.length (success locals) + List.length (failed locals)
          + List.length items)%nat.
Proof.
  intros items locals store locals' store' H.
  destruct (StowCallback_items_records _ _ _ _ _ H) as (records & S & F & ALL).
  split; [exists records; auto|].
  rewrite S, F, !length_app, !length_map.
  pose proof (filter_split_length fst records) as SPLIT.
  apply Forall2_length in ALL. unfold Item, DataSet in *. lia.
Qed.

(** The loop goes through all the parts when each of them is declared
    as DICOM, or not declared at all, and parses as DICOM. *)
Lemma StowCallback_items_completes :
  forall items locals store,
    (forall item, In item items ->
             (contentType_ item = EmptyString
              \/ contentType_ item = "application/dicom")
             /\ exists dicom, ParseDicom env item = Ok dicom) ->
    exists locals' store',
      StowCallback_items env wadoBase expectedStudy locals items store
      = (Ok (Next locals'), store').
Proof.
  induction items as [|item rest IH]; intros locals store ALL.
  - exists locals, store. reflexivity.
  - destruct (ALL item (or_introl eq_refl)) as (CT & dicom & P).
    assert (T : exists locals1 store1,
               StowCallback_item env wadoBase expectedStudy locals item store
               = (Ok (Next locals1), store1)).
    { unfold StowCallback_item.
      assert (C : (negb (String.eqb (contentType_ item) EmptyString)
                   && negb (String.eqb (contentType_ item) "application/dicom"))%bool
                  = false)
        by (destruct CT as [-> | ->]; reflexivity).
      rewrite C. unfold bind, lift. rewrite P.
      destruct (negb (String.eqb expectedStudy EmptyString) && _)%bool;
        [eexists; eexists; reflexivity|].
      unfold post. destruct (RestApiPost env store "/instances" (data_ item));
        eexists; eexists; reflexivity. }
    destruct T as (locals1 & store1 & T).
    destruct (IH locals1 store1) as (locals' & store' & R).
    { intros i IN. apply ALL. right. assumption. }
    exists locals', store'. cbn [StowCallback_items]. unfold bind. rewrite T. exact R.
Qed.

(** C5.  A part that is declared as DICOM and parses: when the request
    is restricted to a study and the part is of another study, its
    record goes to the success sequence with the warning reason B006,
    nothing is posted to the store and neither the failed sequence nor
    the result changes; when the part is not discarded and the store
    refuses it, its record goes to the failed sequence with the failure
    reason 0110 and the success sequence does not change. *)
Theorem StowCallback_item_warning_and_failure :
  forall locals item dicom store,
    (contentType_ item = EmptyString \/ contentType_ item = "application/dicom") ->
    ParseDicom env item = Ok dicom ->
    (expectedStudy <> EmptyString ->
     GetRawTagWithDefault dicom DICOM_TAG_STUDY_INSTANCE_UID EmptyString
     <> expectedStudy ->
     StowCallback_item env wadoBase expectedStudy locals item store
     = (Ok (Next {| isFirst := isFirst locals;
                    result := result locals;
                    success :=
                      (success locals
                       ++ [(Spec.references dicom
                            ++ [ByteValue DICOM_TAG_WARNING_REASON US "B006"])%list])%list;
                    failed := failed locals |}),
        store))
    /\ ((expectedStudy = EmptyString
         \/ GetRawTagWithDefault dicom DICOM_TAG_STUDY_INSTANCE_UID EmptyString
            = expectedStudy) ->
        RestApiPost env store "/instances" (data_ item) = false ->
        exists result',
          StowCallback_item env wadoBase expectedStudy locals item store
          = (Ok (Next {| isFirst := false;
                         result := result';
                         success := success locals;
                         failed :=
                           (failed locals
                            ++ [(Spec.references dicom
                                 ++ [ByteValue DICOM_TAG_FAILURE_REASON US "0110"])%list])%list
                      |}),
             (store ++ [{| call_uri := "/instances";
                           call_data := data_ item;
                           call_ok := false |}])%list)).
Proof.
  intros locals item dicom store CT P.
  assert (C : (negb (String.eqb (contentType_ item) EmptyString)
               && negb (String.eqb (contentType_ item) "application/dicom"))%bool
              = false)
    by (destruct CT as [-> | ->]; reflexivity).
  unfold StowCallback_item. rewrite C. unfold bind, lift. rewrite P.
  split.
  - intros NE DIFF.
    apply String.eqb_neq in NE, DIFF. rewrite NE, DIFF. reflexivity.
  - intros KEEP REF.
    assert (K : (negb (String.eqb expectedStudy EmptyString)
                 && negb (String.eqb
                            (GetRawTagWithDefault dicom DICOM_TAG_STUDY_INSTANCE_UID
                                                  EmptyString)
                            expectedStudy))%bool = false).
    { destruct KEEP as [E|E]; apply String.eqb_eq in E; rewrite E;
        [reflexivity|apply andb_false_r]. }
    rewrite K. unfold post. rewrite REF.
    eexists. reflexivity.
Qed.

(** *** The retrieve URL of the batch *)

Lemma StowCallback_item_result locals item store locals' store' :
  StowCallback_item env wadoBase expectedStudy locals item store
  = (Ok (Next locals'), store') ->
  exists dicom,
    ParseDicom env item = Ok dicom
    /\ (Spec.kept env expectedStudy item = false ->
        isFirst locals' = isFirst locals /\ result locals' = result locals)
    /\ (Spec.kept env expectedStudy item = true ->
        isFirst locals' = false
        /\ result locals'
           = if isFirst locals
             then SetTag (result locals) DICOM_TAG_RETRIEVE_URL UT
                         (wadoBase ++ "studies/"
                          ++ GetRawTagWithDefault dicom DICOM_TAG_STUDY_INSTANCE_UID
                                                  EmptyString)
             else result locals).
Proof.
  unfold StowCallback_item, Spec.kept.
  destruct (negb (String.eqb (contentType_ item) EmptyString)
            && negb (String.eqb (contentType_ item) "application/dicom"))%bool;
    [discriminate|].
  unfold bind, lift.
  destruct (ParseDicom env item) as [dicom|e]; [|discriminate].
  intro H. exists dicom. split; [reflexivity|].
  destruct (negb (String.eqb expectedStudy EmptyString) && _)%bool.
  - injection H as <- <-. cbn. split; [auto|discriminate].
  - unfold post in H. cbn [negb]. split; [discriminate|]. intros _.
    destruct (RestApiPost env store "/instances" (data_ item));
      injection H as <- <-; cbn; auto.
Qed.

Lemma StowCallback_items_result_kept :
  forall items locals store locals' store',
    isFirst locals = false ->
    StowCallback_items env wadoBase expectedStudy locals items store
    = (Ok (Next locals'), store') ->
    result locals' = result locals.
Proof.
  induction items as [|item rest IH]; intros locals store locals' store' NF H.
  - cbn in H. injection H as <- <-. reflexivity.
  - cbn [StowCallback_items] in H. unfold bind in H.
    destruct (StowCallback_item env wadoBase expectedStudy locals item store)
      as [[[locals1|status]|e] store1] eqn:T; try discriminate.
    apply StowCallback_item_result in T. destruct T as (dicom & _ & D & K).
    destruct (Spec.kept env expectedStudy item).
    + destruct (K eq_refl) as [F1 R1]. rewrite NF in R1.
      rewrite (IH _ _ _ _ F1 H). exact R1.
    + destruct (D eq_refl) as [F1 R1]. rewrite NF in F1.
      rewrite (IH _ _ _ _ F1 H). exact R1.
Qed.

Lemma StowCallback_items_result_first :
  forall items locals store locals' store',
    isFirst locals = true ->
    result locals = [] ->
    StowCallback_items env wadoBase expectedStudy locals items store
    = (Ok (Next locals'), store') ->
    result locals' = Spec.batch_url env wadoBase expectedStudy items.
Proof.
  induction items as [|item rest IH]; intros locals store locals' store' FI E H.
  - cbn in H. injection H as <- <-. exact E.
  - cbn [StowCallback_items] in H. unfold bind in H.
    destruct (StowCallback_item env wadoBase expectedStudy locals item store)
      as [[[locals1|status]|e] store1] eqn:T; try discriminate.
    apply StowCallback_item_result in T. destruct T as (dicom & P & D & K).
    unfold Spec.batch_url. cbn [List.find].
    destruct (Spec.kept env expectedStudy item).
    + destruct (K eq_refl) as [F1 R1]. rewrite FI, E in R1. rewrite P.
      rewrite (StowCallback_items_result_kept _ _ _ _ _ F1 H). exact R1.
    + destruct (D eq_refl) as [F1 R1]. rewrite FI in F1. rewrite E in R1.
      exact (IH _ _ _ _ F1 R1 H).
Qed.

(** C9, as the code has it.  When [StowCallback] goes through all the
    parts, the result data set holds the retrieve URL of the batch at
    most once: it is the base URL followed by the study of the first
    part that the study restriction lets through, whether the store then
    takes that part or refuses it, and it is absent when no part is let
    through.  The answer is this data set followed by the failed and the
    success sequences. *)
Theorem StowCallback_items_batch_url :
  forall items store locals' store',
    StowCallback_items env wadoBase expectedStudy initial items store
    = (Ok (Next locals'), store') ->
    result locals' = Spec.batch_url env wadoBase expectedStudy items
    /\ SetSequenceTag
         (SetSequenceTag (result locals') DICOM_TAG_FAILED_SOP_SEQUENCE (failed locals'))
         DICOM_TAG_REFERENCED_SOP_SEQUENCE (success locals')
       = (Spec.batch_url env wadoBase expectedStudy items
          ++ [SequenceValue DICOM_TAG_FAILED_SOP_SEQUENCE SQ (failed locals');
              SequenceValue DICOM_TAG_REFERENCED_SOP_SEQUENCE SQ (success locals')])%list.
Proof.
  intros items store locals' store' H.
  assert (R : result locals' = Spec.batch_url env wadoBase expectedStudy items)
    by (exact (StowCallback_items_result_first items initial store locals' store'
                 eq_refl eq_refl H)).
  split; [exact R|]. rewrite R. unfold Spec.batch_url.
  destruct (List.find (Spec.kept env expectedStudy) items) as [item|]; [|reflexivity].
  destruct (ParseDicom env item); reflexivity.
Qed.

(** *** The Content-Type of the request *)




End Server.

(* ================================================================= *)
(** * The scenarios, checked *)

Section ClientScenarios.

Import DicomWebClient.

(** With the default limit of ten instances and a byte limit of one
    mebibyte, two instances of one mebibyte each leave in two POSTs of
    one instance: more than [ceil (2 / 10)], and more than one. *)
Lemma StowClient_send_mebibytes :
  Spec.fetchable Scenario.large "a" = true
  /\ Spec.fetchable Scenario.large "b" = true
  /\ fst (StowClient_send Scenario.large "srv" [] [] "B" ["a"; "b"] [])
     = Ok (OrthancPluginAnswerBuffer ("{}" ++ LF) "application/json")
  /\ map post_instances
         (snd (StowClient_send Scenario.large "srv" [] [] "B" ["a"; "b"] []))
     = [1; 1]
  /\ maxInstances Scenario.large = 10
  /\ maxSize Scenario.large = 1048576
  /\ Spec.ceil_div 2 (maxInstances Scenario.large) = 1.
Proof.
  repeat split; vm_compute; reflexivity.
Qed.

(** Three fetchable instances with an instance limit of two and no byte
    limit leave in [ceil (3 / 2)] POSTs that carry three instances. *)
Lemma StowClient_send_flush_count_small :
  exists flushes,
    snd (StowClient_send Scenario.small "srv" [] [] "B" ["a"; "b"; "c"] [])
    = flushes
    /\ Spec.sum_instances flushes = 3
    /\ Z.of_nat (List.length flushes) = 2.
Proof.
  destruct (StowClient_send_flush_count
              Scenario.small "srv" [] [] "B" ["a"; "b"; "c"] []
              (OrthancPluginAnswerBuffer ("{}" ++ LF) "application/json")
              (snd (StowClient_send Scenario.small "srv" [] [] "B" ["a"; "b"; "c"] [])))
    as (flushes & E & S & _ & X & _).
  - intros it [<- | [<- | [<- | []]]]; reflexivity.
  - vm_compute. reflexivity.
  - vm_compute. reflexivity.
  - exists flushes. split; [exact E|]. split; [exact S|].
    destruct X as [C _]; [left; reflexivity|].
    rewrite C by (vm_compute; discriminate). reflexivity.
Defined.

(** A remote server that reports one stored and one failed instance
    makes the flush of one instance throw. *)
Lemma SendStowChunks_reconciles_answer_failing :
  must_flush Scenario.failing
             (ChunkedBuffer.AddChunk ChunkedBuffer.empty "AAAA") 1 true = true
  /\ fst (SendStowChunks Scenario.failing "srv" [] [] "B"
                         (ChunkedBuffer.AddChunk ChunkedBuffer.empty "AAAA") 1 true [])
     = Throw ErrorCode_NetworkProtocol.
Proof.
  split; [reflexivity|].
  destruct (SendStowChunks_reconciles_answer
              Scenario.failing "srv" [] [] "B"
              (ChunkedBuffer.AddChunk ChunkedBuffer.empty "AAAA") 1 true []
              eq_refl) as [_ H].
  destruct (H "accepted 1, failed 1" (Scenario.accepted_with_failure 1)
              eq_refl eq_refl) as (_ & F & _).
  apply (F 1); [reflexivity|discriminate].
Defined.

(** The identifier x names an instance and a patient: the code takes
    the instance, the order patient, study, series, instance takes the
    instances of the patient. *)
Lemma ParseStowRequest_resource_instance_first :
  ParseStowRequest_resource Scenario.two_levels [] (Json.Str "x") = Ok ["x"]
  /\ Spec.Expand Scenario.two_levels
                 [Spec.Patient; Spec.Study; Spec.Series; Spec.Instance] [] "x"
     = Ok ["i1"; "i2"]
  /\ ParseStowRequest Scenario.two_levels [] [] []
                      (Scenario.stow_request "Resources: [x]")
     = Ok (["x"], [], []).
Proof.
  repeat split; vm_compute; reflexivity.
Qed.

(** A study of two instances resolves to its instances. *)
Lemma ParseStowRequest_resource_order_study :
  ParseStowRequest_resource Scenario.one_study [] (Json.Str "s") = Ok ["i1"; "i2"]
  /\ ParseStowRequest_resource Scenario.one_study [] (Json.Str "i1")
     = Throw ErrorCode_UnknownResource.
Proof.
  split.
  - rewrite (proj1 (ParseStowRequest_resource_order
                      Scenario.one_study [] "s" ltac:(discriminate))).
    reflexivity.
  - apply (proj2 (ParseStowRequest_resource_order
                    Scenario.one_study [] "i1" ltac:(discriminate))).
    intros []; reflexivity.
Defined.

(** An empty identifier makes the request fail with
    [ErrorCode_UnknownResource], and a listed entry that is a bare
    string with [ErrorCode_InternalError]; neither is
    [ErrorCode_BadFileFormat], the code of a malformed request. *)
Lemma StowClient_empty_identifier_unknown :
  fst (StowClient Scenario.two_levels
                  (Scenario.stow_request "Resources: [empty string]") [])
  = Throw ErrorCode_UnknownResource
  /\ ErrorCode_UnknownResource <> ErrorCode_BadFileFormat
  /\ fst (StowClient Scenario.bare_listing (Scenario.stow_request "Resources: [s]") [])
     = Throw ErrorCode_InternalError
  /\ ErrorCode_InternalError <> ErrorCode_BadFileFormat.
Proof.
  repeat split; try discriminate; vm_compute; reflexivity.
Qed.

End ClientScenarios.

Section ServerScenarios.

Import gdcm.
Import StowRs.

(** Three parts in a request restricted to study 1.2.1: the first is
    stored, the second is of another study, the store refuses the
    third; two records go to the success sequence and one to the failed
    sequence. *)
Lemma StowCallback_items_one_record_per_part_mixed :
  exists locals' store',
    StowCallback_items Scenario.mixed "http://localhost:8042/dicom-web/" "1.2.1"
      initial
      [Scenario.part "file 1"; Scenario.part "file 2"; Scenario.part "file 3"] []
    = (Ok (Next locals'), store')
    /\ List.length (success locals') = 2%nat
    /\ List.length (failed locals') = 1%nat
    /\ (List.length (success locals') + List.length (failed locals'))%nat = 3%nat.
Proof.
  eexists. eexists. split; [vm_compute; reflexivity|].
  split; [reflexivity|]. split; [reflexivity|].
  refine (proj2 (StowCallback_items_one_record_per_part
                   Scenario.mixed "http://localhost:8042/dicom-web/" "1.2.1"
                   [Scenario.part "file 1"; Scenario.part "file 2"; Scenario.part "file 3"]
                   initial [] _ _ _)).
  vm_compute. reflexivity.
Defined.

(** In the same request the second part gets the warning B006 and is
    not posted, and the third part, which the store refuses, gets the
    failure reason 0110. *)
Lemma StowCallback_item_warning_and_failure_mixed :
  StowCallback_item Scenario.mixed "http://localhost:8042/dicom-web/" "1.2.1"
    initial (Scenario.part "file 2") []
  = (Ok (Next {| isFirst := true;
                 result := [];
                 success :=
                   [[ByteValue DICOM_TAG_REFERENCED_SOP_CLASS_UID UI
                       "1.2.840.10008.5.1.4.1.1.2";
                     ByteValue DICOM_TAG_REFERENCED_SOP_INSTANCE_UID UI "1.2.2.1.1";
                     ByteValue DICOM_TAG_WARNING_REASON US "B006"]];
                 failed := [] |}),
     [])
  /\ exists result',
      StowCallback_item Scenario.mixed "http://localhost:8042/dicom-web/" "1.2.1"
        initial (Scenario.part "file 3") []
      = (Ok (Next {| isFirst := false;
                     result := result';
                     success := [];
                     failed :=
                       [[ByteValue DICOM_TAG_REFERENCED_SOP_CLASS_UID UI
                           "1.2.840.10008.5.1.4.1.1.2";
                         ByteValue DICOM_TAG_REFERENCED_SOP_INSTANCE_UID UI "1.2.1.1.2";
                         ByteValue DICOM_TAG_FAILURE_REASON US "0110"]] |}),
         [{| call_uri := "/instances"; call_data := "file 3"; call_ok := false |}]).
Proof.
  split.
  - apply (proj1 (StowCallback_item_warning_and_failure
                    Scenario.mixed "http://localhost:8042/dicom-web/" "1.2.1"
                    initial (Scenario.part "file 2")
                    (Scenario.dicom "1.2.2" "1.2.2.1" "1.2.840.10008.5.1.4.1.1.2"
                                    "1.2.2.1.1")
                    [] (or_intror eq_refl) eq_refl));
      discriminate.
  - apply (proj2 (StowCallback_item_warning_and_failure
                    Scenario.mixed "http://localhost:8042/dicom-web/" "1.2.1"
                    initial (Scenario.part "file 3")
                    (Scenario.dicom "1.2.1" "1.2.1.1" "1.2.840.10008.5.1.4.1.1.2"
                                    "1.2.1.1.2")
                    [] (or_intror eq_refl) eq_refl));
      [right|]; reflexivity.
Defined.


(** The store refuses the first part, of study 1.2.1, and takes the
    second, of study 1.2.2: the retrieve URL of the batch is the one of
    study 1.2.1, of which nothing was stored. *)
Lemma StowCallback_url_of_refused_part :
  StowCallback Scenario.first_refused
    (Scenario.post_request []
       "multipart/related; type=application/dicom; boundary=abc123") []
  = (Ok (AnswerDicom "http://localhost:8042/dicom-web/"
           [ByteValue DICOM_TAG_RETRIEVE_URL UT
              "http://localhost:8042/dicom-web/studies/1.2.1";
            SequenceValue DICOM_TAG_FAILED_SOP_SEQUENCE SQ
              [[ByteValue DICOM_TAG_REFERENCED_SOP_CLASS_UID UI
                  "1.2.840.10008.5.1.4.1.1.2";
                ByteValue DICOM_TAG_REFERENCED_SOP_INSTANCE_UID UI "1.2.1.1.1";
                ByteValue DICOM_TAG_FAILURE_REASON US "0110"]];
            SequenceValue DICOM_TAG_REFERENCED_SOP_SEQUENCE SQ
              [[ByteValue DICOM_TAG_REFERENCED_SOP_CLASS_UID UI
                  "1.2.840.10008.5.1.4.1.1.2";
                ByteValue DICOM_TAG_REFERENCED_SOP_INSTANCE_UID UI "1.2.2.1.1";
                ByteValue DICOM_TAG_RETRIEVE_URL UT
                  "http://localhost:8042/dicom-web/studies/1.2.2/series/1.2.2.1/instances/1.2.2.1.1"]]]
           false),
     [{| call_uri := "/instances"; call_data := "file 1"; call_ok := false |};
      {| call_uri := "/instances"; call_data := "file 2"; call_ok := true |}])
  /\ "http://localhost:8042/dicom-web/studies/1.2.1"
     <> "http://localhost:8042/dicom-web/studies/1.2.2".
Proof.
  split; [vm_compute; reflexivity|discriminate].
Qed.

(** In a request restricted to study 1.2.2 only the second of three
    parts is let through, and the retrieve URL of the batch is the one
    of its study. *)
Lemma StowCallback_items_batch_url_mixed :
  exists locals' store',
    StowCallback_items Scenario.mixed "http://localhost:8042/dicom-web/" "1.2.2"
      initial
      [Scenario.part "file 1"; Scenario.part "file 2"; Scenario.part "file 3"] []
    = (Ok (Next locals'), store')
    /\ result locals'
       = [ByteValue DICOM_TAG_RETRIEVE_URL UT
            "http://localhost:8042/dicom-web/studies/1.2.2"].
Proof.
  eexists. eexists. split; [vm_compute; reflexivity|].
  refine (proj1 (StowCallback_items_batch_url
                   Scenario.mixed "http://localhost:8042/dicom-web/" "1.2.2"
                   [Scenario.part "file 1"; Scenario.part "file 2"; Scenario.part "file 3"]
                   [] _ _ _)).
  vm_compute. reflexivity.
Defined.

End ServerScenarios.

(* ================================================================= *)
(** * Further properties of the STOW-RS client *)

Section ClientFurther.

Import DicomWebClient.

Variable env : Env.

Lemma tolower_toupper c : Toolbox.tolower (Toolbox.toupper c) = Toolbox.tolower c.
Proof.
  destruct c as [[] [] [] [] [] [] [] []]; reflexivity.
Qed.

Lemma toupper_tolower c : Toolbox.toupper (Toolbox.tolower c) = Toolbox.toupper c.
Proof.
  destruct c as [[] [] [] [] [] [] [] []]; reflexivity.
Qed.

Lemma tolower_idempotent c : Toolbox.tolower (Toolbox.tolower c) = Toolbox.tolower c.
Proof.
  destruct c as [[] [] [] [] [] [] [] []]; reflexivity.
Qed.

Lemma toupper_idempotent c : Toolbox.toupper (Toolbox.toupper c) = Toolbox.toupper c.
Proof.
  destruct c as [[] [] [] [] [] [] [] []]; reflexivity.
Qed.

Lemma ToLowerCase_ToUpperCase s :
  Toolbox.ToLowerCase (Toolbox.ToUpperCase s) = Toolbox.ToLowerCase s.
Proof.
  induction s as [|c s IH]; [reflexivity|].
  cbn [Toolbox.ToUpperCase Toolbox.ToLowerCase]. rewrite tolower_toupper, IH. reflexivity.
Qed.

Lemma ToUpperCase_ToLowerCase s :
  Toolbox.ToUpperCase (Toolbox.ToLowerCase s) = Toolbox.ToUpperCase s.
Proof.
  induction s as [|c s IH]; [reflexivity|].
  cbn [Toolbox.ToUpperCase Toolbox.ToLowerCase]. rewrite toupper_tolower, IH. reflexivity.
Qed.

Lemma ToLowerCase_idempotent s :
  Toolbox.ToLowerCase (Toolbox.ToLowerCase s) = Toolbox.ToLowerCase s.
Proof.
  induction s as [|c s IH]; [reflexivity|].
  cbn [Toolbox.ToLowerCase]. rewrite tolower_idempotent, IH. reflexivity.
Qed.

Lemma ToUpperCase_idempotent s :
  Toolbox.ToUpperCase (Toolbox.ToUpperCase s) = Toolbox.ToUpperCase s.
Proof.
  induction s as [|c s IH]; [reflexivity|].
  cbn [Toolbox.ToUpperCase]. rewrite toupper_idempotent, IH. reflexivity.
Qed.

(** X1.  [GetSequenceSize] does not depend on the case in which its
    caller spells the tag: the tag is looked up in its upper-case and
    then in its lower-case spelling whatever the spelling given.  It
    throws nothing but [ErrorCode_NetworkProtocol], and an optional tag
    that the answer has in neither spelling is no error. *)
Theorem GetSequenceSize_any_spelling :
  forall answer tag isMandatory,
    GetSequenceSize answer (Toolbox.ToLowerCase tag) isMandatory
    = GetSequenceSize answer tag isMandatory
    /\ GetSequenceSize answer (Toolbox.ToUpperCase tag) isMandatory
       = GetSequenceSize answer tag isMandatory
    /\ (forall e, GetSequenceSize answer tag isMandatory = Throw e ->
             e = ErrorCode_NetworkProtocol)
    /\ (Json.isMember answer (Toolbox.ToUpperCase tag) = false ->
        Json.isMember answer (Toolbox.ToLowerCase tag) = false ->
        GetSequenceSize answer tag false = Ok None
        /\ GetSequenceSize answer tag true = Throw ErrorCode_NetworkProtocol).
Proof.
  intros answer tag isMandatory. split; [|split; [|split]].
  - unfold GetSequenceSize.
    rewrite ToUpperCase_ToLowerCase, ToLowerCase_idempotent. reflexivity.
  - unfold GetSequenceSize.
    rewrite ToLowerCase_ToUpperCase, ToUpperCase_idempotent. reflexivity.
  - intros e H. exact (GetSequenceSize_throws _ _ _ _ H).
  - intros U L. unfold GetSequenceSize. rewrite U, L. split; reflexivity.
Qed.

(** *** What the POSTs carry *)

(** The files of the instances that can be fetched, in order. *)
Definition files (instances : list string) : list string :=
  flat_map
    (fun it =>
       match RestApiGetBuffer env ("/instances/" ++ it ++ "/file") with
       | Some dicom => [dicom]
       | None => []
       end)
    instances.

(** The parts of a list of files, each behind its framing. *)
Fixpoint Frames (boundary : string) (batch : list string) : string :=
  match batch with
  | [] => EmptyString
  | dicom :: rest => PartHeader boundary dicom ++ dicom ++ Frames boundary rest
  end.

(** A POST of the client that carries the given batch of files. *)
Definition carries (server : string) (hh qa : StringMap) (boundary : string)
           (p : Post) (batch : list string) : Prop :=
  post_body p = Frames boundary batch ++ Close boundary
  /\ post_instances p = Z.of_nat (List.length batch)
  /\ post_server p = server
  /\ post_headers p = hh
  /\ post_uri p = UriEncode env "studies" qa.

Lemma Frames_snoc boundary batch dicom :
  Frames boundary (batch ++ [dicom])
  = Frames boundary batch ++ PartHeader boundary dicom ++ dicom.
Proof.
  induction batch as [|d rest IH].
  - cbn [app Frames]. rewrite append_empty_r. reflexivity.
  - cbn [app Frames]. rewrite IH, !append_assoc. reflexivity.
Qed.

Lemma SendStowChunks_cases server hh qa boundary chunks count force sent :
  (must_flush env chunks count force = false
   /\ SendStowChunks env server hh qa boundary chunks count force sent
      = (Ok (chunks, count), sent))
  \/ (must_flush env chunks count force = true
      /\ exists r,
          SendStowChunks env server hh qa boundary chunks count force sent
          = (r,
             (sent
              ++ [{| post_server := server;
                     post_headers := hh;
                     post_uri := UriEncode env "studies" qa;
                     post_body :=
                       fst (ChunkedBuffer.Flatten
                              (ChunkedBuffer.AddChunk chunks (Close boundary)));
                     post_instances := count |}])%list)
          /\ (r = Ok (ChunkedBuffer.empty, 0) \/ exists e, r = Throw e)).
Proof.
  destruct (must_flush env chunks count force) eqn:F.
  - right. split; [reflexivity|]. unfold SendStowChunks. rewrite F.
    cbn -[CheckStowAnswer String.concat Close].
    destruct (CallServer env sent server hh (UriEncode env "studies" qa) _) as [e|a].
    + eexists. split; [reflexivity|]. right. eexists. reflexivity.
    + destruct (CheckStowAnswer _ _) as [u|e].
      * eexists. split; [reflexivity|]. left. reflexivity.
      * eexists. split; [reflexivity|]. right. eexists. reflexivity.
  - left. split; [reflexivity|]. apply SendStowChunks_idle. exact F.
Qed.

Lemma StowClient_instances_frames server hh qa boundary :
  forall instances pending chunks count sent,
    fst (ChunkedBuffer.Flatten chunks) = Frames boundary pending ->
    count = Z.of_nat (List.length pending) ->
    count + Z.of_nat (List.length instances) < 2 ^ 64 ->
    exists posts batches,
      snd (StowClient_instances env server hh qa boundary instances chunks count sent)
      = (sent ++ posts)%list
      /\ Forall2 (carries server hh qa boundary) posts batches
      /\ match fst (StowClient_instances env server hh qa boundary instances
                                         chunks count sent) with
         | Ok (chunks', count') =>
             exists pending',
               (List.concat batches ++ pending' = pending ++ files instances)%list
               /\ fst (ChunkedBuffer.Flatten chunks') = Frames boundary pending'
               /\ count' = Z.of_nat (List.length pending')
         | Throw _ =>
             exists rest, (List.concat batches ++ rest = pending ++ files instances)%list
         end.
Proof.
  induction instances as [|it rest IH]; intros pending chunks count sent FL CN B.
  - exists [], []. cbn. rewrite !app_nil_r. split; [reflexivity|].
    split; [constructor|]. exists pending. auto.
  - cbn [StowClient_instances]. unfold files. cbn [flat_map]. fold (files rest).
    cbn [List.length] in B.
    destruct (RestApiGetBuffer env ("/instances/" ++ it ++ "/file")) as [dicom|] eqn:G.
    + assert (N1 : size_t (count + 1) = count + 1)
        by (unfold size_t; apply Z.mod_small; lia).
      rewrite N1. unfold bind.
      set (chunks1 := ChunkedBuffer.AddChunk
                        (ChunkedBuffer.AddChunk chunks (PartHeader boundary dicom)) dicom).
      assert (FL1 : fst (ChunkedBuffer.Flatten chunks1)
                    = Frames boundary (pending ++ [dicom])).
      { unfold chunks1. rewrite !Flatten_AddChunk, FL, Frames_snoc, append_assoc.
        reflexivity. }
      assert (CN1 : count + 1 = Z.of_nat (List.length (pending ++ [dicom])))
        by (rewrite length_app; cbn; lia).
      destruct (SendStowChunks_cases server hh qa boundary chunks1 (count + 1) false sent)
        as [(_ & ->) | (_ & r & -> & [-> | [e ->]])].
      * destruct (IH (pending ++ [dicom])%list chunks1 (count + 1) sent FL1 CN1 ltac:(lia))
          as (posts & batches & W & C & R).
        exists posts, batches. split; [exact W|]. split; [exact C|].
        cbn [app]. rewrite <- app_assoc in R. exact R.
      * set (p0 := {| post_server := server; post_headers := hh;
                      post_uri := UriEncode env "studies" qa;
                      post_body :=
                        fst (ChunkedBuffer.Flatten
                               (ChunkedBuffer.AddChunk chunks1 (Close boundary)));
                      post_instances := count + 1 |}).
        destruct (IH [] ChunkedBuffer.empty 0 (sent ++ [p0])%list eq_refl eq_refl
                     ltac:(cbn; lia))
          as (posts & batches & W & C & R).
        exists (p0 :: posts), ((pending ++ [dicom])%list :: batches).
        split; [rewrite W, <- app_assoc; reflexivity|].
        split.
        { constructor; [|exact C]. unfold carries, p0. cbn [post_body post_instances
            post_server post_headers post_uri].
          rewrite Flatten_AddChunk, FL1. auto. }
        cbn [List.concat app].
        destruct (fst (StowClient_instances env server hh qa boundary rest
                                            ChunkedBuffer.empty 0 (sent ++ [p0])%list))
          as [[c' n']|e].
        -- destruct R as (pending' & E & F' & N'). exists pending'.
           cbn [app] in E. rewrite <- !app_assoc, E. auto.
        -- destruct R as (rest' & E). exists rest'.
           cbn [app] in E. rewrite <- !app_assoc, E. reflexivity.
      * set (p0 := {| post_server := server; post_headers := hh;
                      post_uri := UriEncode env "studies" qa;
                      post_body :=
                        fst (ChunkedBuffer.Flatten
                               (ChunkedBuffer.AddChunk chunks1 (Close boundary)));
                      post_instances := count + 1 |}).
        exists [p0], [(pending ++ [dicom])%list].
        split; [reflexivity|]. split.
        { constructor; [|constructor]. unfold carries, p0. cbn [post_body post_instances
            post_server post_headers post_uri].
          rewrite Flatten_AddChunk, FL1. auto. }
        cbn [fst List.concat app]. exists (files rest).
        rewrite app_nil_r, <- app_assoc. reflexivity.
    + cbn [app]. apply IH; [exact FL|exact CN|lia].
Qed.

(** X2.  Whatever the outcome of the sending part of [StowClient],
    every POST it made carries a batch of whole files, each behind its
    part header and the batch closed by the terminator, with the number
    of files as its instance count; all the POSTs go to the same server
    with the same headers and URI; and the batches, one after the other,
    are a prefix of the fetched files in the order of the request, all
    of them when the run succeeds: no file is sent twice, reordered or
    cut. *)
Theorem StowClient_send_frames :
  forall server hh qa boundary instances sent,
    Z.of_nat (List.length instances) < 2 ^ 64 ->
    exists posts batches,
      snd (StowClient_send env server hh qa boundary instances sent)
      = (sent ++ posts)%list
      /\ Forall2 (carries server hh qa boundary) posts batches
      /\ (exists rest, (List.concat batches ++ rest = files instances)%list)
      /\ (forall output,
            fst (StowClient_send env server hh qa boundary instances sent) = Ok output ->
            List.concat batches = files instances).
Proof.
  intros server hh qa boundary instances sent B.
  destruct (StowClient_instances_frames server hh qa boundary instances []
              ChunkedBuffer.empty 0 sent eq_refl eq_refl ltac:(lia))
    as (posts & batches & W & C & R).
  unfold StowClient_send, bind.
  destruct (StowClient_instances env server hh qa boundary instances
                                 ChunkedBuffer.empty 0 sent)
    as [[[c1 n1]|e] w1] eqn:L; cbn [fst snd] in W, R |- *.
  - destruct R as (pending' & E & F' & N'). cbn [app] in E. subst w1.
    destruct (SendStowChunks_cases server hh qa boundary c1 n1 true (sent ++ posts)%list)
      as [(NF & ->) | (_ & r & -> & [-> | [e ->]])]; cbn [fst snd].
    + exists posts, batches. split; [reflexivity|]. split; [exact C|].
      assert (pending' = []).
      { destruct pending' as [|d l]; [reflexivity|].
        rewrite must_flush_forced in NF by (subst n1; cbn [List.length]; lia).
        discriminate. }
      subst pending'. rewrite app_nil_r in E.
      split; [exists []; rewrite app_nil_r; exact E|]. intros _ _. exact E.
    + exists (posts ++ [{| post_server := server; post_headers := hh;
                           post_uri := UriEncode env "studies" qa;
                           post_body :=
                             fst (ChunkedBuffer.Flatten
                                    (ChunkedBuffer.AddChunk c1 (Close boundary)));
                           post_instances := n1 |}])%list,
             (batches ++ [pending'])%list.
      split; [rewrite app_assoc; reflexivity|].
      assert (E' : List.concat (batches ++ [pending']) = files instances)
        by (rewrite concat_app; cbn [List.concat]; rewrite app_nil_r; exact E).
      split.
      { apply Forall2_app; [exact C|]. constructor; [|constructor].
        unfold carries. cbn [post_body post_instances post_server post_headers post_uri].
        rewrite Flatten_AddChunk, F'. auto. }
      split; [exists []; rewrite app_nil_r; exact E'|]. intros _ _. exact E'.
    + exists (posts ++ [{| post_server := server; post_headers := hh;
                           post_uri := UriEncode env "studies" qa;
                           post_body :=
                             fst (ChunkedBuffer.Flatten
                                    (ChunkedBuffer.AddChunk c1 (Close boundary)));
                           post_instances := n1 |}])%list,
             (batches ++ [pending'])%list.
      split; [rewrite app_assoc; reflexivity|].
      assert (E' : List.concat (batches ++ [pending']) = files instances)
        by (rewrite concat_app; cbn [List.concat]; rewrite app_nil_r; exact E).
      split.
      { apply Forall2_app; [exact C|]. constructor; [|constructor].
        unfold carries. cbn [post_body post_instances post_server post_headers post_uri].
        rewrite Flatten_AddChunk, F'. auto. }
      split; [exists []; rewrite app_nil_r; exact E'|]. intros ? H. discriminate.
  - subst w1. exists posts, batches. split; [reflexivity|]. split; [exact C|].
    split; [exact R|]. intros ? H. discriminate.
Qed.


(** *** Requests that are refused *)

(** X3.  [ParseStowRequest] throws [ErrorCode_BadFileFormat] when the
    body of the request is not JSON, is not an object, has no member
    Resources or has one that is not an array; and so does the loop over
    the resources at the first resource that is not a string, once the
    resources before it are resolved. *)
Theorem ParseStowRequest_bad_format :
  forall instances hh qa request,
    (Reader_parse env (body request) = None ->
     ParseStowRequest env instances hh qa request = Throw ErrorCode_BadFileFormat)
    /\ (forall document,
          Reader_parse env (body request) = Some document ->
          (Json.is_type document Json.objectValue = false
           \/ Json.isMember document "Resources" = false
           \/ Json.is_type (Json.get document "Resources") Json.arrayValue = false) ->
          ParseStowRequest env instances hh qa request = Throw ErrorCode_BadFileFormat)
    /\ (forall before r after resolved,
          ParseStowRequest_resources env instances before = Ok resolved ->
          Json.is_type r Json.stringValue = false ->
          ParseStowRequest_resources env instances (before ++ r :: after)
          = Throw ErrorCode_BadFileFormat).
Proof.
  intros instances hh qa request. split; [|split].
  - intro N. unfold ParseStowRequest. rewrite N. reflexivity.
  - intros document P H. unfold ParseStowRequest. rewrite P.
    destruct H as [-> | [-> | ->]]; cbn; rewrite ?orb_true_r; reflexivity.
  - intros before r after resolved R T.
    rewrite ParseStowRequest_resources_app, R. cbn.
    unfold ParseStowRequest_resource. rewrite T. reflexivity.
Qed.

Lemma StowClient_send_extends server hh qa boundary instances sent :
  exists posts,
    snd (StowClient_send env server hh qa boundary instances sent)
    = (sent ++ posts)%list.
Proof.
  unfold StowClient_send, bind.
  assert (LOOP : forall instances chunks count sent,
             exists posts,
               snd (StowClient_instances env server hh qa boundary instances
                                         chunks count sent)
               = (sent ++ posts)%list).
  { clear. induction instances as [|it rest IH]; intros chunks count sent.
    - exists []. cbn. rewrite app_nil_r. reflexivity.
    - cbn [StowClient_instances].
      destruct (RestApiGetBuffer env ("/instances/" ++ it ++ "/file")) as [dicom|];
        [|apply IH].
      unfold bind.
      destruct (SendStowChunks_cases server hh qa boundary
                  (ChunkedBuffer.AddChunk
                     (ChunkedBuffer.AddChunk chunks (PartHeader boundary dicom)) dicom)
                  (size_t (count + 1)) false sent)
        as [(_ & ->) | (_ & r & -> & [-> | [e ->]])].
      + apply IH.
      + destruct (IH ChunkedBuffer.empty 0
                     (sent ++ [{| post_server := server; post_headers := hh;
                                  post_uri := UriEncode env "studies" qa;
                                  post_body :=
                                    fst (ChunkedBuffer.Flatten
                                           (ChunkedBuffer.AddChunk
                                              (ChunkedBuffer.AddChunk
                                                 (ChunkedBuffer.AddChunk
                                                    chunks (PartHeader boundary dicom))
                                                 dicom)
                                              (Close boundary)));
                                  post_instances := size_t (count + 1) |}])%list)
          as (posts & ->).
        eexists. rewrite <- app_assoc. reflexivity.
      + eexists. reflexivity. }
  destruct (LOOP instances ChunkedBuffer.empty 0 sent) as (posts & E).
  destruct (StowClient_instances env server hh qa boundary instances
                                 ChunkedBuffer.empty 0 sent)
    as [[[c1 n1]|e] w1]; cbn [snd] in E |- *; subst w1.
  - destruct (SendStowChunks_cases server hh qa boundary c1 n1 true (sent ++ posts)%list)
      as [(_ & ->) | (_ & r & -> & [-> | [e ->]])]; cbn [snd].
    + exists posts. reflexivity.
    + eexists. rewrite <- app_assoc. reflexivity.
    + eexists. rewrite <- app_assoc. reflexivity.
  - exists posts. reflexivity.
Qed.

(** X4.  [StowClient] never removes or changes a POST already made, and
    it makes no POST unless the request has exactly one URI group, is a
    POST itself, names a known server and parses.  A request with
    another number of groups throws [ErrorCode_BadRequest]; a request
    with one group and another method is answered as a method that is
    not allowed. *)
Theorem StowClient_guards :
  forall request sent,
    (exists posts, snd (StowClient env request sent) = (sent ++ posts)%list)
    /\ (snd (StowClient env request sent) <> sent ->
        groupsCount request = 1
        /\ method request = OrthancPluginHttpMethod_Post
        /\ (exists server, GetServer env (groups0 request) = Ok server)
        /\ (exists parsed,
              ParseStowRequest env []
                [("Accept", "application/dicom+json");
                 ("Content-Type",
                  "multipart/related; type=application/dicom; boundary="
                  ++ OrthancPluginGenerateUuid env);
                 ("Expect", EmptyString)]
                [] request
              = Ok parsed))
    /\ (groupsCount request <> 1 ->
        StowClient env request sent = (Throw ErrorCode_BadRequest, sent))
    /\ (groupsCount request = 1 ->
        method request <> OrthancPluginHttpMethod_Post ->
        StowClient env request sent
        = (Ok (OrthancPluginSendMethodNotAllowed "POST"), sent)).
Proof.
  intros request sent.
  assert (POST : is_Post (method request) = true
                 <-> method request = OrthancPluginHttpMethod_Post)
    by (destruct (method request); cbn; split; congruence).
  unfold StowClient.
  destruct (groupsCount request =? 1) eqn:G; cbn [negb].
  - apply Z.eqb_eq in G.
    destruct (is_Post (method request)) eqn:P; cbn [negb].
    + unfold bind, lift.
      change (assign (assign (assign [] "Accept" "application/dicom+json")
                             "Expect" EmptyString)
                     "Content-Type"
                     ("multipart/related; type=application/dicom; boundary="
                      ++ OrthancPluginGenerateUuid env))
        with [("Accept", "application/dicom+json");
              ("Content-Type",
               "multipart/related; type=application/dicom; boundary="
               ++ OrthancPluginGenerateUuid env);
              ("Expect", EmptyString)].
      destruct (GetServer env (groups0 request)) as [server|e].
      * destruct (ParseStowRequest env [] _ [] request) as [[[i h] q]|e] eqn:PR.
        -- split; [apply StowClient_send_extends|].
           split; [|split; [congruence|intros _ NP; exfalso; apply NP; apply POST; reflexivity]].
           intros _. split; [exact G|]. split; [apply POST; reflexivity|].
           split; [eexists; reflexivity|]. eexists. reflexivity.
        -- cbn [snd]. split; [exists []; rewrite app_nil_r; reflexivity|].
           split; [congruence|].
           split; [congruence|intros _ NP; exfalso; apply NP; apply POST; reflexivity].
      * cbn [snd]. split; [exists []; rewrite app_nil_r; reflexivity|].
        split; [congruence|].
        split; [congruence|intros _ NP; exfalso; apply NP; apply POST; reflexivity].
    + cbn [snd ret]. split; [exists []; rewrite app_nil_r; reflexivity|].
      split; [unfold ret; cbn; congruence|].
      split; [congruence|]. intros _ _. reflexivity.
  - apply Z.eqb_neq in G. unfold throw. cbn [snd].
    split; [exists []; rewrite app_nil_r; reflexivity|].
    split; [congruence|]. split; [reflexivity|congruence].
Qed.

(** X5.  Resolving the resources only appends to the list of instances,
    and resolving two lists of resources one after the other is
    resolving their concatenation: identifiers come out in the order of
    the request, and a resource named twice has its instances listed
    twice. *)
Theorem ParseStowRequest_resources_append :
  forall instances first second,
    (forall resolved,
        ParseStowRequest_resources env instances first = Ok resolved ->
        exists added, resolved = (instances ++ added)%list)
    /\ ParseStowRequest_resources env instances (first ++ second)
       = (resolved <-? ParseStowRequest_resources env instances first ;;
          ParseStowRequest_resources env resolved second)
    /\ (forall added,
          ParseStowRequest_resources env [] first = Ok added ->
          ParseStowRequest_resources env instances first = Ok (instances ++ added)%list).
Proof.
  assert (ONE : forall r instances,
             ParseStowRequest_resource env instances r
             = (added <-? ParseStowRequest_resource env [] r ;;
                Ok (instances ++ added)%list)).
  { intros r instances. unfold ParseStowRequest_resource.
    destruct (negb (Json.is_type r Json.stringValue)); [reflexivity|].
    destruct (String.eqb (Json.asString r) EmptyString); [reflexivity|].
    assert (ADD : forall entry target,
               AddInstance target entry
               = (added <-? AddInstance [] entry ;; Ok (target ++ added)%list)).
    { intros entry target. unfold AddInstance.
      destruct (_ || _)%bool; reflexivity. }
    assert (ADDS : forall entries target,
               AddInstances target entries
               = (added <-? AddInstances [] entries ;; Ok (target ++ added)%list)).
    { induction entries as [|e rest IHe]; intro target.
      - cbn. rewrite app_nil_r. reflexivity.
      - cbn [AddInstances]. rewrite (ADD e target).
        destruct (AddInstance [] e) as [one|err]; [|reflexivity].
        cbn [and_then app].
        rewrite (IHe (target ++ one)%list), (IHe one).
        destruct (AddInstances [] rest) as [more|err]; [|reflexivity].
        cbn [and_then]. rewrite app_assoc. reflexivity. }
    destruct (RestApiGet env ("/instances/" ++ Json.asString r)) as [tmp|];
      [apply ADD|].
    destruct (match LookupInstances env "/series/" (Json.asString r) with
              | Some tmp => Some tmp
              | None => _
              end) as [tmp|]; [|reflexivity].
    destruct (negb (Json.is_type tmp Json.arrayValue)); [reflexivity|apply ADDS]. }
  assert (ALL : forall resources instances,
             ParseStowRequest_resources env instances resources
             = (added <-? ParseStowRequest_resources env [] resources ;;
                Ok (instances ++ added)%list)).
  { induction resources as [|r rest IHr]; intro instances.
    - cbn. rewrite app_nil_r. reflexivity.
    - cbn [ParseStowRequest_resources]. rewrite (ONE r instances).
      destruct (ParseStowRequest_resource env [] r) as [one|err]; [|reflexivity].
      cbn [and_then app].
      rewrite (IHr (instances ++ one)%list), (IHr one).
      destruct (ParseStowRequest_resources env [] rest) as [more|err]; [|reflexivity].
      cbn [and_then]. rewrite app_assoc. reflexivity. }
  intros instances first second. split; [|split].
  - intros resolved H. rewrite ALL in H.
    destruct (ParseStowRequest_resources env [] first) as [added|err]; [|discriminate].
    injection H as <-. exists added. reflexivity.
  - apply ParseStowRequest_resources_app.
  - intros added H. rewrite ALL, H. reflexivity.
Qed.


End ClientFurther.

(* ================================================================= *)
(** * Further properties of the STOW-RS server *)

Section ServerFurther.

Import gdcm.
Import StowRs.

Variable env : Env.

Variables wadoBase expectedStudy : string.

(** The part is declared as DICOM, or not declared at all. *)
Definition acceptable (item : MultipartItem) : bool :=
  negb (negb (String.eqb (contentType_ item) EmptyString)
        && negb (String.eqb (contentType_ item) "application/dicom")).

Definition refused (c : StoreCall) : bool := negb (call_ok c).

Lemma StowCallback_item_calls locals item store :
  exists calls,
    snd (StowCallback_item env wadoBase expectedStudy locals item store)
    = (store ++ calls)%list
    /\ (List.length calls <= 1)%nat
    /\ Forall (fun c => call_uri c = "/instances" /\ call_data c = data_ item) calls
    /\ forall locals',
        fst (StowCallback_item env wadoBase expectedStudy locals item store)
        = Ok (Next locals') ->
        map call_data calls
        = map data_ (filter (Spec.kept env expectedStudy) [item])
        /\ List.length (failed locals')
           = (List.length (failed locals) + List.length (filter refused calls))%nat
        /\ (List.length (success locals') + List.length (filter refused calls))%nat
           = (List.length (success locals) + 1)%nat.
Proof.
  unfold StowCallback_item. cbn [filter]. unfold Spec.kept.
  destruct (negb (String.eqb (contentType_ item) EmptyString)
            && negb (String.eqb (contentType_ item) "application/dicom"))%bool.
  - exists []. cbn [snd fst ret]. rewrite app_nil_r.
    split; [reflexivity|]. split; [cbn; lia|]. split; [constructor|]. discriminate.
  - unfold bind, lift.
    destruct (ParseDicom env item) as [dicom|e].
    + destruct (negb (String.eqb expectedStudy EmptyString) && _)%bool.
      * exists []. cbn [snd fst ret]. rewrite app_nil_r.
        split; [reflexivity|]. split; [cbn; lia|]. split; [constructor|].
        intros locals' H. injection H as <-. unfold AddItem.
        cbn [negb map filter success failed List.length]. rewrite length_app.
        cbn [List.length]. repeat split; lia.
      * unfold post.
        exists [{| call_uri := "/instances"; call_data := data_ item;
                   call_ok := RestApiPost env store "/instances" (data_ item) |}].
        destruct (RestApiPost env store "/instances" (data_ item));
          cbn [snd fst ret]; (split; [reflexivity|]); (split; [cbn; lia|]);
          (split; [constructor; [cbn; auto|constructor]|]);
          intros locals' H; injection H as <-; unfold AddItem, refused;
          cbn [negb map filter success failed List.length call_ok call_data];
          rewrite length_app; cbn [List.length]; repeat split; lia.
    + exists []. cbn [snd fst]. rewrite app_nil_r.
      split; [reflexivity|]. split; [cbn; lia|]. split; [constructor|]. discriminate.
Qed.

(** X6.  Whatever its outcome, the loop of [StowCallback] only adds
    POSTs to /instances to the store, at most one per part.  When it
    goes through all the parts, it has posted exactly the parts that the
    study restriction lets through, once each and in order; the failed
    sequence grew by the number of POSTs the store refused, and the
    success sequence by the number of the other parts. *)
Theorem StowCallback_items_posts :
  forall items locals store,
    exists calls,
      snd (StowCallback_items env wadoBase expectedStudy locals items store)
      = (store ++ calls)%list
      /\ (List.length calls <= List.length items)%nat
      /\ Forall (fun c => call_uri c = "/instances") calls
      /\ forall locals',
          fst (StowCallback_items env wadoBase expectedStudy locals items store)
          = Ok (Next locals') ->
          map call_data calls
          = map data_ (filter (Spec.kept env expectedStudy) items)
          /\ List.length (failed locals')
             = (List.length (failed locals) + List.length (filter refused calls))%nat
          /\ (List.length (success locals') + List.length (filter refused calls))%nat
             = (List.length (success locals) + List.length items)%nat.
Proof.
  induction items as [|item rest IH]; intros locals store.
  - exists []. cbn. rewrite app_nil_r. split; [reflexivity|]. split; [lia|].
    split; [constructor|]. intros locals' H. injection H as <-. repeat split; lia.
  - cbn [StowCallback_items]. unfold bind.
    destruct (StowCallback_item_calls locals item store) as (c1 & W1 & L1 & U1 & R1).
    destruct (StowCallback_item env wadoBase expectedStudy locals item store)
      as [[[locals1|status]|e] store1]; cbn [fst snd] in W1, R1; subst store1.
    + destruct (IH locals1 (store ++ c1)%list) as (c2 & W2 & L2 & U2 & R2).
      exists (c1 ++ c2)%list. rewrite W2, app_assoc. split; [reflexivity|].
      split; [rewrite length_app; cbn [List.length]; lia|].
      split.
      { apply Forall_app. split; [|exact U2].
        eapply Forall_impl; [|exact U1]. intros c [H _]. exact H. }
      intros locals' H. destruct (R1 locals1 eq_refl) as (D1 & F1 & S1).
      destruct (R2 locals' H) as (D2 & F2 & S2).
      rewrite map_app, D1, D2, filter_app, length_app.
      change (item :: rest) with ([item] ++ rest)%list.
      rewrite (filter_app _ [item] rest), map_app. cbn [List.length app].
      repeat split; lia.
    + exists c1. cbn [snd fst ret]. split; [reflexivity|].
      split; [cbn [List.length]; lia|].
      split; [eapply Forall_impl; [|exact U1]; intros c [H _]; exact H|].
      intros locals' H. discriminate.
    + exists c1. cbn [snd fst]. split; [reflexivity|].
      split; [cbn [List.length]; lia|].
      split; [eapply Forall_impl; [|exact U1]; intros c [H _]; exact H|].
      intros locals' H. discriminate.
Qed.

Lemma StowCallback_items_app before :
  forall after locals store,
    StowCallback_items env wadoBase expectedStudy locals (before ++ after) store
    = match StowCallback_items env wadoBase expectedStudy locals before store with
      | (Ok (Next locals1), store1) =>
          StowCallback_items env wadoBase expectedStudy locals1 after store1
      | other => other
      end.
Proof.
  induction before as [|item rest IH]; intros after locals store; [reflexivity|].
  cbn [app StowCallback_items]. unfold bind.
  destruct (StowCallback_item env wadoBase expectedStudy locals item store)
    as [[[locals1|status]|e] store1]; [apply IH|reflexivity|reflexivity].
Qed.

(** X7.  The loop of [StowCallback] stops at the first part that is
    declared as something else than DICOM, with the status 415, and at
    the first part that does not parse as DICOM, with the exception of
    the parser; the parts before it stay posted to the store.  The loop
    returns no other status than 415. *)
Theorem StowCallback_items_stops :
  forall before bad after locals store locals1 store1,
    StowCallback_items env wadoBase expectedStudy locals before store
    = (Ok (Next locals1), store1) ->
    (acceptable bad = false ->
     StowCallback_items env wadoBase expectedStudy locals (before ++ bad :: after) store
     = (Ok (Return 415), store1))
    /\ (forall e,
          acceptable bad = true ->
          ParseDicom env bad = Throw e ->
          StowCallback_items env wadoBase expectedStudy locals (before ++ bad :: after) store
          = (Throw e, store1))
    /\ (forall items status store',
          StowCallback_items env wadoBase expectedStudy locals items store
          = (Ok (Return status), store') ->
          status = 415).
Proof.
  intros before bad after locals store locals1 store1 H.
  split; [|split].
  - intro A. rewrite StowCallback_items_app, H. cbn [StowCallback_items].
    unfold bind, StowCallback_item. unfold acceptable in A.
    apply negb_false_iff in A. rewrite A. reflexivity.
  - intros e A P. rewrite StowCallback_items_app, H. cbn [StowCallback_items].
    unfold bind at 1, StowCallback_item. unfold acceptable in A.
    apply negb_true_iff in A. rewrite A. unfold bind, lift. rewrite P. reflexivity.
  - clear. intros items. revert locals store.
    induction items as [|item rest IH]; intros locals store status store' H.
    + discriminate.
    + cbn [StowCallback_items] in H. unfold bind in H.
      destruct (StowCallback_item env wadoBase expectedStudy locals item store)
        as [[[l1|s]|e] s1] eqn:T; try discriminate.
      * exact (IH _ _ _ _ H).
      * injection H as <- <-. unfold StowCallback_item in T.
        destruct (negb (String.eqb (contentType_ item) EmptyString) && _)%bool.
        -- injection T as <- _. reflexivity.
        -- unfold bind, lift in T.
           destruct (ParseDicom env item); [|discriminate].
           destruct (negb (String.eqb expectedStudy EmptyString) && _)%bool;
             [discriminate|].
           unfold post in T. destruct (RestApiPost env store _ _); discriminate.
Qed.

(** X8.  The records the loop of [StowCallback] adds to the success
    sequence carry no failure reason, and either the warning B006 or a
    retrieve URL, never both; the records it adds to the failed sequence
    carry the failure reason 0110 and neither a warning nor a retrieve
    URL. *)
Theorem StowCallback_items_record_shapes :
  forall items locals store locals' store',
    StowCallback_items env wadoBase expectedStudy locals items store
    = (Ok (Next locals'), store') ->
    exists stored rejected,
      success locals' = (success locals ++ stored)%list
      /\ failed locals' = (failed locals ++ rejected)%list
      /\ Forall
           (fun record =>
              GetByteValue record DICOM_TAG_FAILURE_REASON = None
              /\ ((GetByteValue record DICOM_TAG_WARNING_REASON = Some "B006"
                   /\ GetByteValue record DICOM_TAG_RETRIEVE_URL = None)
                  \/ (GetByteValue record DICOM_TAG_WARNING_REASON = None
                      /\ exists url,
                          GetByteValue record DICOM_TAG_RETRIEVE_URL = Some url)))
           stored
      /\ Forall
           (fun record =>
              GetByteValue record DICOM_TAG_FAILURE_REASON = Some "0110"
              /\ GetByteValue record DICOM_TAG_WARNING_REASON = None
              /\ GetByteValue record DICOM_TAG_RETRIEVE_URL = None)
           rejected.
Proof.
  induction items as [|item rest IH]; intros locals store locals' store' H.
  - cbn in H. injection H as <- <-. exists [], []. rewrite !app_nil_r.
    repeat split; constructor.
  - cbn [StowCallback_items] in H. unfold bind in H.
    destruct (StowCallback_item env wadoBase expectedStudy locals item store)
      as [[[locals1|status]|e] store1] eqn:T; try discriminate.
    apply StowCallback_item_next in T. destruct T as (dicom & _ & R).
    destruct (IH _ _ _ _ H) as (st & rj & S & F & FS & FR).
    destruct R as [|result' url|result']; cbn [success failed] in S, F.
    + eexists (_ :: st), rj. rewrite S, F, <- app_assoc.
      split; [reflexivity|]. split; [reflexivity|]. split; [|exact FR].
      constructor; [|exact FS]. cbn. split; [reflexivity|]. left. auto.
    + eexists (_ :: st), rj. rewrite S, F, <- app_assoc.
      split; [reflexivity|]. split; [reflexivity|]. split; [|exact FR].
      constructor; [|exact FS]. cbn. split; [reflexivity|]. right.
      split; [reflexivity|]. eexists. reflexivity.
    + eexists st, (_ :: rj). rewrite S, F, <- app_assoc.
      split; [reflexivity|]. split; [reflexivity|]. split; [exact FS|].
      constructor; [|exact FR]. cbn. auto.
Qed.

(** X9.  [StowCallback] leaves the store alone unless the request is a
    POST whose Content-Type passes the checks and whose body the
    multipart parser accepts; a request with another method is answered
    as a method that is not allowed.  When it answers a data set, the
    data set is the retrieve URL of the batch, if any, followed by the
    failed sequence and then by the success sequence, both present even
    when empty, and the two sequences together hold one record per part
    of the body. *)
Theorem StowCallback_guards :
  forall request store,
    (snd (StowCallback env request store) <> store ->
     method request = OrthancPluginHttpMethod_Post
     /\ exists boundary items,
         CheckContentType env request = inr boundary
         /\ ParseMultipartBody env (body request) boundary = Ok items)
    /\ (method request <> OrthancPluginHttpMethod_Post ->
        StowCallback env request store
        = (Ok (OrthancPluginSendMethodNotAllowed "POST"), store))
    /\ (forall base answer isXml,
          fst (StowCallback env request store) = Ok (AnswerDicom base answer isXml) ->
          base = GetBaseUrl env request
          /\ isXml = IsXmlExpected env request
          /\ exists boundary items rejected stored,
              CheckContentType env request = inr boundary
              /\ ParseMultipartBody env (body request) boundary = Ok items
              /\ answer
                 = (Spec.batch_url env (GetBaseUrl env request)
                      (if groupsCount request =? 1 then groups0 request else EmptyString)
                      items
                    ++ [SequenceValue DICOM_TAG_FAILED_SOP_SEQUENCE SQ rejected;
                        SequenceValue DICOM_TAG_REFERENCED_SOP_SEQUENCE SQ stored])%list
              /\ (List.length rejected + List.length stored)%nat = List.length items).
Proof.
  intros request store.
  assert (POST : forall m, is_Post m = true <-> m = OrthancPluginHttpMethod_Post)
    by (intros []; cbn; split; congruence).
  unfold StowCallback.
  destruct (is_Post (method request)) eqn:P; cbn [negb].
  - apply POST in P.
    destruct (CheckContentType env request) as [status|boundary] eqn:C.
    + cbn [snd fst ret]. split; [congruence|]. split; [congruence|]. discriminate.
    + unfold bind, lift.
      destruct (ParseMultipartBody env (body request) boundary) as [items|e] eqn:B.
      * destruct (StowCallback_items env (GetBaseUrl env request) _ initial items store)
          as [[[locals'|status]|e] store'] eqn:L.
        -- cbn [snd fst ret]. split; [intros _; split; [exact P|eauto]|].
           split; [congruence|].
           intros base answer isXml H. injection H as <- <- <-.
           split; [reflexivity|]. split; [reflexivity|].
           exists boundary, items, (failed locals'), (success locals').
           split; [reflexivity|]. split; [exact B|].
           pose proof (StowCallback_items_result_first _ _ _ _ initial _ _ _
                         eq_refl eq_refl L) as R.
           destruct (StowCallback_items_records _ _ _ _ _ _ _ _ L)
             as (records & S & F & ALL).
           split.
           ++ rewrite R. unfold Spec.batch_url.
              destruct (List.find _ items) as [item|]; [|reflexivity].
              destruct (ParseDicom env item); reflexivity.
           ++ rewrite S, F. cbn [success failed initial app].
              rewrite !length_map.
              pose proof (filter_split_length fst records) as SPLIT.
              apply Forall2_length in ALL. unfold Item, DataSet in *. lia.
        -- cbn [snd fst ret]. split; [intros _; split; [exact P|eauto]|].
           split; [congruence|]. discriminate.
        -- cbn [snd fst]. split; [intros _; split; [exact P|eauto]|].
           split; [congruence|]. discriminate.
      * cbn [snd fst]. split; [congruence|]. split; [congruence|]. discriminate.
  - cbn [snd fst ret]. split; [congruence|]. split; [reflexivity|]. discriminate.
Qed.


End ServerFurther.

(* ================================================================= *)
(** * Properties of the GET and WADO-RS retrieve clients *)

Section RetrieveClient.

Import DicomWebRetrieve.

Variable env : Env.

(** The headers of an answer that [GetFromServer] forwards. *)
Definition forwardable (header : string * string) : bool :=
  negb (String.eqb (Toolbox.ToLowerCase (fst header)) "content-type")
  && negb (String.eqb (Toolbox.ToLowerCase (fst header)) "transfer-encoding").

Definition is_content_type (header : string * string) : bool :=
  String.eqb (Toolbox.ToLowerCase (fst header)) "content-type".

Lemma last_cons {A : Type} (x : A) (l : list A) (d : A) :
  List.last (x :: l) d = List.last l x.
Proof.
  revert x d. induction l as [|y l IH]; intros x d; [reflexivity|].
  change (List.last (x :: y :: l) d) with (List.last (y :: l) d).
  rewrite (IH y d), (IH y x). reflexivity.
Qed.

Lemma GetFromServer_headers_filter :
  forall answerHeaders contentType forwarded,
    GetFromServer_headers answerHeaders contentType forwarded
    = (List.last (map snd (filter is_content_type answerHeaders)) contentType,
       (forwarded ++ filter forwardable answerHeaders)%list).
Proof.
  induction answerHeaders as [|[first second] rest IH]; intros contentType forwarded.
  - cbn. rewrite app_nil_r. reflexivity.
  - cbn [GetFromServer_headers filter].
    change (is_content_type (first, second))
      with (String.eqb (Toolbox.ToLowerCase first) "content-type").
    change (forwardable (first, second))
      with (negb (String.eqb (Toolbox.ToLowerCase first) "content-type")
            && negb (String.eqb (Toolbox.ToLowerCase first) "transfer-encoding")).
    destruct (String.eqb (Toolbox.ToLowerCase first) "content-type").
    + rewrite IH. cbn [negb andb map snd]. rewrite last_cons. reflexivity.
    + cbn [negb andb].
      destruct (String.eqb (Toolbox.ToLowerCase first) "transfer-encoding");
        rewrite IH; cbn [negb]; [reflexivity|].
      rewrite <- app_assoc. reflexivity.
Qed.

(** X10.  When [GetFromServer] answers a buffer, it has made exactly
    one GET, to the server and with the headers and the URI of the
    request, and the remote server has answered it.  The body is given
    back as it came; the headers given back are those of the answer, in
    order and with their spelling, except Content-Type and
    Transfer-Encoding in any case of letters; the MIME type is the value
    of the last Content-Type header of the answer, or
    application/octet-stream when there is none. *)
Theorem GetFromServer_relays :
  forall request w forwarded answer mimeType w',
    GetFromServer env request w
    = (Ok (OrthancPluginAnswerBuffer forwarded answer mimeType), w') ->
    exists server document uri getArguments httpHeaders answerHeaders,
      GetServer env (groups0 request) = Ok server
      /\ Reader_parse env (body request) = Some document
      /\ GetStringValue document "Uri" = Ok (true, uri)
      /\ ParseAssociativeArray env [] document "Arguments" = Ok getArguments
      /\ ParseAssociativeArray env [] document "HttpHeaders" = Ok httpHeaders
      /\ CallServer env (gets w) server httpHeaders (UriEncode env uri getArguments)
         = CallAnswers answer answerHeaders
      /\ w' = {| gets := (gets w
                          ++ [{| get_server := server;
                                 get_headers := httpHeaders;
                                 get_uri := UriEncode env uri getArguments |}])%list;
                 posts := posts w |}
      /\ forwarded = filter forwardable answerHeaders
      /\ mimeType
         = List.last (map snd (filter is_content_type answerHeaders))
                     "application/octet-stream".
Proof.
  intros request w forwarded answer mimeType w'. unfold GetFromServer.
  destruct (negb (is_Post (method request))); [discriminate|].
  unfold bind, lift, throw.
  destruct (GetServer env (groups0 request)) as [server|e]; [|discriminate].
  destruct (Reader_parse env (body request)) as [document|]; [|discriminate].
  destruct (negb (Json.is_type document Json.objectValue)); [discriminate|].
  destruct (GetStringValue document "Uri") as [[found uri]|e] eqn:GS; [|discriminate].
  destruct found; cbn [negb]; [|discriminate].
  destruct (ParseAssociativeArray env [] document "Arguments") as [getArguments|e]
    eqn:PA; [|discriminate].
  destruct (ParseAssociativeArray env [] document "HttpHeaders") as [httpHeaders|e]
    eqn:PH; [|discriminate].
  unfold call.
  destruct (CallServer env (gets w) server httpHeaders
                       (UriEncode env uri getArguments))
    as [e|answerBody answerHeaders] eqn:C; [discriminate|].
  rewrite GetFromServer_headers_filter. cbn [app]. unfold ret.
  intro H. injection H as <- <- <- <-.
  exists server, document, uri, getArguments, httpHeaders, answerHeaders.
  repeat split; auto.
Qed.

(** X11.  [GetFromServer] makes no GET unless the request is a POST,
    names a known server, and has a JSON object as its body with a
    string member Uri and well-formed Arguments and HttpHeaders; it
    never touches the store.  A body that is not JSON, is not an object,
    or has no string member Uri throws [ErrorCode_BadFileFormat], and
    another method than POST is answered as not allowed. *)
Theorem GetFromServer_guards :
  forall request w,
    posts (snd (GetFromServer env request w)) = posts w
    /\ (gets (snd (GetFromServer env request w)) <> gets w ->
        method request = OrthancPluginHttpMethod_Post
        /\ exists server document uri getArguments httpHeaders,
            GetServer env (groups0 request) = Ok server
            /\ Reader_parse env (body request) = Some document
            /\ GetStringValue document "Uri" = Ok (true, uri)
            /\ ParseAssociativeArray env [] document "Arguments" = Ok getArguments
            /\ ParseAssociativeArray env [] document "HttpHeaders" = Ok httpHeaders)
    /\ (method request <> OrthancPluginHttpMethod_Post ->
        GetFromServer env request w = (Ok (OrthancPluginSendMethodNotAllowed "POST"), w))
    /\ (forall server,
          method request = OrthancPluginHttpMethod_Post ->
          GetServer env (groups0 request) = Ok server ->
          (Reader_parse env (body request) = None
           \/ exists document,
               Reader_parse env (body request) = Some document
               /\ (Json.is_type document Json.objectValue = false
                   \/ Json.isMember document "Uri" = false
                   \/ Json.is_type (Json.get document "Uri") Json.stringValue = false)) ->
          GetFromServer env request w = (Throw ErrorCode_BadFileFormat, w)).
Proof.
  intros request w.
  assert (POST : forall m, is_Post m = true <-> m = OrthancPluginHttpMethod_Post)
    by (intros []; cbn; split; congruence).
  unfold GetFromServer.
  destruct (is_Post (method request)) eqn:P; cbn [negb].
  - apply POST in P. unfold bind, lift, throw.
    destruct (GetServer env (groups0 request)) as [server|e].
    + destruct (Reader_parse env (body request)) as [document|] eqn:RP.
      * destruct (Json.is_type document Json.objectValue) eqn:T; cbn [negb].
        -- destruct (GetStringValue document "Uri") as [[found uri]|e] eqn:GS.
           ++ destruct found; cbn [negb].
              ** destruct (ParseAssociativeArray env [] document "Arguments")
                   as [getArguments|e] eqn:PA.
                 --- destruct (ParseAssociativeArray env [] document "HttpHeaders")
                       as [httpHeaders|e] eqn:PH.
                     +++ unfold call.
                         split.
                         { destruct (CallServer env (gets w) server httpHeaders _);
                             [reflexivity|].
                           destruct (GetFromServer_headers _ _ _). reflexivity. }
                         split.
                         { intros _. split; [exact P|].
                           exists server, document, uri, getArguments, httpHeaders.
                           auto. }
                         split; [congruence|].
                         intros server' _ E [N | (d & D & BAD)]; [discriminate|].
                         injection D as <-. exfalso.
                         unfold GetStringValue in GS. rewrite T in GS. cbn [negb] in GS.
                         destruct BAD as [B | [B | B]]; [congruence| |];
                           rewrite B in GS; cbn in GS; try discriminate.
                         destruct (Json.isMember document "Uri"); cbn in GS;
                           discriminate.
                     +++ cbn [snd]. split; [reflexivity|]. split; [congruence|].
                         split; [congruence|].
                         intros server' _ E [N | (d & D & BAD)]; [discriminate|].
                         injection D as <-. exfalso.
                         unfold GetStringValue in GS. rewrite T in GS. cbn [negb] in GS.
                         destruct BAD as [B | [B | B]]; [congruence| |];
                           rewrite B in GS; cbn in GS; try discriminate.
                         destruct (Json.isMember document "Uri"); cbn in GS;
                           discriminate.
                 --- cbn [snd]. split; [reflexivity|]. split; [congruence|].
                     split; [congruence|].
                     intros server' _ E [N | (d & D & BAD)]; [discriminate|].
                     injection D as <-. exfalso.
                     unfold GetStringValue in GS. rewrite T in GS. cbn [negb] in GS.
                     destruct BAD as [B | [B | B]]; [congruence| |];
                       rewrite B in GS; cbn in GS; try discriminate.
                     destruct (Json.isMember document "Uri"); cbn in GS;
                       discriminate.
              ** cbn [snd]. split; [reflexivity|]. split; [congruence|].
                 split; [congruence|]. intros; reflexivity.
           ++ cbn [snd]. split; [reflexivity|]. split; [congruence|].
              split; [congruence|]. intros server' _ _ _.
              unfold GetStringValue in GS. rewrite T in GS. cbn [negb] in GS.
              destruct (negb (Json.isMember document "Uri")); [discriminate|].
              destruct (negb (Json.is_type _ _)); [|discriminate].
              injection GS as <-. reflexivity.
        -- cbn [snd]. split; [reflexivity|]. split; [congruence|].
           split; [congruence|]. intros; reflexivity.
      * cbn [snd]. split; [reflexivity|]. split; [congruence|].
        split; [congruence|]. intros; reflexivity.
    + cbn [snd]. split; [reflexivity|]. split; [congruence|].
      split; [congruence|]. intros server' _ E. discriminate.
  - cbn [snd ret]. split; [reflexivity|]. split; [congruence|].
    split; [reflexivity|].
    intros server PM. rewrite PM in P. discriminate.
Qed.

(** *** The quotes around the type parameter *)

Lemma length_snoc s c : String.length (s ++ String c EmptyString) = S (String.length s).
Proof. induction s as [|a s IH]; cbn; [reflexivity|rewrite IH; reflexivity]. Qed.

Lemma get_snoc s c : String.get (String.length s) (s ++ String c EmptyString) = Some c.
Proof. induction s as [|a s IH]; cbn; [reflexivity|exact IH]. Qed.

Lemma substring_snoc s t : String.substring 0 (String.length s) (s ++ t) = s.
Proof.
  induction s as [|a s IH]; cbn.
  - destruct t; reflexivity.
  - rewrite IH. reflexivity.
Qed.

(** X12.  [Unquote] takes exactly one layer of quotes off a string that
    starts and ends with a quote, whatever is between them, and leaves
    any other string as it is: one that does not start with a quote, one
    that does not end with a quote, the empty string and the string made
    of a single quote. *)
Theorem Unquote_one_layer :
  (forall s, Unquote (String quote (s ++ String quote EmptyString)) = s)
  /\ (forall c r, c <> quote -> Unquote (String c r) = String c r)
  /\ (forall s c, c <> quote ->
             Unquote (s ++ String c EmptyString) = s ++ String c EmptyString)
  /\ Unquote EmptyString = EmptyString
  /\ Unquote (String quote EmptyString) = String quote EmptyString.
Proof.
  split; [|split; [|split; [|split; reflexivity]]].
  - intro s. unfold Unquote.
    cbn [String.length String.get]. rewrite length_snoc.
    cbn [Nat.leb Nat.sub]. rewrite Nat.sub_0_r, get_snoc.
    rewrite Ascii.eqb_refl. cbn [andb String.substring].
    apply substring_snoc.
  - intros c r NE. unfold Unquote. cbn [String.get].
    apply Ascii.eqb_neq in NE. rewrite NE, andb_false_r. reflexivity.
  - intros s c NE. unfold Unquote. rewrite length_snoc.
    cbn [Nat.sub]. rewrite Nat.sub_0_r, get_snoc.
    apply Ascii.eqb_neq in NE. rewrite NE, andb_false_r. reflexivity.
Qed.

(** *** One resource of a retrieve request *)

Lemma RetrieveFromServerInternal_parts_cons part rest instances w :
  RetrieveFromServerInternal_parts env (part :: rest) instances w
  = if negb (String.eqb (StowRs.contentType_ part) "application/dicom")
    then (Throw ErrorCode_NetworkProtocol, w)
    else
      match ToJson env (RestApiPost env (posts w) "/instances" (StowRs.data_ part)) with
      | Throw e =>
          (Throw e,
           {| gets := gets w;
              posts := (posts w ++ [{| store_uri := "/instances";
                                       store_data := StowRs.data_ part |}])%list |})
      | Ok result =>
          if negb (Json.is_type result Json.objectValue)
             || negb (Json.isMember result "ID")
             || negb (Json.is_type (Json.get result "ID") Json.stringValue)
          then
            (Throw ErrorCode_InternalError,
             {| gets := gets w;
                posts := (posts w ++ [{| store_uri := "/instances";
                                         store_data := StowRs.data_ part |}])%list |})
          else
            RetrieveFromServerInternal_parts env rest
              (insert (Json.asString (Json.get result "ID")) instances)
              {| gets := gets w;
                 posts := (posts w ++ [{| store_uri := "/instances";
                                          store_data := StowRs.data_ part |}])%list |}
      end.
Proof.
  cbn [RetrieveFromServerInternal_parts].
  destruct (negb (String.eqb (StowRs.contentType_ part) "application/dicom"));
    [reflexivity|].
  unfold bind, store, lift, throw.
  destruct (ToJson env _) as [result|e]; [|reflexivity].
  destruct (_ || _)%bool; reflexivity.
Qed.

Lemma RetrieveFromServerInternal_parts_world :
  forall parts instances w,
    exists k,
      (k <= List.length parts)%nat
      /\ gets (snd (RetrieveFromServerInternal_parts env parts instances w)) = gets w
      /\ posts (snd (RetrieveFromServerInternal_parts env parts instances w))
         = (posts w
            ++ map (fun part => {| store_uri := "/instances";
                                   store_data := StowRs.data_ part |})
                   (firstn k parts))%list
      /\ Forall (fun part => StowRs.contentType_ part = "application/dicom")
                (firstn k parts)
      /\ (forall result,
            fst (RetrieveFromServerInternal_parts env parts instances w) = Ok result ->
            k = List.length parts).
Proof.
  induction parts as [|part rest IH]; intros instances w.
  - exists 0%nat. cbn. rewrite app_nil_r. repeat split; auto.
  - rewrite RetrieveFromServerInternal_parts_cons.
    destruct (String.eqb (StowRs.contentType_ part) "application/dicom") eqn:CT;
      cbn [negb].
    + apply String.eqb_eq in CT.
      destruct (ToJson env (RestApiPost env (posts w) "/instances" (StowRs.data_ part)))
        as [result|e].
      * destruct (negb (Json.is_type result Json.objectValue)
                  || negb (Json.isMember result "ID")
                  || negb (Json.is_type (Json.get result "ID") Json.stringValue))%bool.
        -- exists 1%nat. cbn. split; [lia|]. split; [reflexivity|].
           split; [reflexivity|]. split; [constructor; [assumption|constructor]|].
           discriminate.
        -- destruct (IH (insert (Json.asString (Json.get result "ID")) instances)
                        {| gets := gets w;
                           posts := (posts w
                                     ++ [{| store_uri := "/instances";
                                            store_data := StowRs.data_ part |}])%list |})
             as (k & K & G & P & F & R).
           exists (S k). cbn [List.length firstn map].
           split; [lia|]. split; [exact G|].
           split; [rewrite P; cbn [posts]; rewrite <- app_assoc; reflexivity|].
           split; [constructor; assumption|].
           intros r H. rewrite (R r H). reflexivity.
      * exists 1%nat. cbn. split; [lia|]. split; [reflexivity|].
        split; [reflexivity|]. split; [constructor; [assumption|constructor]|].
        discriminate.
    + exists 0%nat. cbn. rewrite app_nil_r. split; [lia|]. split; [reflexivity|].
      split; [reflexivity|]. split; [constructor|]. discriminate.
Qed.

Lemma RetrieveFromServerInternal_parts_app before :
  forall after instances w,
    RetrieveFromServerInternal_parts env (before ++ after) instances w
    = match RetrieveFromServerInternal_parts env before instances w with
      | (Ok instances1, w1) => RetrieveFromServerInternal_parts env after instances1 w1
      | other => other
      end.
Proof.
  induction before as [|part rest IH]; intros after instances w; [reflexivity|].
  cbn [app]. rewrite !RetrieveFromServerInternal_parts_cons.
  destruct (negb (String.eqb (StowRs.contentType_ part) "application/dicom"));
    [reflexivity|].
  destruct (ToJson env _) as [result|e]; [|reflexivity].
  destruct (_ || _)%bool; [reflexivity|apply IH].
Qed.

(** X13.  The loop of [RetrieveFromServerInternal] over the parts of an
    answer stops with [ErrorCode_NetworkProtocol] at the first part that
    is not declared as application/dicom (a part that declares nothing
    included), and with [ErrorCode_InternalError] at the first part for
    which the store answers something else than an object with a string
    member ID; the parts before it stay stored, and the part with the
    unusable answer has been posted too. *)
Theorem RetrieveFromServerInternal_parts_stop :
  forall before bad after instances w instances1 w1,
    RetrieveFromServerInternal_parts env before instances w = (Ok instances1, w1) ->
    (StowRs.contentType_ bad <> "application/dicom" ->
     RetrieveFromServerInternal_parts env (before ++ bad :: after) instances w
     = (Throw ErrorCode_NetworkProtocol, w1))
    /\ (forall answer,
          StowRs.contentType_ bad = "application/dicom" ->
          ToJson env (RestApiPost env (posts w1) "/instances" (StowRs.data_ bad))
          = Ok answer ->
          (Json.is_type answer Json.objectValue = false
           \/ Json.isMember answer "ID" = false
           \/ Json.is_type (Json.get answer "ID") Json.stringValue = false) ->
          RetrieveFromServerInternal_parts env (before ++ bad :: after) instances w
          = (Throw ErrorCode_InternalError,
             {| gets := gets w1;
                posts := (posts w1
                          ++ [{| store_uri := "/instances";
                                 store_data := StowRs.data_ bad |}])%list |})).
Proof.
  intros before bad after instances w instances1 w1 H. split.
  - intro NE. rewrite RetrieveFromServerInternal_parts_app, H.
    rewrite RetrieveFromServerInternal_parts_cons.
    apply String.eqb_neq in NE. rewrite NE. reflexivity.
  - intros answer CT J BAD. rewrite RetrieveFromServerInternal_parts_app, H.
    rewrite RetrieveFromServerInternal_parts_cons.
    rewrite CT, String.eqb_refl. cbn [negb]. rewrite J.
    destruct BAD as [-> | [-> | ->]]; cbn [negb orb]; rewrite ?orb_true_r; reflexivity.
Qed.


Lemma GetStringValue_throws json key e :
  GetStringValue json key = Throw e -> e = ErrorCode_BadFileFormat.
Proof.
  unfold GetStringValue.
  destruct (negb (Json.is_type json Json.objectValue)); [congruence|].
  destruct (negb (Json.isMember json key)); [discriminate|].
  destruct (negb (Json.is_type (Json.get json key) Json.stringValue));
    [congruence|discriminate].
Qed.

(** The resource names a study and, if it names an instance, a series
    too. *)
Definition well_formed (resource : Json.Value) (study series instance : string)
  : Prop :=
  GetStringValue resource "Study" = Ok (true, study)
  /\ study <> EmptyString
  /\ (exists b, GetStringValue resource "Series" = Ok (b, series))
  /\ (exists b, GetStringValue resource "Instance" = Ok (b, instance))
  /\ (series = EmptyString -> instance = EmptyString).

(** The headers of an answer announce multipart/related with the type
    application/dicom and the given boundary, which is not empty. *)
Definition validated (answerHeaders : StringMap) (boundary : string) : Prop :=
  exists contentType0 parameters,
    FindContentType env answerHeaders = contentType0 :: parameters
    /\ StripSpaces env (Toolbox.ToLowerCase contentType0) = "multipart/related"
    /\ ContentTypeParameters env parameters EmptyString EmptyString
       = ("application/dicom", boundary)
    /\ boundary <> EmptyString.

Definition asked (w : World) (server : string) (httpHeaders getArguments : StringMap)
           (study series instance : string) : World :=
  {| gets := (gets w
              ++ [{| get_server := server;
                     get_headers := httpHeaders;
                     get_uri := UriEncode env (RetrievePath study series instance)
                                          getArguments |}])%list;
     posts := posts w |}.

Lemma RetrieveFromServerInternal_cases instances server hh ga resource w :
  RetrieveFromServerInternal env instances server hh ga resource w
  = (Throw ErrorCode_BadFileFormat, w)
  \/ exists study series instance,
      well_formed resource study series instance
      /\ ((exists e,
              CallServer env (gets w) server hh
                         (UriEncode env (RetrievePath study series instance) ga)
              = CallThrows e
              /\ RetrieveFromServerInternal env instances server hh ga resource w
                 = (Throw e, asked w server hh ga study series instance))
          \/ (exists answerBody answerHeaders,
                CallServer env (gets w) server hh
                           (UriEncode env (RetrievePath study series instance) ga)
                = CallAnswers answerBody answerHeaders
                /\ (RetrieveFromServerInternal env instances server hh ga resource w
                    = (Throw ErrorCode_NetworkProtocol,
                       asked w server hh ga study series instance)
                    \/ exists boundary,
                        validated answerHeaders boundary
                        /\ RetrieveFromServerInternal env instances server hh ga resource w
                           = match ParseMultipartBody env answerBody boundary with
                             | Ok parts =>
                                 RetrieveFromServerInternal_parts env parts instances
                                   (asked w server hh ga study series instance)
                             | Throw e =>
                                 (Throw e, asked w server hh ga study series instance)
                             end))).
Proof.
  remember (RetrieveFromServerInternal env instances server hh ga resource w)
    as out eqn:E.
  unfold RetrieveFromServerInternal, bind, lift, throw, call in E.
  destruct (negb (Json.is_type resource Json.objectValue)); [left; exact E|].
  destruct (GetStringValue resource "Study") as [[found study]|e] eqn:GS;
    cbv beta iota in E;
    [|left; rewrite (GetStringValue_throws _ _ _ GS) in E; exact E].
  destruct found; cbn [negb orb] in E; [|left; exact E].
  destruct (String.eqb study EmptyString) eqn:SE; [left; exact E|].
  apply String.eqb_neq in SE.
  destruct (GetStringValue resource "Series") as [[b1 series]|e] eqn:GSe;
    cbv beta iota in E;
    [|left; rewrite (GetStringValue_throws _ _ _ GSe) in E; exact E].
  destruct (GetStringValue resource "Instance") as [[b2 instance]|e] eqn:GI;
    cbv beta iota in E;
    [|left; rewrite (GetStringValue_throws _ _ _ GI) in E; exact E].
  destruct (String.eqb series EmptyString && negb (String.eqb instance EmptyString))%bool
    eqn:SI; [left; exact E|].
  right. exists study, series, instance. split.
  { unfold well_formed. split; [exact GS|]. split; [exact SE|].
    split; [eexists; exact GSe|]. split; [eexists; exact GI|].
    intro H. subst series. cbn in SI. apply negb_false_iff in SI.
    apply String.eqb_eq in SI. exact SI. }
  fold (asked w server hh ga study series instance) in E.
  destruct (CallServer env (gets w) server hh _) as [e|answerBody answerHeaders];
    cbv beta iota in E.
  { left. exists e. split; [reflexivity|exact E]. }
  right. exists answerBody, answerHeaders. split; [reflexivity|].
  destruct (FindContentType env answerHeaders) as [|contentType0 parameters] eqn:F;
    [left; exact E|].
  destruct (String.eqb (StripSpaces env (Toolbox.ToLowerCase contentType0))
                       "multipart/related") eqn:MR; cbn [negb] in E; [|left; exact E].
  destruct (ContentTypeParameters env parameters EmptyString EmptyString)
    as [type boundary] eqn:CP.
  destruct (String.eqb type "application/dicom") eqn:T; cbn [negb] in E;
    [|left; exact E].
  destruct (String.eqb boundary EmptyString) eqn:B; [left; exact E|].
  right. exists boundary. split.
  { exists contentType0, parameters. apply String.eqb_eq in MR, T.
    apply String.eqb_neq in B. subst type. auto. }
  rewrite E. destruct (ParseMultipartBody env answerBody boundary); reflexivity.
Qed.

(** X14.  [RetrieveFromServerInternal] throws
    [ErrorCode_BadFileFormat], without asking the remote server and
    without touching the store, for a resource that is not an object,
    has no Study or an empty one, has a Study, Series or Instance that
    is not a string, or names an Instance without a Series. *)
Theorem RetrieveFromServerInternal_refuses :
  forall instances server hh ga resource w,
    (Json.is_type resource Json.objectValue = false
     \/ Json.isMember resource "Study" = false
     \/ Json.is_type (Json.get resource "Study") Json.stringValue = false
     \/ Json.get resource "Study" = Json.Str EmptyString
     \/ (Json.isMember resource "Series" = true
         /\ Json.is_type (Json.get resource "Series") Json.stringValue = false)
     \/ (Json.isMember resource "Instance" = true
         /\ Json.is_type (Json.get resource "Instance") Json.stringValue = false)
     \/ ((Json.isMember resource "Series" = false
          \/ Json.get resource "Series" = Json.Str EmptyString)
         /\ exists instance,
             Json.get resource "Instance" = Json.Str instance
             /\ instance <> EmptyString)) ->
    RetrieveFromServerInternal env instances server hh ga resource w
    = (Throw ErrorCode_BadFileFormat, w).
Proof.
  intros instances server hh ga resource w BAD.
  destruct (RetrieveFromServerInternal_cases instances server hh ga resource w)
    as [A | (study & series & instance & (GS & SE & (b1 & GSe) & (b2 & GI) & SI) & _)];
    [exact A|exfalso].
  unfold GetStringValue in GS, GSe, GI.
  destruct (Json.is_type resource Json.objectValue) eqn:T; cbn [negb] in *;
    [|discriminate].
  destruct (Json.isMember resource "Study") eqn:MS; cbn [negb] in *; [|discriminate].
  destruct (Json.is_type (Json.get resource "Study") Json.stringValue) eqn:TS;
    cbn [negb] in *; [|discriminate].
  injection GS as <-.
  destruct BAD as [B | [B | [B | [B | [[M B] | [[M B] | [S (i & I & NE)]]]]]]];
    try discriminate.
  - rewrite B in SE. apply SE. reflexivity.
  - rewrite M, B in GSe. discriminate.
  - rewrite M, B in GI. discriminate.
  - assert (EMPTY : series = EmptyString).
    { destruct S as [S | S].
      - rewrite S in GSe. cbn [negb] in GSe. congruence.
      - destruct (Json.isMember resource "Series"); cbn [negb] in GSe;
          [|congruence].
        rewrite S in GSe. cbn in GSe. congruence. }
    specialize (SI EMPTY). subst instance.
    destruct (Json.isMember resource "Instance") eqn:MI; cbn [negb] in GI.
    + rewrite I in GI. cbn in GI. injection GI as _ E. apply NE. exact E.
    + unfold Json.isMember in MI. unfold Json.get in I.
      destruct resource as [| | | | | |?|members]; try discriminate.
      destruct (Json.lookup members "Instance"); discriminate.
Qed.






(** *** The set of retrieved instances *)

Definition increasing : list string -> Prop :=
  Sorted.StronglySorted OrderedTypeEx.String_as_OT.lt.

Lemma compare_Gt_lt x y :
  String.compare x y = Gt -> OrderedTypeEx.String_as_OT.lt y x.
Proof.
  intro H. apply OrderedTypeEx.String_as_OT.cmp_lt.
  unfold OrderedTypeEx.String_as_OT.cmp.
  rewrite String.compare_antisym, H. reflexivity.
Qed.

Lemma insert_In x s y : In y (insert x s) <-> y = x \/ In y s.
Proof.
  induction s as [|z s IH]; cbn [insert].
  - cbn. intuition.
  - destruct (String.compare x z) eqn:C.
    + apply String.compare_eq_iff in C. subst z. cbn. intuition.
    + cbn. intuition.
    + cbn [In]. rewrite IH. intuition.
Qed.

Lemma insert_increasing x s : increasing s -> increasing (insert x s).
Proof.
  unfold increasing. induction s as [|z s IH]; intro H; cbn [insert].
  - constructor; constructor.
  - inversion H as [|? ? SS FA]; subst.
    destruct (String.compare x z) eqn:C.
    + exact H.
    + apply OrderedTypeEx.String_as_OT.cmp_lt in C.
      constructor; [exact H|]. constructor; [exact C|].
      eapply Forall_impl; [|exact FA]. intros a LT.
      exact (OrderedTypeEx.String_as_OT.lt_trans _ _ _ C LT).
    + apply compare_Gt_lt in C.
      constructor; [apply IH; exact SS|].
      apply Forall_forall. intros a IN. apply insert_In in IN.
      destruct IN as [-> | IN]; [exact C|].
      exact (proj1 (Forall_forall _ _) FA a IN).
Qed.

Lemma increasing_NoDup s : increasing s -> NoDup s.
Proof.
  unfold increasing. induction s as [|z s IH]; intro H; [constructor|].
  inversion H as [|? ? SS FA]; subst. constructor; [|apply IH; exact SS].
  intro IN. pose proof (proj1 (Forall_forall _ _) FA z IN) as LT.
  exact (OrderedTypeEx.String_as_OT.lt_not_eq _ _ LT eq_refl).
Qed.

(** An identifier that is in the set already is not added again. *)
Lemma insert_present x s : increasing s -> In x s -> insert x s = s.
Proof.
  unfold increasing. induction s as [|z s IH]; intros H IN; [contradiction|].
  inversion H as [|? ? SS FA]; subst. cbn [insert].
  destruct IN as [-> | IN].
  - assert (C : String.compare x x = Eq)
      by (apply OrderedTypeEx.String_as_OT.cmp_eq; reflexivity).
    rewrite C. reflexivity.
  - pose proof (proj1 (Forall_forall _ _) FA x IN) as LT.
    apply OrderedTypeEx.String_as_OT.cmp_lt in LT.
    unfold OrderedTypeEx.String_as_OT.cmp in LT.
    rewrite String.compare_antisym, LT. cbn. rewrite (IH SS IN). reflexivity.
Qed.

Lemma RetrieveFromServerInternal_parts_set :
  forall parts instances w result w',
    increasing instances ->
    RetrieveFromServerInternal_parts env parts instances w = (Ok result, w') ->
    increasing result /\ (forall x, In x instances -> In x result).
Proof.
  induction parts as [|part rest IH]; intros instances w result w' INC H.
  - cbn in H. injection H as <- <-. auto.
  - rewrite RetrieveFromServerInternal_parts_cons in H.
    destruct (negb (String.eqb (StowRs.contentType_ part) "application/dicom"));
      [discriminate|].
    destruct (ToJson env _) as [answer|e]; [|discriminate].
    destruct (_ || _)%bool; [discriminate|].
    destruct (IH _ _ _ _ (insert_increasing _ _ INC) H) as [I M].
    split; [exact I|]. intros x IN. apply M. apply insert_In. right. exact IN.
Qed.

Lemma RetrieveFromServerInternal_set instances server hh ga resource w result w' :
  increasing instances ->
  RetrieveFromServerInternal env instances server hh ga resource w = (Ok result, w') ->
  increasing result /\ (forall x, In x instances -> In x result).
Proof.
  intros INC H.
  destruct (RetrieveFromServerInternal_cases instances server hh ga resource w)
    as [A | (study & series & instance & _ & CASES)]; [congruence|].
  destruct CASES as [(e & _ & E) | (answerBody & answerHeaders & _
                                    & [E | (boundary & _ & E)])];
    try congruence.
  rewrite E in H.
  destruct (ParseMultipartBody env answerBody boundary) as [parts|e]; [|discriminate].
  exact (RetrieveFromServerInternal_parts_set _ _ _ _ _ INC H).
Qed.

Lemma RetrieveFromServer_resources_set server hh ga :
  forall resources instances w result w',
    increasing instances ->
    RetrieveFromServer_resources env server hh ga resources instances w
    = (Ok result, w') ->
    increasing result /\ (forall x, In x instances -> In x result).
Proof.
  induction resources as [|resource rest IH]; intros instances w result w' INC H.
  - cbn in H. injection H as <- <-. auto.
  - cbn [RetrieveFromServer_resources] in H. unfold bind in H.
    destruct (RetrieveFromServerInternal env instances server hh ga resource w)
      as [[instances1|e] w1] eqn:R; [|discriminate].
    destruct (RetrieveFromServerInternal_set _ _ _ _ _ _ _ _ INC R) as [I1 M1].
    destruct (IH _ _ _ _ I1 H) as [I M].
    split; [exact I|]. intros x IN. apply M, M1. exact IN.
Qed.

(** The identifiers the store gave back for the POSTs [made] after
    the POSTs [before]: for each POST, in order, the member ID of the
    answer of the store. *)
Fixpoint returned (before made : list StorePost) : list string :=
  match made with
  | [] => []
  | p :: rest =>
      match ToJson env (RestApiPost env before (store_uri p) (store_data p)) with
      | Ok answer =>
          Json.asString (Json.get answer "ID") :: returned (before ++ [p])%list rest
      | Throw _ => returned (before ++ [p])%list rest
      end
  end.

Lemma returned_app first :
  forall before second,
    returned before (first ++ second)
    = (returned before first ++ returned (before ++ first) second)%list.
Proof.
  induction first as [|p rest IH]; intros before second.
  - cbn. rewrite app_nil_r. reflexivity.
  - cbn [app returned].
    replace (before ++ p :: rest)%list with ((before ++ [p]) ++ rest)%list
      by (rewrite <- app_assoc; reflexivity).
    destruct (ToJson env _); rewrite IH; reflexivity.
Qed.

Lemma RetrieveFromServerInternal_parts_returned :
  forall parts instances w result w',
    RetrieveFromServerInternal_parts env parts instances w = (Ok result, w') ->
    exists stored,
      posts w' = (posts w ++ stored)%list
      /\ forall x, In x result <-> In x instances \/ In x (returned (posts w) stored).
Proof.
  induction parts as [|part rest IH]; intros instances w result w' H.
  - cbn in H. injection H as <- <-. exists []. rewrite app_nil_r.
    split; [reflexivity|]. intro x. cbn. tauto.
  - rewrite RetrieveFromServerInternal_parts_cons in H.
    destruct (negb (String.eqb (StowRs.contentType_ part) "application/dicom"));
      [discriminate|].
    destruct (ToJson env (RestApiPost env (posts w) "/instances" (StowRs.data_ part)))
      as [answer|e] eqn:J; [|discriminate].
    destruct (_ || _)%bool; [discriminate|].
    destruct (IH _ _ _ _ H) as (stored & P & IN). cbn [posts] in P, IN.
    exists ({| store_uri := "/instances"; store_data := StowRs.data_ part |} :: stored).
    split; [rewrite P, <- app_assoc; reflexivity|].
    intro x. rewrite IN, insert_In. cbn [returned store_uri store_data].
    rewrite J. cbn [In]. split; intro X; intuition auto.
Qed.

Lemma RetrieveFromServerInternal_returned instances server hh ga resource w result w' :
  RetrieveFromServerInternal env instances server hh ga resource w = (Ok result, w') ->
  exists stored,
    posts w' = (posts w ++ stored)%list
    /\ forall x, In x result <-> In x instances \/ In x (returned (posts w) stored).
Proof.
  intro H.
  destruct (RetrieveFromServerInternal_cases instances server hh ga resource w)
    as [A | (study & series & instance & _ & CASES)]; [congruence|].
  destruct CASES as [(e & _ & E) | (answerBody & answerHeaders & _
                                    & [E | (boundary & _ & E)])];
    try congruence.
  rewrite E in H.
  destruct (ParseMultipartBody env answerBody boundary) as [parts|e]; [|discriminate].
  exact (RetrieveFromServerInternal_parts_returned _ _ _ _ _ H).
Qed.

Lemma RetrieveFromServer_resources_returned server hh ga :
  forall resources instances w result w',
    RetrieveFromServer_resources env server hh ga resources instances w
    = (Ok result, w') ->
    exists stored,
      posts w' = (posts w ++ stored)%list
      /\ forall x, In x result <-> In x instances \/ In x (returned (posts w) stored).
Proof.
  induction resources as [|resource rest IH]; intros instances w result w' H.
  - cbn in H. injection H as <- <-. exists []. rewrite app_nil_r.
    split; [reflexivity|]. intro x. cbn. tauto.
  - cbn [RetrieveFromServer_resources] in H. unfold bind in H.
    destruct (RetrieveFromServerInternal env instances server hh ga resource w)
      as [[instances1|e] w1] eqn:R; [|discriminate].
    destruct (RetrieveFromServerInternal_returned _ _ _ _ _ _ _ _ R)
      as (s1 & P1 & IN1).
    destruct (IH _ _ _ _ H) as (s2 & P2 & IN2).
    exists (s1 ++ s2)%list. split; [rewrite P2, P1, <- app_assoc; reflexivity|].
    intro x. rewrite IN2, IN1, returned_app, in_app_iff, P1. tauto.
Qed.

(** X16.  When [RetrieveFromServer] answers, it sets no header and
    answers the JSON object whose only member, Instances, lists the
    identifiers the store gave back for the parts posted during the
    request: every one of them and nothing else, each once, in strictly
    increasing order of their bytes, however often and in whatever
    order the store returned them. *)
Theorem RetrieveFromServer_answers_sorted :
  forall request w headers answer mimeType w',
    RetrieveFromServer env request w
    = (Ok (OrthancPluginAnswerBuffer headers answer mimeType), w') ->
    headers = []
    /\ mimeType = "application/json"
    /\ exists instances stored,
        answer = toStyledString env (Status instances)
        /\ posts w' = (posts w ++ stored)%list
        /\ (forall x, In x instances <-> In x (returned (posts w) stored))
        /\ Sorted.StronglySorted OrderedTypeEx.String_as_OT.lt instances
        /\ NoDup instances.
Proof.
  intros request w headers answer mimeType w'. unfold RetrieveFromServer.
  destruct (negb (is_Post (method request))); [discriminate|].
  unfold bind, lift, throw, ret.
  destruct (GetServer env (groups0 request)) as [server|e]; [|discriminate].
  destruct (Reader_parse env (body request)) as [document|]; [|discriminate].
  destruct (_ || _)%bool; [discriminate|].
  destruct (ParseAssociativeArray env [] document "HttpHeaders") as [hh|e];
    [|discriminate].
  destruct (ParseAssociativeArray env [] document "Arguments") as [ga|e];
    [|discriminate].
  destruct (RetrieveFromServer_resources env server hh ga _ [] w)
    as [[instances|e] w1] eqn:R; [|discriminate].
  intro H. injection H as <- <- <- <-.
  split; [reflexivity|]. split; [reflexivity|].
  destruct (RetrieveFromServer_resources_set server hh ga _ _ _ _ _
              (Sorted.SSorted_nil _) R) as [I _].
  destruct (RetrieveFromServer_resources_returned server hh ga _ _ _ _ _ R)
    as (stored & P & IN).
  exists instances, stored. split; [reflexivity|]. split; [exact P|].
  split; [intro x; rewrite IN; cbn [In]; tauto|].
  split; [exact I|]. apply increasing_NoDup. exact I.
Qed.

Lemma RetrieveFromServer_resources_app server hh ga before :
  forall after instances w,
    RetrieveFromServer_resources env server hh ga (before ++ after) instances w
    = match RetrieveFromServer_resources env server hh ga before instances w with
      | (Ok instances1, w1) =>
          RetrieveFromServer_resources env server hh ga after instances1 w1
      | other => other
      end.
Proof.
  induction before as [|resource rest IH]; intros after instances w; [reflexivity|].
  cbn [app RetrieveFromServer_resources]. unfold bind.
  destruct (RetrieveFromServerInternal env instances server hh ga resource w)
    as [[instances1|e] w1]; [apply IH|reflexivity].
Qed.

Lemma RetrieveFromServerInternal_grows instances server hh ga resource w :
  exists sent stored,
    gets (snd (RetrieveFromServerInternal env instances server hh ga resource w))
    = (gets w ++ sent)%list
    /\ posts (snd (RetrieveFromServerInternal env instances server hh ga resource w))
       = (posts w ++ stored)%list.
Proof.
  destruct (RetrieveFromServerInternal_cases instances server hh ga resource w)
    as [A | (study & series & instance & _ & CASES)].
  - rewrite A. exists [], []. cbn. rewrite !app_nil_r. auto.
  - assert (NOTHING : forall r,
               RetrieveFromServerInternal env instances server hh ga resource w
               = (r, asked w server hh ga study series instance) ->
               exists sent stored,
                 gets (snd (RetrieveFromServerInternal env instances server hh ga
                                                          resource w))
                 = (gets w ++ sent)%list
                 /\ posts (snd (RetrieveFromServerInternal env instances server hh ga
                                                           resource w))
                    = (posts w ++ stored)%list).
    { intros r E. rewrite E. eexists. exists []. cbn.
      split; [reflexivity|rewrite app_nil_r; reflexivity]. }
    destruct CASES
      as [(e & _ & E) | (answerBody & answerHeaders & _ & [E | (boundary & _ & E)])].
    + exact (NOTHING _ E).
    + exact (NOTHING _ E).
    + destruct (ParseMultipartBody env answerBody boundary) as [parts|e].
      * rewrite E.
        destruct (RetrieveFromServerInternal_parts_world
                    parts instances (asked w server hh ga study series instance))
          as (k & _ & G & P & _).
        eexists. eexists. rewrite G, P. cbn [asked gets posts].
        split; reflexivity.
      * exact (NOTHING _ E).
Qed.

(** X17.  The resources of a retrieve request are handled in order and
    the first failure ends the request: when a resource fails, with
    whatever exception, after the resources before it went through, the
    request fails with that exception, the later resources are not asked
    for, and what the earlier resources stored stays stored.  Resources
    retrieved one list after the other are retrieved as the
    concatenation of the lists. *)
Theorem RetrieveFromServer_resources_stop :
  forall server hh ga before bad after instances w instances1 w1 e w2,
    RetrieveFromServer_resources env server hh ga before instances w
    = (Ok instances1, w1) ->
    RetrieveFromServerInternal env instances1 server hh ga bad w1 = (Throw e, w2) ->
    RetrieveFromServer_resources env server hh ga (before ++ bad :: after) instances w
    = (Throw e, w2)
    /\ (exists asked stored,
          gets w2 = (gets w ++ asked)%list /\ posts w2 = (posts w ++ stored)%list)
    /\ RetrieveFromServer_resources env server hh ga (before ++ after) instances w
       = RetrieveFromServer_resources env server hh ga after instances1 w1.
Proof.
  intros server hh ga before bad after instances w instances1 w1 e w2 H B.
  assert (GROWS : forall resources instances w,
             exists asked stored,
               gets (snd (RetrieveFromServer_resources env server hh ga resources
                                                       instances w))
               = (gets w ++ asked)%list
               /\ posts (snd (RetrieveFromServer_resources env server hh ga resources
                                                          instances w))
                  = (posts w ++ stored)%list).
  { clear. induction resources as [|r rest IH]; intros instances w.
    - exists [], []. cbn. rewrite !app_nil_r. auto.
    - cbn [RetrieveFromServer_resources]. unfold bind.
      assert (ONE : exists asked stored,
                 gets (snd (RetrieveFromServerInternal env instances server hh ga r w))
                 = (gets w ++ asked)%list
                 /\ posts (snd (RetrieveFromServerInternal env instances server hh ga r w))
                    = (posts w ++ stored)%list).
      { apply RetrieveFromServerInternal_grows. }
      destruct ONE as (a1 & s1 & G1 & P1).
      destruct (RetrieveFromServerInternal env instances server hh ga r w)
        as [[i1|e1] w1]; cbn [snd] in G1, P1.
      + destruct (IH i1 w1) as (a2 & s2 & G2 & P2).
        exists (a1 ++ a2)%list, (s1 ++ s2)%list.
        rewrite G2, P2, G1, P1, !app_assoc. auto.
      + exists a1, s1. cbn [snd]. auto. }
  split; [|split].
  - rewrite RetrieveFromServer_resources_app, H.
    cbn [RetrieveFromServer_resources]. unfold bind. rewrite B. reflexivity.
  - destruct (GROWS (before ++ [bad])%list instances w) as (a & s & G & P).
    rewrite RetrieveFromServer_resources_app, H in G, P.
    cbn [RetrieveFromServer_resources] in G, P. unfold bind in G, P.
    rewrite B in G, P. cbn [snd] in G, P. exists a, s. auto.
  - rewrite RetrieveFromServer_resources_app, H. reflexivity.
Qed.


End RetrieveClient.

(* ================================================================= *)
(** * Properties of the WADO server *)

Section WadoServer.

Import Wado.

Variable env : Env.

(** The value of the last GET argument with the given key, or the
    default when there is none. *)
Definition last_value (key : string) (arguments : list (string * string))
           (default : string) : string :=
  List.last (map snd (filter (fun a => String.eqb (fst a) key) arguments)) default.

Lemma last_value_cons key k v rest default :
  last_value key ((k, v) :: rest) default
  = last_value key rest (if String.eqb k key then v else default).
Proof.
  unfold last_value. cbn [filter fst].
  destruct (String.eqb k key); [|reflexivity].
  cbn [map snd]. apply last_cons.
Qed.

Lemma LocateInstance_arguments_fold :
  forall arguments a,
    fold_left LocateInstance_argument arguments a
    = {| requestType := last_value "requestType" arguments (requestType a);
         studyUid := last_value "studyUID" arguments (studyUid a);
         seriesUid := last_value "seriesUID" arguments (seriesUid a);
         objectUid := last_value "objectUID" arguments (objectUid a);
         contentType := last_value "contentType" arguments (contentType a) |}.
Proof.
  induction arguments as [|[k v] rest IH]; intro a.
  - destruct a. reflexivity.
  - cbn [fold_left]. rewrite IH, !last_value_cons.
    unfold LocateInstance_argument.
    destruct (String.eqb k "studyUID") eqn:E1;
      [apply String.eqb_eq in E1; subst k; reflexivity|].
    destruct (String.eqb k "seriesUID") eqn:E2;
      [apply String.eqb_eq in E2; subst k; reflexivity|].
    destruct (String.eqb k "objectUID") eqn:E3;
      [apply String.eqb_eq in E3; subst k; reflexivity|].
    destruct (String.eqb k "requestType") eqn:E4;
      [apply String.eqb_eq in E4; subst k; reflexivity|].
    destruct (String.eqb k "contentType") eqn:E5;
      [apply String.eqb_eq in E5; subst k; reflexivity|].
    reflexivity.
Qed.

(** X18.  [LocateInstance] reads each of its five GET arguments from
    the last argument with that key, spelled exactly; the other
    arguments are ignored, a missing argument is the empty string, and
    a missing contentType is the content type the caller came with. *)
Theorem LocateInstance_arguments_last :
  forall contentType0 request,
    LocateInstance_arguments contentType0 request
    = {| requestType := last_value "requestType" (getArguments request) EmptyString;
         studyUid := last_value "studyUID" (getArguments request) EmptyString;
         seriesUid := last_value "seriesUID" (getArguments request) EmptyString;
         objectUid := last_value "objectUID" (getArguments request) EmptyString;
         contentType := last_value "contentType" (getArguments request) contentType0 |}.
Proof.
  intros contentType0 request. unfold LocateInstance_arguments.
  apply LocateInstance_arguments_fold.
Qed.

(** The instance belongs to the series, or study, with the given UID,
    as the store describes it. *)
Definition belongs (uri uidTag uid : string) : Prop :=
  exists info,
    RestApiGetJson env uri = Some info
    /\ Json.get (Json.get info "MainDicomTags") uidTag = Json.Str uid.

Lemma Belongs_true uri uidTag uid :
  Belongs env uri uidTag uid = Some true -> belongs uri uidTag uid.
Proof.
  unfold Belongs, belongs.
  destruct (RestApiGetJson env uri) as [info|]; [|discriminate].
  intro H. exists info. split; [reflexivity|].
  destruct info as [| | | | | |?|members]; cbn in H; try discriminate.
  cbn [Json.get].
  destruct (Json.lookup members "MainDicomTags") as [tags|]; cbn in H;
    [|discriminate].
  destruct tags as [| | | | | |?|fields]; cbn in H; try discriminate.
  cbn [Json.get].
  destruct (Json.lookup fields uidTag) as [[| | | |s| |?|?]|]; try discriminate.
  injection H as H. apply String.eqb_eq in H. subst s. reflexivity.
Qed.

Lemma LocateInstance_found contentType0 request instance type :
  LocateInstance env contentType0 request = Found instance type ->
  let a := LocateInstance_arguments contentType0 request in
  requestType a = "WADO"
  /\ objectUid a <> EmptyString
  /\ OrthancPluginLookupInstance env (objectUid a) = Some instance
  /\ (seriesUid a <> EmptyString ->
      OrthancPluginLookupSeries env (seriesUid a) <> None
      /\ belongs ("/instances/" ++ instance ++ "/series") "SeriesInstanceUID" (seriesUid a))
  /\ (studyUid a <> EmptyString ->
      OrthancPluginLookupStudy env (studyUid a) <> None
      /\ belongs ("/instances/" ++ instance ++ "/study") "StudyInstanceUID" (studyUid a))
  /\ type = contentType a.
Proof.
  unfold LocateInstance, MapWadoToOrthancIdentifier.
  set (a := LocateInstance_arguments contentType0 request). cbv zeta.
  destruct (String.eqb (requestType a) "WADO") eqn:RT; cbn [negb]; [|discriminate].
  destruct (String.eqb (objectUid a) EmptyString) eqn:OU; [discriminate|].
  destruct (OrthancPluginLookupInstance env (objectUid a)) as [i|]; [|discriminate].
  apply String.eqb_eq in RT. apply String.eqb_neq in OU.
  destruct (String.eqb (seriesUid a) EmptyString) eqn:SE; cbn [negb].
  - apply String.eqb_eq in SE.
    destruct (String.eqb (studyUid a) EmptyString) eqn:ST; cbn [negb].
    + apply String.eqb_eq in ST. intro H. injection H as <- <-.
      repeat split; auto; congruence.
    + destruct (OrthancPluginLookupStudy env (studyUid a)) as [st|]; [|discriminate].
      destruct (Belongs env _ "StudyInstanceUID" (studyUid a)) as [[]|] eqn:B;
        try discriminate.
      intro H. injection H as <- <-. apply Belongs_true in B.
      repeat split; auto; congruence.
  - destruct (OrthancPluginLookupSeries env (seriesUid a)) as [se|]; [|discriminate].
    destruct (Belongs env _ "SeriesInstanceUID" (seriesUid a)) as [[]|] eqn:B1;
      try discriminate.
    apply Belongs_true in B1.
    destruct (String.eqb (studyUid a) EmptyString) eqn:ST; cbn [negb].
    + apply String.eqb_eq in ST. intro H. injection H as <- <-.
      repeat split; auto; congruence.
    + destruct (OrthancPluginLookupStudy env (studyUid a)) as [st|]; [|discriminate].
      destruct (Belongs env _ "StudyInstanceUID" (studyUid a)) as [[]|] eqn:B2;
        try discriminate.
      intro H. injection H as <- <-. apply Belongs_true in B2.
      repeat split; auto; congruence.
Qed.

(** X19.  When [WadoCallback] returns 0, the request was a GET with
    requestType WADO and an objectUID that Orthanc knows; a seriesUID or
    studyUID that was given is known to Orthanc and is the one the store
    reports for the series or the study of that instance; and the
    answer is, by the contentType argument, the file of that instance
    as application/dicom, its preview as image/png, or its preview
    converted to JPEG as image/jpeg, which is also what a request
    without contentType gets. *)
Theorem WadoCallback_answers :
  forall request output,
    WadoCallback env request = Returned 0 output ->
    request_method request = OrthancPluginHttpMethod_Get
    /\ last_value "requestType" (getArguments request) EmptyString = "WADO"
    /\ exists instance,
        OrthancPluginLookupInstance env
          (last_value "objectUID" (getArguments request) EmptyString)
        = Some instance
        /\ last_value "objectUID" (getArguments request) EmptyString <> EmptyString
        /\ (last_value "seriesUID" (getArguments request) EmptyString <> EmptyString ->
            OrthancPluginLookupSeries env
              (last_value "seriesUID" (getArguments request) EmptyString) <> None
            /\ belongs ("/instances/" ++ instance ++ "/series") "SeriesInstanceUID"
                       (last_value "seriesUID" (getArguments request) EmptyString))
        /\ (last_value "studyUID" (getArguments request) EmptyString <> EmptyString ->
            OrthancPluginLookupStudy env
              (last_value "studyUID" (getArguments request) EmptyString) <> None
            /\ belongs ("/instances/" ++ instance ++ "/study") "StudyInstanceUID"
                       (last_value "studyUID" (getArguments request) EmptyString))
        /\ exists answer mimeType,
            output = Some (OrthancPluginAnswerBuffer answer mimeType)
            /\ ((last_value "contentType" (getArguments request) "image/jpg"
                 = "application/dicom"
                 /\ mimeType = "application/dicom"
                 /\ RestApiGetString env ("/instances/" ++ instance ++ "/file")
                    = Some answer)
                \/ (last_value "contentType" (getArguments request) "image/jpg"
                    = "image/png"
                    /\ mimeType = "image/png"
                    /\ RestApiGetString env ("/instances/" ++ instance ++ "/preview")
                       = Some answer)
                \/ ((last_value "contentType" (getArguments request) "image/jpg"
                     = "image/jpeg"
                     \/ last_value "contentType" (getArguments request) "image/jpg"
                        = "image/jpg")
                    /\ mimeType = "image/jpeg"
                    /\ exists png,
                        RestApiGetString env ("/instances/" ++ instance ++ "/preview")
                        = Some png
                        /\ PngToJpeg env png = Ok answer)).
Proof.
  intros request output. unfold WadoCallback.
  destruct (request_method request) eqn:M; cbn [negb]; try discriminate.
  destruct (LocateInstance env "image/jpg" request) as [instance type| |] eqn:L;
    try discriminate.
  apply LocateInstance_found in L. cbv zeta in L.
  unfold LocateInstance_arguments in L. rewrite LocateInstance_arguments_fold in L.
  cbn [requestType studyUid seriesUid objectUid contentType] in L.
  destruct L as (RT & OU & LI & SE & ST & ->).
  intro H. split; [reflexivity|]. split; [exact RT|].
  exists instance. split; [exact LI|]. split; [exact OU|].
  split; [exact SE|]. split; [exact ST|].
  destruct (String.eqb (last_value "contentType" (getArguments request) "image/jpg")
                       "application/dicom") eqn:C1.
  { apply String.eqb_eq in C1. unfold AnswerDicom in H.
    destruct (RestApiGetString env ("/instances/" ++ instance ++ "/file")) as [dicom|];
      [|discriminate].
    injection H as <-. exists dicom, "application/dicom". split; [reflexivity|].
    left. auto. }
  destruct (String.eqb (last_value "contentType" (getArguments request) "image/jpg")
                       "image/png") eqn:C2.
  { apply String.eqb_eq in C2. unfold AnswerPngPreview, RetrievePngPreview in H.
    destruct (RestApiGetString env ("/instances/" ++ instance ++ "/preview")) as [png|];
      [|discriminate].
    injection H as <-. exists png, "image/png". split; [reflexivity|].
    right. left. auto. }
  destruct (String.eqb (last_value "contentType" (getArguments request) "image/jpg")
                       "image/jpeg"
            || String.eqb (last_value "contentType" (getArguments request) "image/jpg")
                          "image/jpg")%bool eqn:C3; [|discriminate].
  apply orb_true_iff in C3. rewrite !String.eqb_eq in C3.
  unfold AnswerJpegPreview, RetrievePngPreview in H.
  destruct (RestApiGetString env ("/instances/" ++ instance ++ "/preview")) as [png|];
    [|discriminate].
  destruct (PngToJpeg env png) as [jpeg|e] eqn:J; cbn in H; [|discriminate].
  injection H as <-. exists jpeg, "image/jpeg". split; [reflexivity|].
  right. right. split; [exact C3|]. split; [reflexivity|]. exists png. auto.
Qed.

(** X20.  [WadoCallback] returns 0 or -1 and nothing else; it returns
    0 exactly when it has answered a buffer, and it declares a method
    not allowed exactly when the request is not a GET. *)
Theorem WadoCallback_code :
  forall request code output,
    WadoCallback env request = Returned code output ->
    (code = 0 \/ code = -1)
    /\ (code = 0 <-> exists answer mimeType,
                      output = Some (OrthancPluginAnswerBuffer answer mimeType))
    /\ (output = Some (OrthancPluginSendMethodNotAllowed "GET")
        <-> request_method request <> OrthancPluginHttpMethod_Get)
    /\ (forall allowed,
          output = Some (OrthancPluginSendMethodNotAllowed allowed) -> allowed = "GET").
Proof.
  intros request code output. unfold WadoCallback.
  assert (ANSWERS :
            forall answered : Answered,
              (exists answer mimeType,
                  answered = Ok (0, Some (OrthancPluginAnswerBuffer answer mimeType)))
              \/ answered = Ok (-1, None) \/ (exists e, answered = Throw e) ->
              match answered with
              | Ok (code, output) => Returned code output
              | Throw _ => Returned (-1) None
              end = Returned code output ->
              (code = 0 \/ code = -1)
              /\ (code = 0 <-> exists answer mimeType,
                                output = Some (OrthancPluginAnswerBuffer answer mimeType))
              /\ (output = Some (OrthancPluginSendMethodNotAllowed "GET") <-> False)
              /\ (forall allowed,
                    output = Some (OrthancPluginSendMethodNotAllowed allowed) ->
                    allowed = "GET")).
  { intros answered [(answer & mimeType & ->) | [-> | (e & ->)]] H;
      injection H as <- <-.
    - split; [left; reflexivity|]. split; [split; eauto|].
      split; [split; [discriminate|contradiction]|]. discriminate.
    - split; [right; reflexivity|].
      split; [split; [discriminate|intros (? & ? & ?); discriminate]|].
      split; [split; [discriminate|contradiction]|]. discriminate.
    - split; [right; reflexivity|].
      split; [split; [discriminate|intros (? & ? & ?); discriminate]|].
      split; [split; [discriminate|contradiction]|]. discriminate. }
  destruct (request_method request) eqn:M; cbn [negb].
  2-4: intro H; injection H as <- <-;
    (split; [right; reflexivity|]);
    (split; [split; [discriminate|intros (? & ? & ?); discriminate]|]);
    (split; [split; [discriminate|reflexivity]|]);
    intros allowed A; injection A as <-; reflexivity.
  destruct (LocateInstance env "image/jpg" request) as [instance type| |];
    [| |discriminate].
  - intro H.
    assert (R : (code = 0 \/ code = -1)
                /\ (code = 0 <-> exists answer mimeType,
                                  output = Some (OrthancPluginAnswerBuffer answer mimeType))
                /\ (output = Some (OrthancPluginSendMethodNotAllowed "GET") <-> False)
                /\ (forall allowed,
                      output = Some (OrthancPluginSendMethodNotAllowed allowed) ->
                      allowed = "GET")).
    { revert H. apply ANSWERS.
      destruct (String.eqb type "application/dicom").
      { unfold AnswerDicom. destruct (RestApiGetString env _); eauto. }
      destruct (String.eqb type "image/png").
      { unfold AnswerPngPreview. destruct (RetrievePngPreview env instance); eauto. }
      destruct (_ || _)%bool; [|auto].
      unfold AnswerJpegPreview. destruct (RetrievePngPreview env instance); [|auto].
      destruct (PngToJpeg env s); cbn; eauto. }
    destruct R as (R1 & R2 & R3 & R4).
    split; [exact R1|]. split; [exact R2|]. split; [|exact R4].
    split; [intro O; apply R3 in O; contradiction|intro N; exfalso; apply N; reflexivity].
  - intro H. injection H as <- <-.
    split; [right; reflexivity|].
    split; [split; [discriminate|intros (? & ? & ?); discriminate]|].
    split; [split; [discriminate|intro N; exfalso; apply N; reflexivity]|].
    discriminate.
Qed.

(** The request without its seriesUID and studyUID arguments. *)
Definition unchecked (request : HttpRequest) : HttpRequest :=
  {| request_method := request_method request;
     getArguments :=
       filter (fun a => negb (String.eqb (fst a) "seriesUID")
                        && negb (String.eqb (fst a) "studyUID"))
              (getArguments request) |}.

Lemma last_value_filter (p : string * string -> bool) key :
  forall arguments default,
    last_value key (filter p arguments) default
    = last_value key (filter (fun a => negb (String.eqb (fst a) key) || p a) arguments)
                 default.
Proof.
  induction arguments as [|[k v] rest IH]; intro default; [reflexivity|].
  cbn [filter fst]. destruct (String.eqb k key) eqn:E; cbn [negb orb].
  - destruct (p (k, v)); [rewrite !last_value_cons, E; apply IH|apply IH].
  - destruct (p (k, v)); rewrite !last_value_cons, E; apply IH.
Qed.

Lemma last_value_kept (p : string * string -> bool) key arguments default :
  (forall a, fst a = key -> p a = true) ->
  last_value key (filter p arguments) default = last_value key arguments default.
Proof.
  intro KEEP. rewrite last_value_filter. f_equal.
  induction arguments as [|[k v] rest IH]; [reflexivity|].
  cbn [filter fst]. destruct (String.eqb k key) eqn:E; cbn [negb orb].
  - apply String.eqb_eq in E. rewrite (KEEP (k, v) E). rewrite IH. reflexivity.
  - rewrite IH. reflexivity.
Qed.

Lemma last_value_dropped (p : string * string -> bool) key arguments default :
  (forall a, fst a = key -> p a = false) ->
  last_value key (filter p arguments) default = default.
Proof.
  intro DROP. revert default.
  induction arguments as [|[k v] rest IH]; intro default; [reflexivity|].
  cbn [filter]. destruct (p (k, v)) eqn:P; [|apply IH].
  rewrite last_value_cons.
  destruct (String.eqb k key) eqn:E; [|apply IH].
  apply String.eqb_eq in E. rewrite (DROP (k, v) E) in P. discriminate.
Qed.

(** X21.  The seriesUID and studyUID arguments only restrict a WADO
    request: when [WadoCallback] returns 0, it returns 0 with the same
    answer for the request without these two arguments. *)
Theorem WadoCallback_without_checks :
  forall request output,
    WadoCallback env request = Returned 0 output ->
    WadoCallback env (unchecked request) = Returned 0 output.
Proof.
  intros request output. unfold WadoCallback.
  change (request_method (unchecked request)) with (request_method request).
  destruct (request_method request); cbn [negb]; try discriminate.
  destruct (LocateInstance env "image/jpg" request) as [instance type| |] eqn:L;
    try discriminate.
  assert (U : LocateInstance env "image/jpg" (unchecked request) = Found instance type).
  { apply LocateInstance_found in L. cbv zeta in L.
    unfold LocateInstance_arguments in L. rewrite LocateInstance_arguments_fold in L.
    cbn [requestType studyUid seriesUid objectUid contentType] in L.
    destruct L as (RT & OU & LI & _ & _ & ->).
    unfold LocateInstance, MapWadoToOrthancIdentifier.
    unfold LocateInstance_arguments. rewrite LocateInstance_arguments_fold.
    cbn [requestType studyUid seriesUid objectUid contentType unchecked getArguments].
    rewrite (last_value_kept _ "requestType"), (last_value_kept _ "objectUID"),
      (last_value_kept _ "contentType"),
      (last_value_dropped _ "seriesUID"), (last_value_dropped _ "studyUID");
      try (intros [k v] E; cbn [fst] in E; subst k; reflexivity).
    rewrite RT, LI. apply String.eqb_neq in OU. rewrite OU. reflexivity. }
  rewrite U. intro H. exact H.
Qed.


End WadoServer.

(* ================================================================= *)
(** * The further properties on concrete requests *)

Section FurtherClientScenarios.

Import DicomWebClient.

(** Three fetchable instances with an instance limit of two: the POSTs
    carry whole framed files, and the batches together are the three
    files in the order of the request. *)
Lemma StowClient_send_frames_small :
  Z.of_nat (List.length ["a"; "b"; "c"]) < 2 ^ 64
  /\ exists posts batches,
      snd (StowClient_send Scenario.small "srv" [] [] "B" ["a"; "b"; "c"] []) = posts
      /\ Forall2 (carries Scenario.small "srv" [] [] "B") posts batches
      /\ List.concat batches = files Scenario.small ["a"; "b"; "c"].
Proof.
  split; [reflexivity|].
  destruct (StowClient_send_frames Scenario.small "srv" [] [] "B" ["a"; "b"; "c"] [])
    as (posts & batches & E & C & _ & A); [reflexivity|].
  exists posts, batches. split; [exact E|]. split; [exact C|].
  eapply A. vm_compute. reflexivity.
Defined.

End FurtherClientScenarios.

Section FurtherServerScenarios.

Import gdcm.
Import StowRs.

(** A part declared as text/plain after a part that was stored: the
    loop answers 415, the first part stays posted and the third part is
    not looked at. *)
Lemma StowCallback_items_stops_text_plain :
  StowCallback_items Scenario.mixed "http://localhost:8042/dicom-web/" "1.2.1"
    initial [Scenario.part "file 1"] []
  = (Ok (Next {| isFirst := false;
                 result :=
                   [ByteValue DICOM_TAG_RETRIEVE_URL UT
                      "http://localhost:8042/dicom-web/studies/1.2.1"];
                 success :=
                   [[ByteValue DICOM_TAG_REFERENCED_SOP_CLASS_UID UI
                       "1.2.840.10008.5.1.4.1.1.2";
                     ByteValue DICOM_TAG_REFERENCED_SOP_INSTANCE_UID UI "1.2.1.1.1";
                     ByteValue DICOM_TAG_RETRIEVE_URL UT
                       "http://localhost:8042/dicom-web/studies/1.2.1/series/1.2.1.1/instances/1.2.1.1.1"]];
                 failed := [] |}),
     [{| call_uri := "/instances"; call_data := "file 1"; call_ok := true |}])
  /\ acceptable {| data_ := "notes"; contentType_ := "text/plain" |} = false
  /\ StowCallback_items Scenario.mixed "http://localhost:8042/dicom-web/" "1.2.1"
       initial
       ([Scenario.part "file 1"]
        ++ {| data_ := "notes"; contentType_ := "text/plain" |}
        :: [Scenario.part "file 3"])%list
       []
     = (Ok (Return 415),
        [{| call_uri := "/instances"; call_data := "file 1"; call_ok := true |}]).
Proof.
  split; [vm_compute; reflexivity|]. split; [reflexivity|].
  refine (proj1 (StowCallback_items_stops
                   Scenario.mixed "http://localhost:8042/dicom-web/" "1.2.1"
                   [Scenario.part "file 1"]
                   {| data_ := "notes"; contentType_ := "text/plain" |}
                   [Scenario.part "file 3"] initial [] _ _ _) _).
  - vm_compute. reflexivity.
  - reflexivity.
Defined.

(** Three parts in a request restricted to study 1.2.1, of which the
    second is of another study and the third is refused by the store:
    the two records of the success sequence and the record of the
    failed sequence have the shapes described. *)
Lemma StowCallback_items_record_shapes_mixed :
  exists locals' store',
    StowCallback_items Scenario.mixed "http://localhost:8042/dicom-web/" "1.2.1"
      initial
      [Scenario.part "file 1"; Scenario.part "file 2"; Scenario.part "file 3"] []
    = (Ok (Next locals'), store')
    /\ exists stored rejected,
        success locals' = (success initial ++ stored)%list
        /\ failed locals' = (failed initial ++ rejected)%list
        /\ List.length stored = 2%nat
        /\ List.length rejected = 1%nat
        /\ Forall
             (fun record =>
                GetByteValue record DICOM_TAG_FAILURE_REASON = None
                /\ ((GetByteValue record DICOM_TAG_WARNING_REASON = Some "B006"
                     /\ GetByteValue record DICOM_TAG_RETRIEVE_URL = None)
                    \/ (GetByteValue record DICOM_TAG_WARNING_REASON = None
                        /\ exists url,
                            GetByteValue record DICOM_TAG_RETRIEVE_URL = Some url)))
             stored
        /\ Forall
             (fun record =>
                GetByteValue record DICOM_TAG_FAILURE_REASON = Some "0110"
                /\ GetByteValue record DICOM_TAG_WARNING_REASON = None
                /\ GetByteValue record DICOM_TAG_RETRIEVE_URL = None)
             rejected.
Proof.
  eexists. eexists. split; [vm_compute; reflexivity|].
  destruct (StowCallback_items_record_shapes
              Scenario.mixed "http://localhost:8042/dicom-web/" "1.2.1"
              [Scenario.part "file 1"; Scenario.part "file 2"; Scenario.part "file 3"]
              initial [] _ _ ltac:(vm_compute; reflexivity))
    as (stored & rejected & S & F & FS & FR).
  exists stored, rejected. split; [exact S|]. split; [exact F|].
  cbn [initial success failed app] in S, F. rewrite <- S, <- F.
  split; [reflexivity|]. split; [reflexivity|]. rewrite S, F. split; assumption.
Defined.

End FurtherServerScenarios.

Section RetrieveScenarios.

Import DicomWebRetrieve.

(** The remote server answers the GET of studies with four headers:
    Content-Length and X-Remote are given back, and the MIME type is
    the value of Content-Type. *)
Lemma GetFromServer_relays_studies :
  GetFromServer RetrieveScenario.client (RetrieveScenario.request "Uri: studies")
                RetrieveScenario.nothing
  = (Ok (OrthancPluginAnswerBuffer [("Content-Length", "2"); ("X-Remote", "yes")]
                                   "[]" "application/dicom+json"),
     {| gets := [{| get_server := "http://remote/dicom-web/";
                    get_headers := [];
                    get_uri := "studies" |}];
        posts := [] |})
  /\ exists answerHeaders,
      CallServer RetrieveScenario.client [] "http://remote/dicom-web/" [] "studies"
      = CallAnswers "[]" answerHeaders
      /\ [("Content-Length", "2"); ("X-Remote", "yes")]
         = filter forwardable answerHeaders
      /\ "application/dicom+json"
         = List.last (map snd (filter is_content_type answerHeaders))
                     "application/octet-stream".
Proof.
  split; [vm_compute; reflexivity|].
  destruct (GetFromServer_relays
              RetrieveScenario.client (RetrieveScenario.request "Uri: studies")
              RetrieveScenario.nothing _ _ _ _ ltac:(vm_compute; reflexivity))
    as (server & document & uri & ga & hh & answerHeaders
        & GS & RP & GSV & PA & PH & C & _ & F & M).
  injection GS as <-. injection RP as <-. injection GSV as <-.
  injection PA as <-. injection PH as <-.
  exists answerHeaders. split; [exact C|]. split; [exact F|exact M].
Defined.

(** The second part of an answer declares no content type: the loop
    throws [ErrorCode_NetworkProtocol] after it has stored the first
    part. *)
Lemma RetrieveFromServerInternal_parts_stop_undeclared :
  RetrieveFromServerInternal_parts RetrieveScenario.client
    [RetrieveScenario.part "application/dicom" "a"] [] RetrieveScenario.nothing
  = (Ok ["a"],
     {| gets := []; posts := [{| store_uri := "/instances"; store_data := "a" |}] |})
  /\ RetrieveFromServerInternal_parts RetrieveScenario.client
       ([RetrieveScenario.part "application/dicom" "a"]
        ++ RetrieveScenario.part EmptyString "b"
        :: [RetrieveScenario.part "application/dicom" "c"])%list
       [] RetrieveScenario.nothing
     = (Throw ErrorCode_NetworkProtocol,
        {| gets := []; posts := [{| store_uri := "/instances"; store_data := "a" |}] |}).
Proof.
  split; [vm_compute; reflexivity|].
  apply (proj1 (RetrieveFromServerInternal_parts_stop
                  RetrieveScenario.client
                  [RetrieveScenario.part "application/dicom" "a"]
                  (RetrieveScenario.part EmptyString "b")
                  [RetrieveScenario.part "application/dicom" "c"]
                  [] RetrieveScenario.nothing _ _ ltac:(vm_compute; reflexivity))).
  discriminate.
Defined.

(** A resource that names a series and no study is refused, and the
    remote server is not asked. *)
Lemma RetrieveFromServerInternal_refuses_no_study :
  Json.isMember (Json.Object [("Series", Json.Str "1.2.2.1")]) "Study" = false
  /\ RetrieveFromServerInternal RetrieveScenario.client [] "http://remote/dicom-web/"
       [] [] (Json.Object [("Series", Json.Str "1.2.2.1")]) RetrieveScenario.nothing
     = (Throw ErrorCode_BadFileFormat, RetrieveScenario.nothing).
Proof.
  split; [reflexivity|].
  apply RetrieveFromServerInternal_refuses. right. left. reflexivity.
Defined.

(** Two studies whose parts the store names b, a and b, c: the four
    parts are posted, and the answer lists a, b and c. *)
Lemma RetrieveFromServer_answers_sorted_two_studies :
  fst (RetrieveFromServer RetrieveScenario.client
         (RetrieveScenario.request "Resources: [study 1.2.1, study 1.2.2]")
         RetrieveScenario.nothing)
  = Ok (OrthancPluginAnswerBuffer [] "a, b, c" "application/json")
  /\ returned RetrieveScenario.client []
       [{| store_uri := "/instances"; store_data := "b" |};
        {| store_uri := "/instances"; store_data := "a" |};
        {| store_uri := "/instances"; store_data := "b" |};
        {| store_uri := "/instances"; store_data := "c" |}]
     = ["b"; "a"; "b"; "c"]
  /\ exists instances stored,
      "a, b, c" = toStyledString RetrieveScenario.client (Status instances)
      /\ posts (snd (RetrieveFromServer RetrieveScenario.client
                       (RetrieveScenario.request
                          "Resources: [study 1.2.1, study 1.2.2]")
                       RetrieveScenario.nothing))
         = (posts RetrieveScenario.nothing ++ stored)%list
      /\ (forall x,
            In x instances
            <-> In x (returned RetrieveScenario.client
                               (posts RetrieveScenario.nothing) stored))
      /\ Sorted.StronglySorted OrderedTypeEx.String_as_OT.lt instances
      /\ NoDup instances.
Proof.
  split; [vm_compute; reflexivity|]. split; [vm_compute; reflexivity|].
  apply (proj2 (proj2 (RetrieveFromServer_answers_sorted
                         RetrieveScenario.client
                         (RetrieveScenario.request "Resources: [study 1.2.1, study 1.2.2]")
                         RetrieveScenario.nothing _ _ _ _
                         ltac:(vm_compute; reflexivity)))).
Defined.

(** A study followed by a resource without a study: the request fails
    with [ErrorCode_BadFileFormat] after the study was retrieved and
    stored. *)
Lemma RetrieveFromServer_resources_stop_second :
  RetrieveFromServer_resources RetrieveScenario.client "http://remote/dicom-web/" [] []
    [Json.Object [("Study", Json.Str "1.2.1")]] [] RetrieveScenario.nothing
  = (Ok ["a"; "b"],
     {| gets := [{| get_server := "http://remote/dicom-web/";
                    get_headers := [];
                    get_uri := "studies/1.2.1" |}];
        posts := [{| store_uri := "/instances"; store_data := "b" |};
                  {| store_uri := "/instances"; store_data := "a" |}] |})
  /\ RetrieveFromServer_resources RetrieveScenario.client "http://remote/dicom-web/" [] []
       ([Json.Object [("Study", Json.Str "1.2.1")]]
        ++ Json.Object [("Series", Json.Str "1.2.2.1")]
        :: [Json.Object [("Study", Json.Str "1.2.2")]])%list
       [] RetrieveScenario.nothing
     = (Throw ErrorCode_BadFileFormat,
        {| gets := [{| get_server := "http://remote/dicom-web/";
                       get_headers := [];
                       get_uri := "studies/1.2.1" |}];
           posts := [{| store_uri := "/instances"; store_data := "b" |};
                     {| store_uri := "/instances"; store_data := "a" |}] |}).
Proof.
  split; [vm_compute; reflexivity|].
  apply (proj1 (RetrieveFromServer_resources_stop
                  RetrieveScenario.client "http://remote/dicom-web/" [] []
                  [Json.Object [("Study", Json.Str "1.2.1")]]
                  (Json.Object [("Series", Json.Str "1.2.2.1")])
                  [Json.Object [("Study", Json.Str "1.2.2")]]
                  [] RetrieveScenario.nothing _ _ _ _
                  ltac:(vm_compute; reflexivity) ltac:(vm_compute; reflexivity))).
Defined.

End RetrieveScenarios.

Section WadoScenarios.

Import Wado.

(** A request with both checks and no contentType gets the preview of
    the instance as JPEG; the instance is the one of the objectUID, and
    the store reports the series and the study of the request for
    it. *)
Lemma WadoCallback_answers_preview :
  WadoCallback WadoScenario.orthanc WadoScenario.preview
  = Returned 0 (Some (OrthancPluginAnswerBuffer "JPEG of (PNG image)" "image/jpeg"))
  /\ request_method WadoScenario.preview = OrthancPluginHttpMethod_Get
  /\ last_value "requestType" (getArguments WadoScenario.preview) EmptyString = "WADO"
  /\ exists instance,
      OrthancPluginLookupInstance WadoScenario.orthanc
        (last_value "objectUID" (getArguments WadoScenario.preview) EmptyString)
      = Some instance
      /\ belongs WadoScenario.orthanc ("/instances/" ++ instance ++ "/series")
                 "SeriesInstanceUID" "1.2.1.1"
      /\ belongs WadoScenario.orthanc ("/instances/" ++ instance ++ "/study")
                 "StudyInstanceUID" "1.2.1".
Proof.
  split; [reflexivity|].
  destruct (WadoCallback_answers WadoScenario.orthanc WadoScenario.preview _ eq_refl)
    as (M & RT & instance & LI & _ & SE & ST & _).
  split; [exact M|]. split; [exact RT|]. exists instance. split; [exact LI|].
  split; [apply SE|apply ST]; discriminate.
Defined.

(** A POST is answered with the methods allowed and -1. *)
Lemma WadoCallback_code_post :
  WadoCallback WadoScenario.orthanc
    {| request_method := OrthancPluginHttpMethod_Post; getArguments := [] |}
  = Returned (-1) (Some (OrthancPluginSendMethodNotAllowed "GET"))
  /\ (-1 = 0 \/ -1 = -1)
  /\ (-1 = 0 <-> exists answer mimeType,
                  Some (OrthancPluginSendMethodNotAllowed "GET")
                  = Some (OrthancPluginAnswerBuffer answer mimeType)).
Proof.
  split; [reflexivity|].
  destruct (WadoCallback_code
              WadoScenario.orthanc
              {| request_method := OrthancPluginHttpMethod_Post; getArguments := [] |}
              _ _ eq_refl)
    as (C & A & _).
  split; [exact C|exact A].
Defined.

(** The request for the preview gets the same answer without its
    seriesUID and studyUID. *)
Lemma WadoCallback_without_checks_preview :
  WadoCallback WadoScenario.orthanc WadoScenario.preview
  = Returned 0 (Some (OrthancPluginAnswerBuffer "JPEG of (PNG image)" "image/jpeg"))
  /\ getArguments (unchecked WadoScenario.preview)
     = [("requestType", "WADO"); ("objectUID", "1.2.1.1.1")]
  /\ WadoCallback WadoScenario.orthanc (unchecked WadoScenario.preview)
     = Returned 0 (Some (OrthancPluginAnswerBuffer "JPEG of (PNG image)" "image/jpeg")).
Proof.
  split; [reflexivity|]. split; [reflexivity|].
  apply WadoCallback_without_checks. reflexivity.
Defined.

End WadoScenarios.
